(** * AURA backend: session state machine and action orchestration

    A shallow embedding of the Python modules [order_lookup],
    [session_manager], [agents] and [orchestrator], of the chunking of
    [rag] and of the [/chat] endpoint of [main], followed by the properties
    that are established on it.

    Conventions of the embedding.
    - A Python [str] is a [string]; a character stands for the code point
      of the same number (0..255).  Whitespace, digits and case mapping are
      the ones Python uses on that range; [upper] says how the three
      characters are treated whose upper case is not one character of the
      range.
    - A Python [dict] with string keys is a [gmap string _]; the values in
      the JSON data and in the sessions are scalars.
    - The module-level dictionary [SESSION_STATE], the JSON files under
      [data/] and the log of calls to external collaborators form the
      [world] that every operation threads through.  Whether a file can be
      written is part of what a request meets outside, the [env].
    - [try: ... except Exception:] is the [try_except] combinator of a
      state-and-exception monad; a raised exception keeps the world as it
      was when it was raised, as mutation does in Python.
    - Calls to [logger] have no effect on the program and are left out,
      except where evaluating their argument can raise.
    - The clock is read once per request. *)

From stdpp Require Import gmap strings list.
From Stdlib Require Import Ascii String DecimalString DecimalNat ZArith Lia.

Open Scope string_scope.

(** ** Python values and strings *)

Module Py.

(** The scalar values that occur in the JSON data and in the sessions. *)
Inductive pyval :=
| VNone
| VBool (b : bool)
| VInt (n : Z)
| VStr (s : string).

(** Truth value of an object, as tested by [if x] and [not x]. *)
Definition truthy (v : pyval) : bool :=
  match v with
  | VNone => false
  | VBool b => b
  | VInt n => negb (Z.eqb n 0)
  | VStr s => negb (String.eqb s "")
  end.

(** [str(x)], which is what an f-string inserts for [{x}]. *)
Definition str (v : pyval) : string :=
  match v with
  | VNone => "None"
  | VBool true => "True"
  | VBool false => "False"
  | VInt n => NilZero.string_of_int (Z.to_int n)
  | VStr s => s
  end.

(** [x or y] *)
Definition or_else (x y : pyval) : pyval := if truthy x then x else y.

(** [d.get(k)] and [d.get(k, default)] *)
Definition get (d : gmap string pyval) (k : string) : pyval :=
  default VNone (d !! k).
Definition get_default (d : gmap string pyval) (k : string) (dflt : pyval) : pyval :=
  default dflt (d !! k).

Definition code (c : ascii) : nat := nat_of_ascii c.

Definition between (lo n hi : nat) : bool := Nat.leb lo n && Nat.leb n hi.

(** [c.isspace()]; also the class [\s] of [re] on [str] patterns. *)
Definition isspace (c : ascii) : bool :=
  let n := code c in
  between 9 n 13 || between 28 n 31 || Nat.eqb n 32 || Nat.eqb n 133 || Nat.eqb n 160.

(** The class [\d] of [re]: the decimal digits. *)
Definition isdigit (c : ascii) : bool := between 48 (code c) 57.

Definition lower_char (c : ascii) : ascii :=
  let n := code c in
  if between 65 n 90 || (between 192 n 222 && negb (Nat.eqb n 215))
  then ascii_of_nat (n + 32) else c.

(** The upper case of a character, where it is one character. *)
Definition upper_char (c : ascii) : ascii :=
  let n := code c in
  if between 97 n 122 || (between 224 n 254 && negb (Nat.eqb n 247))
  then ascii_of_nat (n - 32) else c.

Fixpoint map_chars (f : ascii -> ascii) (s : string) : string :=
  match s with
  | EmptyString => EmptyString
  | String c s' => String (f c) (map_chars f s')
  end.

Definition lower : string -> string := map_chars lower_char.

(** [s.upper()].  The upper case of [chr(223)] is the two letters [SS].
    The upper cases of [chr(181)] and [chr(255)] are [chr(924)] and
    [chr(376)], outside the range: the two characters stand for their own
    upper case.  No character of the range has [chr(181)] or [chr(255)] as
    its upper case, so two texts have the same upper case here exactly when
    they have the same upper case in Python, and an upper case starts with
    given letters here exactly when it does in Python. *)
Fixpoint upper (s : string) : string :=
  match s with
  | EmptyString => EmptyString
  | String c s' =>
      if Nat.eqb (code c) 223 then String "S" (String "S" (upper s'))
      else String (upper_char c) (upper s')
  end.

Fixpoint lstrip (s : string) : string :=
  match s with
  | EmptyString => EmptyString
  | String c s' => if isspace c then lstrip s' else s
  end.

Fixpoint rstrip (s : string) : string :=
  match s with
  | EmptyString => EmptyString
  | String c s' =>
      match rstrip s' with
      | EmptyString => if isspace c then EmptyString else String c EmptyString
      | r => String c r
      end
  end.

(** [s.strip()] *)
Definition strip (s : string) : string := rstrip (lstrip s).

(** [s.startswith(p)] *)
Fixpoint startswith (s p : string) : bool :=
  match p with
  | EmptyString => true
  | String a p' =>
      match s with
      | EmptyString => false
      | String c s' => Ascii.eqb c a && startswith s' p'
      end
  end.

(** [s.endswith(p)] *)
Fixpoint endswith (s p : string) : bool :=
  String.eqb s p ||
  match s with
  | EmptyString => false
  | String _ s' => endswith s' p
  end.

(** [needle in hay] on strings *)
Fixpoint contains (hay needle : string) : bool :=
  startswith hay needle ||
  match hay with
  | EmptyString => false
  | String _ hay' => contains hay' needle
  end.

(** [s.replace(c, "")] for a one-character [c] *)
Fixpoint remove_char (c : ascii) (s : string) : string :=
  match s with
  | EmptyString => EmptyString
  | String a s' => if Ascii.eqb a c then remove_char c s' else String a (remove_char c s')
  end.

(** [s[:n]] *)
Fixpoint take (n : nat) (s : string) : string :=
  match n, s with
  | S n', String c s' => String c (take n' s')
  | _, _ => EmptyString
  end.

(** [any(p(x) for x in l)] *)
Definition any {A} (p : A -> bool) (l : list A) : bool := existsb p l.

(** [x in l] for a list of strings *)
Definition in_list (x : string) (l : list string) : bool := existsb (String.eqb x) l.

(** ["\n".join(l)] and the like *)
Fixpoint join (sep : string) (l : list string) : string :=
  match l with
  | [] => ""
  | [x] => x
  | x :: l' => x +:+ sep +:+ join sep l'
  end.

(** [f"{n:04d}"] for a natural number *)
Definition pad4 (n : nat) : string :=
  let d := NilEmpty.string_of_uint (Nat.to_uint n) in
  match String.length d with
  | 0 => "0000" | 1 => "000" +:+ d | 2 => "00" +:+ d | 3 => "0" +:+ d | _ => d
  end.

(** [x is None] *)
Definition is_None (v : pyval) : bool :=
  match v with
  | VNone => true
  | _ => false
  end.

Definition nl : string := String (ascii_of_nat 10) EmptyString.
Definition dquote : string := String (ascii_of_nat 34) EmptyString.

End Py.

Import Py.

(** ** The fragment of [re] used by [order_lookup] *)

Module Re.

(** Patterns.  Literals are compared ignoring case, as all searches of the
    program pass [re.IGNORECASE]; repetition is only applied to character
    classes; [RGroup] is a capturing group. *)
Inductive regex :=
| RLit (s : string)
| RSet (p : ascii -> bool)
| RSeq (r1 r2 : regex)
| RAlt (r1 r2 : regex)
| ROpt (r : regex)
| RStar (p : ascii -> bool)
| RPlus (p : ascii -> bool)
| RGroup (r : regex).

Definition eq_nocase (a b : ascii) : bool := Ascii.eqb (lower_char a) (lower_char b).

(** Matching a literal at the start of the input: the matched text and
    the rest. *)
Fixpoint match_lit (l s : string) : option (string * string) :=
  match l with
  | EmptyString => Some (EmptyString, s)
  | String a l' =>
      match s with
      | EmptyString => None
      | String c s' =>
          if eq_nocase c a then
            match match_lit l' s' with
            | Some (m, rest) => Some (String c m, rest)
            | None => None
            end
          else None
      end
  end.

Section Matcher.
Context {R : Type}.

(** A continuation receives the text matched so far by the node, the
    rest of the input and the content of group 1. *)
Definition cont := string -> string -> option string -> option R.

(** Greedy repetition of a class with backtracking: the longest run is
    tried first, then shorter ones. *)
Fixpoint match_star (p : ascii -> bool) (s : string) (g : option string) (k : cont) : option R :=
  match s with
  | String c s' =>
      if p c then
        match match_star p s' g (fun m rest g' => k (String c m) rest g') with
        | Some x => Some x
        | None => k EmptyString s g
        end
      else k EmptyString s g
  | EmptyString => k EmptyString s g
  end.

(** The backtracking matcher: alternatives in pattern order, optional
    parts and repetitions greedy. *)
Fixpoint rmatch (r : regex) (s : string) (g : option string) (k : cont) : option R :=
  match r with
  | RLit l =>
      match match_lit l s with
      | Some (m, rest) => k m rest g
      | None => None
      end
  | RSet p =>
      match s with
      | String c s' => if p c then k (String c EmptyString) s' g else None
      | EmptyString => None
      end
  | RSeq r1 r2 =>
      rmatch r1 s g (fun m1 rest1 g1 =>
        rmatch r2 rest1 g1 (fun m2 rest2 g2 => k (m1 +:+ m2) rest2 g2))
  | RAlt r1 r2 =>
      match rmatch r1 s g k with
      | Some x => Some x
      | None => rmatch r2 s g k
      end
  | ROpt r1 =>
      match rmatch r1 s g k with
      | Some x => Some x
      | None => k EmptyString s g
      end
  | RStar p => match_star p s g k
  | RPlus p =>
      match s with
      | String c s' =>
          if p c then match_star p s' g (fun m rest g' => k (String c m) rest g') else None
      | EmptyString => None
      end
  | RGroup r1 => rmatch r1 s g (fun m rest _ => k m rest (Some m))
  end.
End Matcher.

(** A match object: [group(0)] and [group(1)]. *)
Record rematch := { group0 : string; group1 : option string }.

Definition match_here (r : regex) (s : string) : option rematch :=
  rmatch r s None (fun m _ g => Some {| group0 := m; group1 := g |}).

(** [re.search(r, s, re.IGNORECASE)]: the match at the leftmost position
    that has one. *)
Fixpoint search (r : regex) (s : string) : option rematch :=
  match match_here r s with
  | Some m => Some m
  | None =>
      match s with
      | EmptyString => None
      | String _ s' => search r s'
      end
  end.

(** The language of a pattern, for stating what a text contains. *)
Fixpoint all_chars (p : ascii -> bool) (s : string) : bool :=
  match s with
  | EmptyString => true
  | String c s' => p c && all_chars p s'
  end.

Fixpoint denotes (r : regex) (m : string) : Prop :=
  match r with
  | RLit l => match_lit l m = Some (m, EmptyString)
  | RSet p => exists c, p c = true /\ m = String c EmptyString
  | RSeq r1 r2 => exists m1 m2, m = m1 +:+ m2 /\ denotes r1 m1 /\ denotes r2 m2
  | RAlt r1 r2 => denotes r1 m \/ denotes r2 m
  | ROpt r1 => m = EmptyString \/ denotes r1 m
  | RStar p => all_chars p m = true
  | RPlus p => m <> EmptyString /\ all_chars p m = true
  | RGroup r1 => denotes r1 m
  end.

(** [s] has a substring in the language of [r]. *)
Definition occurs_in (r : regex) (s : string) : Prop :=
  exists pre m post, s = pre +:+ m +:+ post /\ denotes r m.

End Re.

(** ** The world: sessions, data files, external collaborators *)

(** A JSON file of [data/]: missing; not loadable ([open] for reading or
    [json.load] raises); an array of objects; or another JSON document.  Of
    a document that is not an array the program sees two things: it has no
    [append], and the loops over it either end at once (the empty object,
    the empty string) or raise, on a member that has no [get] or on a value
    that cannot be iterated over. *)
Inductive json_file :=
| Absent
| Unreadable
| Records (rs : list (gmap string pyval))
| NotArray (empty : bool).

(** One entry of [conversation_history]. *)
Record history_entry := {
  role : string;
  message : string;
  timestamp : string
}.

(** A session dictionary.  The key [conversation_history] is bound to a
    list when the session is created, and the program only ever appends to
    that list; it is kept apart from the entries that are bound to scalars.
    The functions that bind a key of the caller's choice, [update_session]
    and [update_session_bulk], are embedded for the keys other than
    [conversation_history]: under that key they would replace the list. *)
Record session := {
  slots : gmap string pyval;
  conversation_history : list history_entry
}.

(** Calls to the external collaborators, in the order they are made. *)
Inductive call :=
| CallIntent (msg : string)
| CallRetrieval (query : string)
| CallResponder (context msg session_context : string)
| CallVerifier (draft context : string)
| CallConfirmation (action : string)
| CallRefundEmail (refund_id : string) (product_name user_email : pyval)
| CallReplacementEmail (replacement_id : string) (product_name user_email : pyval)
| CallServiceEmail (service_id : string) (booking_details : gmap string pyval) (user_email : pyval).

Record world := {
  SESSION_STATE : gmap string session;
  orders_json : json_file;
  refunds_json : json_file;
  replacements_json : json_file;
  service_bookings_json : json_file;
  calls : list call
}.

(** What a request meets outside the program: the clock, the hexadecimal
    text of a fresh UUID, the language model ([None] when it could not be
    initialised; an answer [None] when [generate_content] raises), the
    knowledge search ([None] when it raises), and whether the ledger of an
    action type can be opened for writing (it cannot when [data/] is missing
    or may not be written to). *)
Record env := {
  now_iso : string;
  now_stamp : string;
  date_str : string;
  uuid_hex : string;
  model : option (string -> option string);
  search_knowledge : string -> option (list string);
  can_write : string -> bool
}.

(** ** State and exceptions *)

Inductive result (A : Type) :=
| Ok (a : A)
| Raised.
Arguments Ok {A} a.
Arguments Raised {A}.

Definition M (A : Type) : Type := world -> result A * world.

Definition ret {A} (a : A) : M A := fun w => (Ok a, w).
Definition raise {A} : M A := fun w => (Raised, w).
Definition bind {A B} (m : M A) (k : A -> M B) : M B :=
  fun w => match m w with
           | (Ok a, w') => k a w'
           | (Raised, w') => (Raised, w')
           end.
Definition try_except {A} (m : M A) (handler : M A) : M A :=
  fun w => match m w with
           | (Ok a, w') => (Ok a, w')
           | (Raised, w') => handler w'
           end.
Definition gets {A} (f : world -> A) : M A := fun w => (Ok (f w), w).
Definition modify (f : world -> world) : M unit := fun w => (Ok tt, f w).
Definition lift {A} (r : result A) : M A := fun w => (r, w).

Notation "x <- m ;; k" := (bind m (fun x => k))
  (at level 100, m at next level, right associativity).
Notation "m ;;; k" := (bind m (fun _ => k))
  (at level 100, right associativity).

Definition set_sessions (f : gmap string session -> gmap string session) (w : world) : world :=
  {| SESSION_STATE := f (SESSION_STATE w);
     orders_json := orders_json w;
     refunds_json := refunds_json w;
     replacements_json := replacements_json w;
     service_bookings_json := service_bookings_json w;
     calls := calls w |}.

Definition log_call (c : call) (w : world) : world :=
  {| SESSION_STATE := SESSION_STATE w;
     orders_json := orders_json w;
     refunds_json := refunds_json w;
     replacements_json := replacements_json w;
     service_bookings_json := service_bookings_json w;
     calls := (calls w ++ [c])%list |}.

(** ** order_lookup.py *)

Module order_lookup.

(** On a document that is not an array [load_orders] returns the document,
    or [[]] when [len] raises on it; the loop of [get_order_by_id] over it
    ends at once or raises, and the function returns [None] as it does on
    [[]]. *)
Definition load_orders (w : world) : list (gmap string pyval) :=
  match orders_json w with
  | Records rs => rs
  | _ => []
  end.

(** The loop of [get_order_by_id].  [order.get("order_id", "").upper()]
    raises on a value that is not a string; the function catches it and
    returns [None]. *)
Fixpoint scan_orders (order_id_clean : string) (orders : list (gmap string pyval))
  : option (gmap string pyval) :=
  match orders with
  | [] => None
  | order :: rest =>
      match get_default order "order_id" (VStr "") with
      | VStr s =>
          if String.eqb (upper s) order_id_clean then Some order
          else scan_orders order_id_clean rest
      | _ => None
      end
  end.

Definition get_order_by_id (order_id : string) (w : world) : option (gmap string pyval) :=
  scan_orders (upper (strip order_id)) (load_orders w).

(** [order is not None] *)
Definition validate_order_exists (order_id : string) (w : world) : bool :=
  match get_order_by_id order_id w with
  | Some _ => true
  | None => false
  end.

Definition sep_char (c : ascii) : bool := Ascii.eqb c "-" || isspace c.

(** [ORD[-\s]?\d+] *)
Definition ord_core : Re.regex :=
  Re.RSeq (Re.RLit "ORD") (Re.RSeq (Re.ROpt (Re.RSet sep_char)) (Re.RPlus isdigit)).

(** [ORD[-\s]?(\d+)] *)
Definition pattern1 : Re.regex :=
  Re.RSeq (Re.RLit "ORD") (Re.RSeq (Re.ROpt (Re.RSet sep_char)) (Re.RGroup (Re.RPlus isdigit))).

(** [order\s*(?:id|number|#)?\s*:?\s*(ORD[-\s]?\d+)] *)
Definition pattern2 : Re.regex :=
  Re.RSeq (Re.RLit "order")
 (Re.RSeq (Re.RStar isspace)
 (Re.RSeq (Re.ROpt (Re.RAlt (Re.RLit "id") (Re.RAlt (Re.RLit "number") (Re.RLit "#"))))
 (Re.RSeq (Re.RStar isspace)
 (Re.RSeq (Re.ROpt (Re.RLit ":"))
 (Re.RSeq (Re.RStar isspace)
          (Re.RGroup ord_core)))))).

(** [my\s*order\s*(?:is|id)?\s*(ORD[-\s]?\d+)] *)
Definition pattern3 : Re.regex :=
  Re.RSeq (Re.RLit "my")
 (Re.RSeq (Re.RStar isspace)
 (Re.RSeq (Re.RLit "order")
 (Re.RSeq (Re.RStar isspace)
 (Re.RSeq (Re.ROpt (Re.RAlt (Re.RLit "is") (Re.RLit "id")))
 (Re.RSeq (Re.RStar isspace)
          (Re.RGroup ord_core)))))).

Definition patterns : list Re.regex := [pattern1; pattern2; pattern3].

(** The body of the loop once a pattern has matched.  Every pattern has
    one group, so [len(match.groups()) > 0]; [match.lastindex == 1] holds
    when that group took part in the match. *)
Definition normalize (m : Re.rematch) : string :=
  let order_id :=
    match Re.group1 m with
    | Some g => g
    | None => Re.group0 m
    end in
  let order_id := upper (remove_char "-" (remove_char " " order_id)) in
  if negb (startswith order_id "ORD") then "ORD" +:+ order_id else order_id.

Fixpoint first_match (ps : list Re.regex) (message : string) : option string :=
  match ps with
  | [] => None
  | p :: ps' =>
      match Re.search p message with
      | Some m => Some (normalize m)
      | None => first_match ps' message
      end
  end.

Definition extract_order_id_from_message (message : string) : option string :=
  first_match patterns message.

End order_lookup.

(** ** session_manager.py *)

Module session_manager.

Section WithEnv.
Variable E : env.

(** The dictionary built by [create_session]. *)
Definition new_session (session_id : string) : session :=
  {| slots := list_to_map
       [ ("session_id", VStr session_id);
         ("created_at", VStr (now_iso E));
         ("order_id", VNone);
         ("customer_name", VNone);
         ("customer_email", VNone);
         ("customer_phone", VNone);
         ("product_id", VNone);
         ("product_name", VNone);
         ("model_number", VNone);
         ("serial_number", VNone);
         ("purchase_date", VNone);
         ("warranty_years", VNone);
         ("issue_description", VNone);
         ("reason_for_action", VNone);
         ("purchase_date_confirmed", VNone);
         ("preferred_datetime", VNone);
         ("additional_details", VNone);
         ("required_info_collected", VBool false);
         ("conversation_state", VStr "collecting_info");
         ("action_id", VNone);
         ("action_type", VNone) ];
     conversation_history := [] |}.

(** [create_session]: an existing session is returned as it is. *)
Definition create_session_in (session_id : string) (S : gmap string session)
  : gmap string session :=
  match S !! session_id with
  | Some _ => S
  | None => <[session_id := new_session session_id]> S
  end.

Definition the_session (session_id : string) (w : world) : session :=
  default (new_session session_id) (SESSION_STATE w !! session_id).

Definition create_session (session_id : string) : M session :=
  modify (set_sessions (create_session_in session_id)) ;;;
  gets (the_session session_id).

(** [get_session]: both branches yield the stored dictionary, created on
    the way if it was missing. *)
Definition get_session (session_id : string) : M session :=
  present <- gets (fun w => bool_decide (is_Some (SESSION_STATE w !! session_id))) ;;
  if negb present then create_session session_id
  else gets (the_session session_id).

Definition set_slot (key : string) (value : pyval) (s : session) : session :=
  {| slots := <[key := value]> (slots s);
     conversation_history := conversation_history s |}.

Definition update_session_in (session_id key : string) (value : pyval)
  (S : gmap string session) : gmap string session :=
  alter (set_slot key value) session_id (create_session_in session_id S).

Definition update_session (session_id key : string) (value : pyval) : M bool :=
  modify (set_sessions (update_session_in session_id key value)) ;;;
  ret true.

(** [for key, value in data.items(): SESSION_STATE[session_id][key] = value];
    [data] is given in insertion order. *)
Definition update_session_bulk_in (session_id : string) (data : list (string * pyval))
  (S : gmap string session) : gmap string session :=
  fold_left (fun S' kv => alter (set_slot (fst kv) (snd kv)) session_id S')
            data (create_session_in session_id S).

Definition update_session_bulk (session_id : string) (data : list (string * pyval)) : M bool :=
  modify (set_sessions (update_session_bulk_in session_id data)) ;;;
  ret true.

Definition append_entry (e : history_entry) (s : session) : session :=
  {| slots := slots s;
     conversation_history := (conversation_history s ++ [e])%list |}.

Definition add_to_conversation_history_in (session_id role message : string)
  (S : gmap string session) : gmap string session :=
  alter (append_entry {| role := role; message := message; timestamp := now_iso E |})
        session_id (create_session_in session_id S).

Definition add_to_conversation_history (session_id role message : string) : M unit :=
  modify (set_sessions (add_to_conversation_history_in session_id role message)).

(** The context lines of [get_session_context], in order. *)
Definition context_parts (s : session) : list string :=
  let part (key label : string) :=
    if truthy (get (slots s) key) then [label +:+ str (get (slots s) key)] else [] in
  (part "order_id" "Order ID: " ++
   part "customer_name" "Customer: " ++
   part "product_name" "Product: " ++
   part "model_number" "Model: " ++
   part "issue_description" "Issue: ")%list.

(** A session dictionary always has the key [conversation_history], so
    the test [if not session] of the source never holds, here and in
    [check_missing_info_for_action]. *)
Definition get_session_context (session_id : string) : M string :=
  session <- get_session session_id ;;
  let parts := context_parts session in
  match parts with
  | [] => ret ""
  | _ => ret ("Known Information:" +:+ nl +:+
              join nl (map (fun part => "- " +:+ part) parts))
  end.

Definition mark_action_completed_in (session_id action_id action_type : string)
  (S : gmap string session) : gmap string session :=
  alter (fun s => set_slot "conversation_state" (VStr "action_executed")
                   (set_slot "action_type" (VStr action_type)
                     (set_slot "action_id" (VStr action_id) s)))
        session_id S.

Definition mark_action_completed (session_id action_id action_type : string) : M bool :=
  present <- gets (fun w => bool_decide (is_Some (SESSION_STATE w !! session_id))) ;;
  if negb present then ret false
  else
    modify (set_sessions (mark_action_completed_in session_id action_id action_type)) ;;;
    ret true.

(** The dictionary returned by [check_missing_info_for_action]. *)
Record info_status := {
  missing : list string;
  complete : bool;
  prompt : string
}.

Definition order_id_prompt : string :=
  "To process your request, I'll need your **Order ID** (e.g., ORD301).".
Definition refund_reason_prompt : string :=
  "Could you tell me the reason for your refund request?".
Definition replacement_issue_prompt : string :=
  "What issue are you experiencing with the product?".
Definition service_datetime_prompt : string :=
  "When would you prefer the service? Please provide a date and time (e.g., 'December 24, 2025 at 2:00 PM').".

(** The body of [check_missing_info_for_action] once the session has been
    fetched. *)
Definition missing_info (s : session) (action_type : string) : info_status :=
  let missing : list string := [] in
  let missing :=
    if negb (truthy (get (slots s) "order_id")) then (missing ++ ["order_id"])%list else missing in
  let missing :=
    if in_list action_type ["initiate_refund"; "initiate_replacement"] then
      if negb (truthy (get (slots s) "reason_for_action"))
      then (missing ++ ["reason_for_action"])%list else missing
    else missing in
  let missing :=
    if String.eqb action_type "book_service" then
      if negb (truthy (get (slots s) "preferred_datetime"))
      then (missing ++ ["preferred_datetime"])%list else missing
    else missing in
  let prompt :=
    if in_list "order_id" missing then order_id_prompt
    else if in_list "reason_for_action" missing then
      if String.eqb action_type "initiate_refund" then refund_reason_prompt
      else if String.eqb action_type "initiate_replacement" then replacement_issue_prompt
      else ""
    else if in_list "preferred_datetime" missing then service_datetime_prompt
    else "" in
  {| missing := missing;
     complete := Nat.eqb (List.length missing) 0;
     prompt := prompt |}.

Definition check_missing_info_for_action (session_id action_type : string) : M info_status :=
  session <- get_session session_id ;;
  ret (missing_info session action_type).

(** [del SESSION_STATE[session_id]] when the session is there. *)
Definition clear_session (session_id : string) : M bool :=
  present <- gets (fun w => bool_decide (is_Some (SESSION_STATE w !! session_id))) ;;
  if present then
    modify (set_sessions (delete session_id)) ;;;
    ret true
  else ret false.

Definition valid_states : list string :=
  ["collecting_info"; "ready_for_action"; "action_executed"; "completed"].

Definition set_conversation_state (session_id state : string) : M bool :=
  if negb (in_list state valid_states) then ret false
  else update_session session_id "conversation_state" (VStr state).

Definition get_conversation_state (session_id : string) : M pyval :=
  session <- get_session session_id ;;
  ret (get_default (slots session) "conversation_state" (VStr "collecting_info")).

Definition is_info_complete (session_id : string) : M bool :=
  session <- get_session session_id ;;
  let has_order_id := negb (is_None (get (slots session) "order_id")) in
  let has_customer := negb (is_None (get (slots session) "customer_name")) in
  let has_product := negb (is_None (get (slots session) "product_name")) in
  ret (has_order_id || (has_customer && has_product)).

End WithEnv.

End session_manager.

(** ** rag.py *)

Module rag.

(** An index of a slice on a text of length [n]: a negative one counts
    from the end, and both ends are clipped to the text. *)
Definition clip (n i : Z) : Z :=
  if Z.ltb i 0 then Z.max 0 (i + n)%Z else Z.min i n.

(** [text[a:b]] *)
Definition slice (text : string) (a b : Z) : string :=
  let n := Z.of_nat (String.length text) in
  String.substring (Z.to_nat (clip n a)) (Z.to_nat (clip n b - clip n a)%Z) text.

(** The loop of [chunk_text], run for [fuel] iterations at most; [None]
    when the loop has not ended by then. *)
Fixpoint chunk_loop (fuel : nat) (text : string) (chunk_size overlap start : Z)
  : option (list string) :=
  match fuel with
  | O => None
  | S fuel' =>
      if Z.ltb start (Z.of_nat (String.length text)) then
        let end_ := (start + chunk_size)%Z in
        match chunk_loop fuel' text chunk_size overlap (start + (chunk_size - overlap))%Z with
        | Some chunks => Some (slice text start end_ :: chunks)
        | None => None
        end
      else Some []
  end.

(** [chunk_text(text, chunk_size, overlap)].  A loop that ends takes at
    most one iteration for each character and one more. *)
Definition chunk_text (text : string) (chunk_size overlap : Z) : option (list string) :=
  chunk_loop (S (String.length text)) text chunk_size overlap 0.

(** [chunk_text(text)], with the default arguments. *)
Definition chunk_text_default (text : string) : option (list string) :=
  chunk_text text 450%Z 50%Z.

End rag.

(** ** agents.py *)

Module agents.

(** The dictionary returned by [execute_action]: an action that was logged
    (status [success] or [partial]), an unknown action type, or a failure
    caught inside [execute_action]. *)
Inductive action_result :=
| Logged (action action_id status message : string) (data : gmap string pyval)
| UnknownAction (action message : string)
| Failed (action error : string).

Definition status (r : action_result) : string :=
  match r with
  | Logged _ _ st _ _ => st
  | UnknownAction _ _ => "unknown"
  | Failed _ _ => "failed"
  end.

Definition action_id_of (r : action_result) : pyval :=
  match r with
  | Logged _ id _ _ _ => VStr id
  | _ => VNone
  end.

Definition data_of (r : action_result) : gmap string pyval :=
  match r with
  | Logged _ _ _ _ d => d
  | _ => ∅
  end.

Section WithEnv.
Variable E : env.

Definition valid_intents : list string :=
  ["troubleshoot"; "refund"; "replacement"; "service_booking";
   "order_status"; "product_information"; "general_query"].

Definition intent_prompt (user_message : string) : string :=
  join nl
    [ "You are an intent classification agent for a customer support system.";
      "";
      "Your task is to classify the user query into exactly ONE of the following intent labels:";
      "";
      "- troubleshoot";
      "- refund";
      "- replacement";
      "- service_booking";
      "- order_status";
      "- product_information";
      "- general_query";
      "";
      "Rules:";
      "- Choose only ONE label.";
      "- Do not explain your answer.";
      "- Do not add extra text.";
      "- Output only the label.";
      "";
      "User query:";
      user_message ].

Definition intent_agent (user_message : string) : string :=
  match model E with
  | None => "general_query"
  | Some generate_content =>
      match generate_content (intent_prompt user_message) with
      | None => "general_query"
      | Some text =>
          let intent := lower (strip text) in
          if negb (in_list intent valid_intents) then "general_query" else intent
      end
  end.

Definition retrieval_agent (query : string) : string :=
  match search_knowledge E query with
  | None => ""
  | Some docs =>
      match docs with
      | [] => ""
      | _ => join (nl +:+ nl) docs
      end
  end.

Definition responder_prompt (context message session_context : string) : string :=
  join nl
    [ "You are AURA, a professional and empathetic customer support executive.";
      "";
      "Your job is to answer the user accurately using ONLY the provided context.";
      "If the context is insufficient, clearly state what additional information is required.";
      "";
      session_context;
      "";
      "CRITICAL RULES:";
      "- Be clear, polite, and professional.";
      "- Respond in the SAME language as the user.";
      "- Provide step-by-step guidance if troubleshooting.";
      "- Do not invent facts, policies, or procedures.";
      "- DO NOT ask for information already mentioned in " +:+ dquote +:+ "Known Information" +:+ dquote +:+ " above";
      "- Only ask for information that is truly missing and required";
      "";
      "Context:";
      (if negb (String.eqb context "") then context else "No context available");
      "";
      "User query:";
      message ].

Definition responder_agent (context message session_context : string) : string :=
  match model E with
  | None => "I apologize, but I'm experiencing technical difficulties. Please try again later."
  | Some generate_content =>
      match generate_content (responder_prompt context message session_context) with
      | None => "I apologize, but I'm having trouble processing your request. Please try again."
      | Some text => strip text
      end
  end.

Definition verifier_prompt (draft_response context : string) : string :=
  join nl
    [ "You are a response quality verifier.";
      "";
      "Context:";
      context;
      "";
      "Draft Response:";
      draft_response;
      "";
      "Task: Verify if the draft response is accurate, helpful, and professional.";
      "If it's good, return it unchanged. If it needs minor fixes, return the corrected version.";
      "";
      "Rules:";
      "- Keep the tone professional and friendly";
      "- Ensure accuracy";
      "- Only output the final response text (no explanations)" ].

Definition verifier_agent (draft_response context : string) : string :=
  match model E with
  | None => draft_response
  | Some generate_content =>
      match generate_content (verifier_prompt draft_response context) with
      | None => draft_response
      | Some text => strip text
      end
  end.

(** [intent_to_action.get(intent, "none")] *)
Definition intent_to_action : gmap string string :=
  list_to_map
    [ ("refund", "initiate_refund");
      ("replacement", "initiate_replacement");
      ("service_booking", "book_service");
      ("order_status", "none");
      ("product_information", "none");
      ("troubleshoot", "none");
      ("general_query", "none") ].

Definition action_agent (intent verified_response : string) : string :=
  default "none" (intent_to_action !! intent).

Definition confirmation_prompt (action_type : string) : string :=
  join nl
    [ "You are confirming an operational action with the customer.";
      "";
      "Politely ask for confirmation to proceed.";
      "Clearly explain what will happen next.";
      "";
      "Action:";
      action_type ].

Definition action_confirmation_agent (action_type : string) : option string :=
  if String.eqb action_type "none" then None
  else
    match model E with
    | None => Some ("To proceed with " +:+ action_type +:+ ", please confirm.")
    | Some generate_content =>
        match generate_content (confirmation_prompt action_type) with
        | None => Some ("To proceed with " +:+ action_type +:+ ", please confirm.")
        | Some text => Some (strip text)
        end
    end.

(** The prefix and the ledger file of an action type. *)
Definition ledger (action_type : string) : option (string * (world -> json_file)) :=
  if String.eqb action_type "initiate_refund" then Some ("REF", refunds_json)
  else if String.eqb action_type "initiate_replacement" then Some ("REP", replacements_json)
  else if String.eqb action_type "book_service" then Some ("SRV", service_bookings_json)
  else None.

(** [[r for r in records if date_str in r.get('id', '')]]; the test raises
    on an [id] that is not a string. *)
Fixpoint today_records (records : list (gmap string pyval)) : result (list (gmap string pyval)) :=
  match records with
  | [] => Ok []
  | r :: records' =>
      match get_default r "id" (VStr "") with
      | VStr id =>
          match today_records records' with
          | Ok l => Ok (if contains id (date_str E) then r :: l else l)
          | Raised => Raised
          end
      | _ => Raised
      end
  end.

Definition generate_action_id (action_type : string) (w : world) : string :=
  match ledger action_type with
  | None => "ACTION-" +:+ date_str E +:+ "-0001"
  | Some (prefix, file) =>
      let sequence :=
        match file w with
        | Absent => Ok 1
        | Unreadable => Raised
        | Records records =>
            match today_records records with
            | Ok today => Ok (List.length today + 1)
            | Raised => Raised
            end
        | NotArray empty => if empty then Ok 1 else Raised
        end in
      match sequence with
      | Ok sequence => prefix +:+ "-" +:+ date_str E +:+ "-" +:+ pad4 sequence
      | Raised => "ERR-" +:+ date_str E +:+ "-0000"
      end
  end.

Definition write_ledger (action_type : string) (f : json_file) (w : world) : world :=
  {| SESSION_STATE := SESSION_STATE w;
     orders_json := orders_json w;
     refunds_json :=
       if String.eqb action_type "initiate_refund" then f else refunds_json w;
     replacements_json :=
       if String.eqb action_type "initiate_replacement" then f else replacements_json w;
     service_bookings_json :=
       if String.eqb action_type "book_service" then f else service_bookings_json w;
     calls := calls w |}.

(** The file is read, the record appended and the file written back;
    whatever raises on the way makes the function return [False].  Opening
    the file for writing either fails, leaving it as it is, or the whole
    array is written. *)
Definition save_action_data (action_type : string) (action_data : gmap string pyval) : M bool :=
  match ledger action_type with
  | None => ret false
  | Some (_, file) =>
      try_except
        (current <- gets file ;;
         records <-
           match current with
           | Absent => ret []
           | Unreadable => raise
           | Records records => ret records
           | NotArray _ => raise
           end ;;
         if can_write E action_type then
           modify (write_ledger action_type (Records (records ++ [action_data])%list)) ;;;
           ret true
         else raise)
        (ret false)
  end.

(** [user_details.get(key, dflt) if user_details else dflt] *)
Definition detail (user_details : gmap string pyval) (key : string) (dflt : pyval) : pyval :=
  if bool_decide (user_details = ∅) then dflt else get_default user_details key dflt.

Definition common_data (id_key action_id : string) (user_details : gmap string pyval)
  : list (string * pyval) :=
  [ ("id", VStr action_id);
    (id_key, VStr action_id);
    ("product_name", detail user_details "product_name" (VStr "N/A"));
    ("user_email", detail user_details "email" (VStr ""));
    ("user_name", detail user_details "name" (VStr "")) ].

Definition action_data (action action_id : string) (user_details : gmap string pyval)
  : option (gmap string pyval) :=
  if String.eqb action "initiate_refund" then
    Some (list_to_map (common_data "refund_id" action_id user_details ++
           [ ("date", VStr (now_stamp E)); ("status", VStr "processing") ])%list)
  else if String.eqb action "initiate_replacement" then
    Some (list_to_map (common_data "replacement_id" action_id user_details ++
           [ ("date", VStr (now_stamp E)); ("status", VStr "processing") ])%list)
  else if String.eqb action "book_service" then
    Some (list_to_map (common_data "service_id" action_id user_details ++
           [ ("user_address", detail user_details "address" (VStr ""));
             ("contact_number", detail user_details "phone" (VStr ""));
             ("service_center", detail user_details "service_center" (VStr "Nearest Center"));
             ("scheduled_date", detail user_details "scheduled_date" (VStr "TBD"));
             ("time_slot", detail user_details "time_slot" (VStr "TBD"));
             ("date", VStr (now_stamp E)) ])%list)
  else None.

(** Nothing in the body of [execute_action] raises here, so its handler,
    which returns the status [failed], is never entered. *)
Definition execute_action (action : string) (user_details : gmap string pyval)
  : M (option action_result) :=
  if String.eqb action "none" then ret None
  else
    action_id <- gets (generate_action_id action) ;;
    match action_data action action_id user_details with
    | None => ret (Some (UnknownAction action ("Unknown action type: " +:+ action)))
    | Some data =>
        save_success <- save_action_data action data ;;
        ret (Some (Logged action action_id
                     (if save_success then "success" else "partial")
                     ("Action '" +:+ action +:+ "' has been logged with ID: " +:+ action_id)
                     data))
    end.

End WithEnv.

End agents.

(** ** orchestrator.py *)

Module orchestrator.

(** The dictionary returned by [process_message]. *)
Record response := {
  answer : string;
  intent : string;
  rag_sources : string;
  action : string;
  action_confirmation : option string;
  action_log : option agents.action_result;
  session_id : string
}.

Definition action_intents : list string :=
  ["initiate_refund"; "initiate_replacement"; "book_service"].

Definition datetime_keywords : list string :=
  ["tomorrow"; "monday"; "tuesday"; "wednesday"; "thursday"; "friday";
   "saturday"; "sunday"; "next week"; "pm"; "am"; "december"; "january"].

(** [action_labels.get(a, "request")] *)
Definition action_label (a : string) : string :=
  if String.eqb a "initiate_refund" then "refund"
  else if String.eqb a "initiate_replacement" then "replacement"
  else if String.eqb a "book_service" then "service appointment"
  else "request".

(** The message composed by the flow controller. *)
Definition acknowledgement (customer_name product_name order_id : pyval) (intent : string)
  : string :=
  "Thank you, " +:+ str customer_name +:+
  ". I understand you'd like to proceed with a " +:+ action_label intent +:+
  " for " +:+ str product_name +:+ " (Order ID: " +:+ str order_id +:+ ")." +:+ nl +:+ nl +:+
  "I'm processing your " +:+ action_label intent +:+ " request now. Please wait a moment...".

(** The message that replaces the answer after a successful action. *)
Definition confirmation (action : string) (action_id : pyval) : string :=
  "Your " +:+ action_label action +:+ " request has been processed." +:+ nl +:+ nl +:+
  "**Request ID:** " +:+ str action_id +:+ nl +:+ nl +:+
  "You'll receive confirmation via email shortly.".

Definition error_response (session_id : string) : response :=
  {| answer := "I apologize, but I encountered an error processing your request. Please try again.";
     intent := "error";
     rag_sources := "";
     action := "none";
     action_confirmation := None;
     action_log := None;
     session_id := if negb (String.eqb session_id "") then session_id else "unknown" |}.

Section Pipeline.
Variable E : env.

(** The five functions imported from [agents] that consult the language
    model or the knowledge base. *)
Variable intent_agent : string -> result string.
Variable retrieval_agent : string -> result string.
Variable responder_agent : string -> string -> string -> result string.
Variable verifier_agent : string -> string -> result string.
Variable action_confirmation_agent : string -> result (option string).

Definition call_out {A} (c : call) (r : result A) : M A :=
  modify (log_call c) ;;; lift r.

(** [session.get(key)] and [session.get(key, dflt)].  [session] is the
    dictionary stored under [session_id], not a copy: what the functions of
    [session_manager] write is seen through it. *)
Definition session_get (session_id key : string) : M pyval :=
  gets (fun w => get (slots (session_manager.the_session E session_id w)) key).
Definition session_get_default (session_id key : string) (dflt : pyval) : M pyval :=
  gets (fun w => get_default (slots (session_manager.the_session E session_id w)) key dflt).

(** Lines 39-62: the order identifier found in the message is looked up
    and the order is copied into the session. *)
Definition link_order (session_id message : string) : M unit :=
  match order_lookup.extract_order_id_from_message message with
  | Some extracted_order_id =>
      if negb (String.eqb extracted_order_id "") then
        order_data <- gets (order_lookup.get_order_by_id extracted_order_id) ;;
        match order_data with
        | Some order_data =>
            if negb (bool_decide (order_data = ∅)) then
              session_manager.update_session_bulk E session_id
                [ ("order_id", get order_data "order_id");
                  ("customer_name", get order_data "customer_name");
                  ("customer_email", get order_data "customer_email");
                  ("customer_phone", get order_data "customer_phone");
                  ("product_id", get order_data "product_id");
                  ("product_name", get order_data "product_name");
                  ("serial_number", get order_data "serial_number");
                  ("purchase_date", get order_data "purchase_date");
                  ("warranty_years", get order_data "warranty_years") ] ;;;
              ret tt
            else ret tt
        | None => ret tt
        end
      else ret tt
  | None => ret tt
  end.

(** Lines 65-69 *)
Definition capture_reason (session_id message : string) : M unit :=
  order_id <- session_get session_id "order_id" ;;
  reason <- session_get session_id "reason_for_action" ;;
  if truthy order_id && negb (truthy reason) then
    if Nat.ltb 10 (String.length message) && negb (endswith (strip message) "?") then
      session_manager.update_session E session_id "reason_for_action" (VStr (strip message)) ;;;
      ret tt
    else ret tt
  else ret tt.

(** Lines 71-76 *)
Definition capture_datetime (session_id message : string) : M unit :=
  order_id <- session_get session_id "order_id" ;;
  preferred <- session_get session_id "preferred_datetime" ;;
  if truthy order_id && negb (truthy preferred) then
    if any (fun keyword => contains (lower message) keyword) datetime_keywords then
      session_manager.update_session E session_id "preferred_datetime" (VStr (strip message)) ;;;
      ret tt
    else ret tt
  else ret tt.

(** Lines 97-138: the flow controller, or the responder followed by the
    verifier.  The result is [verified_response]. *)
Definition respond (session_id message intent context session_context : string) : M string :=
  order_id <- session_get session_id "order_id" ;;
  if truthy order_id && in_list intent action_intents then
    customer_name <- session_get_default session_id "customer_name" (VStr "Customer") ;;
    product_name <- session_get_default session_id "product_name" (VStr "your product") ;;
    order_id <- session_get session_id "order_id" ;;
    ret (acknowledgement customer_name product_name order_id intent)
  else
    draft_response <-
      try_except
        (call_out (CallResponder context message session_context)
                  (responder_agent context message session_context))
        (ret "I apologize, but I'm experiencing technical difficulties. Please try again later.") ;;
    try_except
      (call_out (CallVerifier draft_response context)
                (verifier_agent draft_response context))
      (ret draft_response).

(** Lines 206-226: the confirmation e-mail.  Its result is only logged. *)
Definition notify (action action_id : string) (action_result : agents.action_result)
  (user_details : gmap string pyval) : M unit :=
  let user_email := get user_details "email" in
  let product_name := get_default user_details "product_name" (VStr "Your Product") in
  if String.eqb action "initiate_refund" then
    modify (log_call (CallRefundEmail action_id product_name user_email))
  else if String.eqb action "initiate_replacement" then
    modify (log_call (CallReplacementEmail action_id product_name user_email))
  else if String.eqb action "book_service" then
    modify (log_call (CallServiceEmail action_id (agents.data_of action_result) user_email))
  else ret tt.

(** Lines 162-234.  The result is [(verified_response, action, action_result)]. *)
Definition act (session_id verified_response action : string)
  : M (string * string * option agents.action_result) :=
  if negb (String.eqb action "none") then
    try_except
      (info_status <- session_manager.check_missing_info_for_action E session_id action ;;
       if negb (session_manager.complete info_status) then
         ret (session_manager.prompt info_status, "none", None)
       else
         email <- session_get session_id "customer_email" ;;
         name <- session_get session_id "customer_name" ;;
         product_name <- session_get session_id "product_name" ;;
         order_id <- session_get session_id "order_id" ;;
         phone <- session_get session_id "customer_phone" ;;
         let user_details : gmap string pyval :=
           list_to_map [ ("email", email); ("name", name); ("product_name", product_name);
                         ("order_id", order_id); ("phone", or_else phone (VStr "")) ] in
         action_result <- agents.execute_action E action user_details ;;
         match action_result with
         | Some result =>
             if String.eqb (agents.status result) "success" then
               let action_id := agents.action_id_of result in
               notify action (str action_id) result user_details ;;;
               session_manager.mark_action_completed session_id (str action_id) action ;;;
               ret (confirmation action action_id, action, action_result)
             else ret (verified_response, action, action_result)
         | None => ret (verified_response, action, action_result)
         end)
      (ret (verified_response +:+ nl +:+ nl +:+
            "I apologize, but I encountered an error processing your request. Please try again or contact support directly.",
            action, Some (agents.Failed action "")))
  else ret (verified_response, action, None).

(** The body of the outer [try] of [process_message]. *)
Definition pipeline (message : pyval) (session_id : string) : M response :=
  (* line 31: [message[:50]] needs a string *)
  message <- match message with VStr s => ret s | _ => raise end ;;
  session_manager.get_session E session_id ;;;
  session_manager.add_to_conversation_history E session_id "user" message ;;;
  link_order session_id message ;;;
  capture_reason session_id message ;;;
  capture_datetime session_id message ;;;
  session_context <- session_manager.get_session_context E session_id ;;
  intent <- try_except (call_out (CallIntent message) (intent_agent message))
                       (ret "general_query") ;;
  context <- try_except (call_out (CallRetrieval message) (retrieval_agent message))
                        (ret "") ;;
  verified_response <- respond session_id message intent context session_context ;;
  let action := agents.action_agent intent verified_response in
  confirmation_message <-
    (if negb (String.eqb action "none") then
       try_except (call_out (CallConfirmation action) (action_confirmation_agent action))
                  (ret None)
     else ret None) ;;
  outcome <- act session_id verified_response action ;;
  let '(verified_response, action, action_result) := outcome in
  session_manager.add_to_conversation_history E session_id "assistant" verified_response ;;;
  ret {| answer := verified_response;
         intent := intent;
         rag_sources := take 500 context;
         action := action;
         action_confirmation := confirmation_message;
         action_log := action_result;
         session_id := session_id |}.

(** Lines 27-29: the session identifier the request runs under. *)
Definition resolve_session_id (session_id : option string) : string :=
  match session_id with
  | Some s => if negb (String.eqb s "") then s else "session_" +:+ take 12 (uuid_hex E)
  | None => "session_" +:+ take 12 (uuid_hex E)
  end.

(** [process_message(message, session_id=None)], with the functions of
    [agents] it calls as parameters. *)
Definition process_message_with (message : pyval) (session_id : option string) : M response :=
  let session_id := resolve_session_id session_id in
  try_except (pipeline message session_id) (ret (error_response session_id)).

End Pipeline.

(** [process_message] as the module defines it, calling the functions of
    [agents].  Each of them catches its own exceptions. *)
Definition process_message (E : env) : pyval -> option string -> M response :=
  process_message_with E
    (fun m => Ok (agents.intent_agent E m))
    (fun q => Ok (agents.retrieval_agent E q))
    (fun c m s => Ok (agents.responder_agent E c m s))
    (fun d c => Ok (agents.verifier_agent E d c))
    (fun a => Ok (agents.action_confirmation_agent E a)).

End orchestrator.

(** ** main.py *)

Module main.

(** The body of a request to [/chat], as [pydantic] has validated it. *)
Record ChatRequest := {
  message : string;
  session_id : option string
}.

(** What the endpoint does: it returns the dictionary of
    [process_message], or it raises an [HTTPException]. *)
Inductive outcome :=
| Returned (result : orchestrator.response)
| HTTPException (status_code : nat) (detail : string).

(** [chat].  The text of the exception caught by the last handler is not
    represented; the detail of the status 500 ends with it. *)
Definition chat (E : env) (request : ChatRequest) : M outcome :=
  if String.eqb (message request) "" || String.eqb (strip (message request)) "" then
    ret (HTTPException 400 "Message cannot be empty")
  else if Nat.ltb 5000 (String.length (message request)) then
    ret (HTTPException 400 "Message too long (max 5000 characters)")
  else
    let session_id :=
      match session_id request with
      | Some s => if negb (String.eqb s "") then s else "session_" +:+ take 12 (uuid_hex E)
      | None => "session_" +:+ take 12 (uuid_hex E)
      end in
    try_except
      (result <- orchestrator.process_message E (VStr (message request)) (Some session_id) ;;
       ret (Returned result))
      (ret (HTTPException 500 "Internal server error: ")).

End main.

(** * Vocabulary of the statements *)

(** ** Sessions and calls *)

(** The entry of a session under a key, and its value as [session.get(key)]
    and [session.get(key, dflt)] read it. *)
Definition entry (E : env) (session_id key : string) (w : world) : option pyval :=
  slots (session_manager.the_session E session_id w) !! key.
Definition slot (E : env) (session_id key : string) (w : world) : pyval :=
  default VNone (entry E session_id key w).
Definition slot_default (E : env) (session_id key : string) (dflt : pyval) (w : world) : pyval :=
  default dflt (entry E session_id key w).

Definition view (E : env) (session_id : string) (S : gmap string session) : session :=
  default (session_manager.new_session E session_id) (S !! session_id).

Definition is_responder_call (c : call) : bool :=
  match c with CallResponder _ _ _ => true | _ => false end.
Definition is_verifier_call (c : call) : bool :=
  match c with CallVerifier _ _ => true | _ => false end.
Definition is_generative_call (c : call) : bool := is_responder_call c || is_verifier_call c.
Definition is_email_call (c : call) : bool :=
  match c with
  | CallRefundEmail _ _ _ | CallReplacementEmail _ _ _ | CallServiceEmail _ _ _ => true
  | _ => false
  end.

(** The value a guarded call leaves in its variable. *)
Definition value_or {A} (r : result A) (dflt : A) : A :=
  match r with Ok a => a | Raised => dflt end.

(** Two worlds that differ at most in the ledgers, and two worlds with
    the same ledgers. *)
Definition same_but_ledgers (w w' : world) : Prop :=
  SESSION_STATE w' = SESSION_STATE w /\ calls w' = calls w /\ orders_json w' = orders_json w.
Definition same_ledgers (w w' : world) : Prop :=
  refunds_json w' = refunds_json w /\
  replacements_json w' = replacements_json w /\
  service_bookings_json w' = service_bookings_json w.

(** The keys that executing an action does not write. *)
Definition untouched_by_action (key : string) : Prop :=
  key <> "action_id" /\ key <> "action_type" /\ key <> "conversation_state".

(** ** Stages of the pipeline *)

(** The order a message links to the session, if any (lines 39-62). *)
Definition linked_order (msg : string) (w : world) : option (gmap string pyval) :=
  match order_lookup.extract_order_id_from_message msg with
  | Some oid =>
      if negb (String.eqb oid "") then
        match order_lookup.get_order_by_id oid w with
        | Some od => if negb (bool_decide (od = ∅)) then Some od else None
        | None => None
        end
      else None
  | None => None
  end.

Definition order_fields (order_data : gmap string pyval) : list (string * pyval) :=
  [ ("order_id", get order_data "order_id");
    ("customer_name", get order_data "customer_name");
    ("customer_email", get order_data "customer_email");
    ("customer_phone", get order_data "customer_phone");
    ("product_id", get order_data "product_id");
    ("product_name", get order_data "product_name");
    ("serial_number", get order_data "serial_number");
    ("purchase_date", get order_data "purchase_date");
    ("warranty_years", get order_data "warranty_years") ].

(** The tests of lines 65-67 and 71-74. *)
Definition reason_condition (E : env) (sid msg : string) (w : world) : bool :=
  truthy (slot E sid "order_id" w) && negb (truthy (slot E sid "reason_for_action" w)) &&
  (Nat.ltb 10 (String.length msg) && negb (endswith (strip msg) "?")).
Definition datetime_condition (E : env) (sid msg : string) (w : world) : bool :=
  truthy (slot E sid "order_id" w) && negb (truthy (slot E sid "preferred_datetime" w)) &&
  any (fun keyword => contains (lower msg) keyword) orchestrator.datetime_keywords.

(** The world once the message is in the history and the order it names,
    if any, has been copied into the session (lines 33-62). *)
Definition after_linkage (E : env) (sid msg : string) (w : world) : world :=
  let w2 := set_sessions (session_manager.add_to_conversation_history_in E sid "user" msg)
              (set_sessions (session_manager.create_session_in E sid) w) in
  match linked_order msg w2 with
  | Some od => set_sessions (session_manager.update_session_bulk_in E sid (order_fields od)) w2
  | None => w2
  end.

(** The world once the two slot captures have run (lines 65-76). *)
Definition after_capture (E : env) (sid msg : string) (w : world) : world :=
  let w3 := after_linkage E sid msg w in
  let w4 :=
    if reason_condition E sid msg w3
    then set_sessions (session_manager.update_session_in E sid "reason_for_action" (VStr (strip msg))) w3
    else w3 in
  if datetime_condition E sid msg w4
  then set_sessions (session_manager.update_session_in E sid "preferred_datetime" (VStr (strip msg))) w4
  else w4.

Definition session_context_of (E : env) (sid : string) (w : world) : string :=
  match session_manager.context_parts (session_manager.the_session E sid w) with
  | [] => ""
  | parts => "Known Information:" +:+ nl +:+ join nl (map (fun part => "- " +:+ part) parts)
  end.

(** The intent and the context the pipeline works with (lines 81-95). *)
Definition classified (intent_agent : string -> result string) (msg : string) : string :=
  value_or (intent_agent msg) "general_query".
Definition retrieved (retrieval_agent : string -> result string) (msg : string) : string :=
  value_or (retrieval_agent msg) "".

(** The world the flow controller sees. *)
Definition before_respond (E : env) (sid msg : string) (w : world) : world :=
  log_call (CallRetrieval msg) (log_call (CallIntent msg)
    (set_sessions (session_manager.create_session_in E sid) (after_capture E sid msg w))).

(** The condition of the flow controller (line 101). *)
Definition bypass (E : env) (sid intent : string) (w : world) : bool :=
  truthy (slot E sid "order_id" w) && in_list intent orchestrator.action_intents.

(** The dictionary [user_details] of lines 178-184. *)
Definition user_details_of (E : env) (sid : string) (w : world) : gmap string pyval :=
  list_to_map
    [ ("email", slot E sid "customer_email" w);
      ("name", slot E sid "customer_name" w);
      ("product_name", slot E sid "product_name" w);
      ("order_id", slot E sid "order_id" w);
      ("phone", or_else (slot E sid "customer_phone" w) (VStr "")) ].

(** The action type the pipeline resolves from an intent; [action_agent]
    does not look at its second argument. *)
Definition resolved_action (intent : string) : string := agents.action_agent intent "".

(** ** The slot-fill table, as the specification gives it *)

Definition is_action_type (a : string) : Prop :=
  a = "initiate_refund" \/ a = "initiate_replacement" \/ a = "book_service".

Definition required_slots (action_type : string) : list string :=
  if in_list action_type ["initiate_refund"; "initiate_replacement"]
  then ["order_id"; "reason_for_action"]
  else if String.eqb action_type "book_service"
  then ["order_id"; "preferred_datetime"]
  else ["order_id"].

Definition question (action_type key : string) : string :=
  if String.eqb key "order_id" then
    "To process your request, I'll need your **Order ID** (e.g., ORD301)."
  else if String.eqb action_type "initiate_refund" then
    "Could you tell me the reason for your refund request?"
  else if String.eqb action_type "initiate_replacement" then
    "What issue are you experiencing with the product?"
  else
    "When would you prefer the service? Please provide a date and time (e.g., 'December 24, 2025 at 2:00 PM').".

(** ** Action identifiers and ledgers *)

(** [s[n:]] *)
Fixpoint drop (n : nat) (s : string) : string :=
  match n, s with
  | S n', String _ s' => drop n' s'
  | _, _ => s
  end.

(** A date as [strftime("%Y%m%d")] prints it: eight digits. *)
Definition is_date (d : string) : bool :=
  Nat.eqb (String.length d) 8 && Re.all_chars isdigit d.

(** [^(P1|P2|...)-\d{8}-\d{4}$] for prefixes of three letters *)
Definition has_id_format (prefixes : list string) (id : string) : bool :=
  Nat.eqb (String.length id) 17 &&
  in_list (take 3 id) prefixes &&
  String.eqb (take 1 (drop 3 id)) "-" &&
  Re.all_chars isdigit (take 8 (drop 4 id)) &&
  String.eqb (take 1 (drop 12 id)) "-" &&
  Re.all_chars isdigit (drop 13 id).

(** The number of records of today in a ledger file; reading it raises on
    a file that cannot be loaded or on an [id] that is not a string. *)
Definition ledger_count (E : env) (f : json_file) : result nat :=
  match f with
  | Absent => Ok 0
  | Unreadable => Raised
  | Records records =>
      match agents.today_records E records with
      | Ok today => Ok (List.length today)
      | Raised => Raised
      end
  | NotArray empty => if empty then Ok 0 else Raised
  end.

Definition records_of (f : json_file) : list (gmap string pyval) :=
  match f with
  | Records records => records
  | _ => []
  end.

Definition id_of (r : gmap string pyval) : pyval := get_default r "id" (VStr "").

(** The records whose [id] is a text that holds a date, counted as the
    specification counts them, and the ledgers in which every [id] is a
    text. *)
Definition on_date (d : string) (r : gmap string pyval) : bool :=
  match id_of r with
  | VStr id => contains id d
  | _ => false
  end.

Definition count_on_date (d : string) (records : list (gmap string pyval)) : nat :=
  List.length (List.filter (on_date d) records).

Definition string_ids (records : list (gmap string pyval)) : Prop :=
  Forall (fun r => exists id, id_of r = VStr id) records.

(** A ledger to which a record can be appended: it is not there yet, or it
    holds an array. *)
Definition appendable (f : json_file) : bool :=
  match f with
  | Absent | Records _ => true
  | Unreadable | NotArray _ => false
  end.

(** Whether a record can be saved: it can be appended to what the ledger
    holds and the file can be written. *)
Definition saves (E : env) (action : string) (f : json_file) : bool :=
  appendable f && can_write E action.

(** One request to execute an action: the reading of the outside world it
    runs under, the action type and the user details. *)
Record step := {
  step_env : env;
  step_action : string;
  step_details : gmap string pyval
}.

(** Single-threaded execution: the requests run one after the other.  The
    result lists, in order, the action type and what [execute_action]
    returned. *)
Fixpoint run_actions (steps : list step) (w : world)
  : list (string * option agents.action_result) * world :=
  match steps with
  | [] => ([], w)
  | s :: steps' =>
      match agents.execute_action (step_env s) (step_action s) (step_details s) w with
      | (Ok r, w') =>
          let (results, w'') := run_actions steps' w' in
          ((step_action s, r) :: results, w'')
      | (Raised, w') => ([], w')
      end
  end.

(** The identifiers of the successfully executed actions of a type, in
    order of execution. *)
Fixpoint successes (a : string) (results : list (string * option agents.action_result))
  : list string :=
  match results with
  | [] => []
  | (a', Some (agents.Logged _ action_id "success" _ _)) :: results' =>
      if String.eqb a' a then action_id :: successes a results' else successes a results'
  | _ :: results' => successes a results'
  end.

(** ** Order identifiers *)

(** A non-empty run of digits. *)
Definition digit_run (ds : string) : Prop := ds <> "" /\ Re.all_chars isdigit ds = true.

(** ** A small deployment, for the examples *)

Definition demo_env : env :=
  {| now_iso := "2025-12-01T10:00:00";
     now_stamp := "2025-12-01 10:00:00";
     date_str := "20251201";
     uuid_hex := "0123456789abcdef0123456789abcdef";
     model := Some (fun _ => Some " Refund ");
     search_knowledge := fun _ => Some ["Refunds are accepted within 30 days."];
     can_write := fun _ => true |}.

Definition demo_order : gmap string pyval :=
  list_to_map
    [ ("order_id", VStr "ORD201");
      ("customer_name", VStr "Asha Rao");
      ("customer_email", VStr "asha@example.com");
      ("product_name", VStr "Mixer Grinder");
      ("warranty_years", VInt 2) ].

(** No session yet, one order on file, no ledger written. *)
Definition demo_world : world :=
  {| SESSION_STATE := ∅;
     orders_json := Records [demo_order];
     refunds_json := Absent;
     replacements_json := Absent;
     service_bookings_json := Absent;
     calls := [] |}.

(** The session [s1] knows its order and nothing else. *)
Definition demo_session : session :=
  session_manager.set_slot "product_name" (VStr "Mixer Grinder")
    (session_manager.set_slot "customer_name" (VStr "Asha Rao")
      (session_manager.set_slot "order_id" (VStr "ORD201")
        (session_manager.new_session demo_env "s1"))).

Definition demo_world_linked : world :=
  {| SESSION_STATE := {[ "s1" := demo_session ]};
     orders_json := Records [demo_order];
     refunds_json := Absent;
     replacements_json := Absent;
     service_bookings_json := Absent;
     calls := [] |}.

(** A refund ledger that already holds 9999 records of the day. *)
Definition demo_world_busy : world :=
  {| SESSION_STATE := ∅;
     orders_json := Records [demo_order];
     refunds_json := Records (repeat {[ "id" := VStr "REF-20251201-0001" ]} (99 * 101));
     replacements_json := Absent;
     service_bookings_json := Absent;
     calls := [] |}.


Definition demo_details : gmap string pyval :=
  list_to_map [ ("email", VStr "asha@example.com"); ("name", VStr "Asha Rao");
                ("product_name", VStr "Mixer Grinder"); ("order_id", VStr "ORD201");
                ("phone", VStr "") ].

(** A refund, a replacement and a second refund, on the same day. *)
Definition demo_steps : list step :=
  [ {| step_env := demo_env; step_action := "initiate_refund"; step_details := demo_details |};
    {| step_env := demo_env; step_action := "initiate_replacement"; step_details := demo_details |};
    {| step_env := demo_env; step_action := "initiate_refund"; step_details := demo_details |} ].

(** A classifier outside its contract, answering with an action label. *)
Definition label_classifier (label : string) : string -> result string := fun _ => Ok label.

(** ** Vocabulary of the further properties *)

(** What may stand between the letters ORD and the digits: nothing, or
    one hyphen or white-space character. *)
Definition separator (sep : string) : Prop :=
  sep = "" \/ exists c, order_lookup.sep_char c = true /\ sep = String c "".

(** The history of a session, the sessions other than a given one, and
    the files. *)
Definition history (E : env) (session_id : string) (w : world) : list history_entry :=
  conversation_history (session_manager.the_session E session_id w).

Definition other_sessions_kept (session_id : string) (w w' : world) : Prop :=
  forall other, other <> session_id -> SESSION_STATE w' !! other = SESSION_STATE w !! other.

Definition files_kept (w w' : world) : Prop :=
  orders_json w' = orders_json w /\ same_ledgers w w'.

(** The entry a message leaves in the history. *)
Definition history_of (E : env) (role msg : string) : history_entry :=
  {| role := role; message := msg; timestamp := now_iso E |}.

(** The slots that [get_session_context] shows, with their labels. *)
Definition context_labels : list (string * string) :=
  [ ("order_id", "Order ID: ");
    ("customer_name", "Customer: ");
    ("product_name", "Product: ");
    ("model_number", "Model: ");
    ("issue_description", "Issue: ") ].

(** The keys of the order that lines 49-59 copy into the session, and the
    keys that [process_message] can write. *)
Definition order_keys : list string :=
  [ "order_id"; "customer_name"; "customer_email"; "customer_phone"; "product_id";
    "product_name"; "serial_number"; "purchase_date"; "warranty_years" ].

Definition written_keys : list string :=
  (order_keys ++
   [ "reason_for_action"; "preferred_datetime"; "action_id"; "action_type";
     "conversation_state"; "conversation_history" ])%list.

(** The number a text of decimal digits stands for. *)
Definition decimal_value (s : string) : option nat :=
  option_map Nat.of_uint (NilEmpty.uint_of_string s).

(** The message of a logged action (line 380). *)
Definition logged_message (action action_id : string) : string :=
  "Action '" +:+ action +:+ "' has been logged with ID: " +:+ action_id.

(** The e-mail that lines 206-217 ask for after a successful action. *)
Definition email_calls (action action_id : string) (result : agents.action_result)
  (user_details : gmap string pyval) : list call :=
  let user_email := get user_details "email" in
  let product_name := get_default user_details "product_name" (VStr "Your Product") in
  if String.eqb action "initiate_refund" then
    [CallRefundEmail action_id product_name user_email]
  else if String.eqb action "initiate_replacement" then
    [CallReplacementEmail action_id product_name user_email]
  else if String.eqb action "book_service" then
    [CallServiceEmail action_id (agents.data_of result) user_email]
  else [].

(** The world after a successful action: the record is in the ledger, the
    e-mail has been asked for and the session is marked. *)
Definition executed_world (E : env) (sid action action_id : string) (data : gmap string pyval)
  (file : world -> json_file) (w1 : world) : world :=
  set_sessions (session_manager.mark_action_completed_in sid action_id action)
    (fold_left (fun w c => log_call c w)
       (email_calls action action_id
          (agents.Logged action action_id "success" (logged_message action action_id) data)
          (user_details_of E sid w1))
       (agents.write_ledger action (Records (records_of (file w1) ++ [data])) w1)).

(** The calls of the stage that answers: none when the flow controller
    answers alone. *)
Definition answer_calls (responder_agent : string -> string -> string -> result string)
  (bypassed : bool) (context msg session_context : string) : list call :=
  if bypassed then []
  else
    [ CallResponder context msg session_context;
      CallVerifier
        (value_or (responder_agent context msg session_context)
           "I apologize, but I'm experiencing technical difficulties. Please try again later.")
        context ].

(** The call of lines 150-156. *)
Definition confirmation_calls (action : string) : list call :=
  if negb (String.eqb action "none") then [CallConfirmation action] else [].

Definition is_confirmation_call (c : call) : bool :=
  match c with CallConfirmation _ => true | _ => false end.

(** The answer before the action stage (lines 97-138). *)
Definition answer_before_action (E : env)
  (responder_agent : string -> string -> string -> result string)
  (verifier_agent : string -> string -> result string)
  (sid msg intent context : string) (w5 : world) : string :=
  if bypass E sid intent w5 then
    orchestrator.acknowledgement
      (slot_default E sid "customer_name" (VStr "Customer") w5)
      (slot_default E sid "product_name" (VStr "your product") w5)
      (slot E sid "order_id" w5) intent
  else
    let draft :=
      value_or (responder_agent context msg (session_context_of E sid w5))
        "I apologize, but I'm experiencing technical difficulties. Please try again later." in
    value_or (verifier_agent draft context) draft.

(** Two orders whose identifiers have the same upper case: the second is
    written with [chr(223)], the sharp s. *)
Definition demo_world_street : world :=
  {| SESSION_STATE := ∅;
     orders_json := Records [ {[ "order_id" := VStr "STRASSE" ]};
                              {[ "order_id" := VStr ("stra" +:+ String "223" "e") ]} ];
     refunds_json := Absent;
     replacements_json := Absent;
     service_bookings_json := Absent;
     calls := [] |}.

(** The language model cannot be used: it was not initialised, or every
    call to it raises. *)
Definition model_fails (E : env) : Prop :=
  match model E with
  | None => True
  | Some generate_content => forall prompt, generate_content prompt = None
  end.

(** The deployment without a language model. *)
Definition demo_env_offline : env :=
  {| now_iso := "2025-12-01T10:00:00";
     now_stamp := "2025-12-01 10:00:00";
     date_str := "20251201";
     uuid_hex := "0123456789abcdef0123456789abcdef";
     model := None;
     search_knowledge := fun _ => Some ["Refunds are accepted within 30 days."];
     can_write := fun _ => true |}.

(** The session [s1] with its order, an address and a reason; the ledger
    of replacements cannot be loaded. *)
Definition demo_world_reason : world :=
  {| SESSION_STATE :=
       {[ "s1" := session_manager.set_slot "reason_for_action" (VStr "The jar leaks")
                    (session_manager.set_slot "customer_email" (VStr "asha@example.com")
                       demo_session) ]};
     orders_json := Records [demo_order];
     refunds_json := Absent;
     replacements_json := Unreadable;
     service_bookings_json := Absent;
     calls := [] |}.

(** * Strings and patterns *)

Lemma app_cons a (s t : string) : String a s +:+ t = String a (s +:+ t).
Proof. reflexivity. Qed.

Lemma app_nil (t : string) : "" +:+ t = t.
Proof. reflexivity. Qed.

Lemma app_empty_r (s : string) : s +:+ "" = s.
Proof. induction s as [|a s IH]; [done|]. by rewrite app_cons, IH. Qed.

Lemma app_assoc_s (a b c : string) : (a +:+ b) +:+ c = a +:+ (b +:+ c).
Proof. induction a as [|x a IH]; [done|]. by rewrite !app_cons, IH. Qed.

Lemma rstrip_empty s : rstrip s = "" -> Re.all_chars isspace s = true.
Proof.
  induction s as [|c s IH]; simpl; [done|].
  destruct (rstrip s) eqn:Hr; [|discriminate].
  destruct (isspace c); [|discriminate]. intros _. by rewrite IH.
Qed.

Lemma lstrip_all_space s :
  Re.all_chars isspace (lstrip s) = true -> Re.all_chars isspace s = true.
Proof.
  induction s as [|c s IH]; simpl; [done|].
  destruct (isspace c) eqn:Hc; simpl; [done|]. by rewrite Hc.
Qed.

Lemma strip_empty s : strip s = "" -> Re.all_chars isspace s = true.
Proof. intros H. by apply lstrip_all_space, rstrip_empty. Qed.

Lemma strip_keeps_head c s : isspace c = false -> strip (String c s) <> "".
Proof.
  intros Hc. unfold strip. simpl. rewrite Hc. simpl.
  destruct (rstrip s); [by rewrite Hc|done].
Qed.

Lemma upper_nonempty s : s <> "" -> upper s <> "".
Proof. destruct s as [|c s]; [done|]. intros _. cbn [upper]. by destruct (Nat.eqb _ _). Qed.

Lemma startswith_ORD s : startswith s "ORD" = true -> exists rest, s = "ORD" +:+ rest.
Proof.
  destruct s as [|c1 [|c2 [|c3 rest]]]; cbn [startswith]; rewrite ?andb_false_r; try done.
  intros H. apply andb_prop in H as [H1 H]. apply andb_prop in H as [H2 H].
  apply andb_prop in H as [H3 _].
  apply Ascii.eqb_eq in H1 as ->, H2 as ->, H3 as ->. by exists rest.
Qed.

Lemma startswith_app p s : startswith (p +:+ s) p = true.
Proof.
  induction p as [|c p IH]; [by destruct s|].
  rewrite app_cons. cbn [startswith]. by rewrite Ascii.eqb_refl, IH.
Qed.

Lemma contains_here p s : contains (p +:+ s) p = true.
Proof.
  destruct (p +:+ s) eqn:H; cbn [contains]; rewrite <- H, startswith_app; done.
Qed.

Lemma contains_app_r x s p : contains s p = true -> contains (x +:+ s) p = true.
Proof.
  intros H. induction x as [|c x IH]; [done|].
  rewrite app_cons. cbn [contains]. rewrite IH. apply orb_true_r.
Qed.

(** A digit is neither a separator nor a letter, and has no upper case. *)
Lemma digit_facts c :
  isdigit c = true ->
  Ascii.eqb c " " = false /\ Ascii.eqb c "-" = false /\ Ascii.eqb c "O" = false /\
  upper_char c = c /\ order_lookup.sep_char c = false.
Proof.
  destruct c as [[] [] [] [] [] [] [] []]; try discriminate; intros _; by repeat split.
Qed.

(** White space is none of the letters the three patterns start with. *)
Lemma space_not_letter c :
  isspace c = true ->
  Re.eq_nocase c "O" = false /\ Re.eq_nocase c "o" = false /\ Re.eq_nocase c "m" = false.
Proof.
  destruct c as [[] [] [] [] [] [] [] []]; try discriminate; intros _; by repeat split.
Qed.

Lemma remove_char_digits a ds :
  (forall c, isdigit c = true -> Ascii.eqb c a = false) ->
  Re.all_chars isdigit ds = true -> remove_char a ds = ds.
Proof.
  intros Ha. induction ds as [|c ds IH]; simpl; [done|].
  intros H. apply andb_prop in H as [Hc Hds]. by rewrite (Ha c Hc), IH.
Qed.

Lemma digit_one_letter c : isdigit c = true -> Nat.eqb (code c) 223 = false.
Proof. destruct c as [[] [] [] [] [] [] [] []]; try discriminate; by intros _. Qed.

Lemma upper_digits ds : Re.all_chars isdigit ds = true -> upper ds = ds.
Proof.
  induction ds as [|c ds IH]; [done|]. cbn [Re.all_chars upper].
  intros H. apply andb_prop in H as [Hc Hds]. rewrite (digit_one_letter c Hc).
  destruct (digit_facts c Hc) as (_ & _ & _ & -> & _). by rewrite IH.
Qed.

(** ** The matcher against the language of a pattern *)

Section MatcherFacts.
Context {R : Type}.
Implicit Types (k : @Re.cont R) (s m rest : string) (g : option string).

Lemma match_lit_sound l s m rest :
  Re.match_lit l s = Some (m, rest) -> s = m +:+ rest /\ Re.match_lit l m = Some (m, "").
Proof.
  revert s m rest. induction l as [|a l IH]; intros s m rest; simpl.
  - by intros [= <- <-].
  - destruct s as [|c s]; [done|]. destruct (Re.eq_nocase c a) eqn:Hc; [|done].
    destruct (Re.match_lit l s) as [[m' rest']|] eqn:Hm; [|done].
    intros [= <- <-]. destruct (IH _ _ _ Hm) as [-> Hm'].
    split; [reflexivity|]. simpl. by rewrite Hc, Hm'.
Qed.

Lemma match_lit_complete l m rest :
  Re.match_lit l m = Some (m, "") -> Re.match_lit l (m +:+ rest) = Some (m, rest).
Proof.
  revert m. induction l as [|a l IH]; intros m; simpl.
  - by intros [= <- _].
  - destruct m as [|c m]; [done|]. simpl. destruct (Re.eq_nocase c a); [|done].
    destruct (Re.match_lit l m) as [[m' rest']|] eqn:Hm; [|done].
    intros [= -> ->]. by rewrite (IH _ Hm).
Qed.

Lemma match_star_sound p s g k x :
  Re.match_star p s g k = Some x ->
  exists m rest, s = m +:+ rest /\ Re.all_chars p m = true /\ k m rest g = Some x.
Proof.
  revert k. induction s as [|c s IH]; intros k; simpl.
  - intros H. by exists "", "".
  - destruct (p c) eqn:Hc.
    + destruct (Re.match_star p s g _) eqn:Hs.
      * intros [= ->]. apply IH in Hs as (m & rest & -> & Hm & Hk).
        exists (String c m), rest. simpl. by rewrite Hc, Hm.
      * intros H. by exists "", (String c s).
    + intros H. by exists "", (String c s).
Qed.

Lemma match_star_complete p m rest g k :
  Re.all_chars p m = true -> k m rest g <> None -> Re.match_star p (m +:+ rest) g k <> None.
Proof.
  revert k. induction m as [|c m IH]; intros k.
  - intros _ Hk. rewrite app_nil. destruct rest as [|c rest]; simpl; [done|].
    destruct (p c); [|done]. by destruct (Re.match_star p rest g _).
  - intros Hm Hk. simpl in Hm. apply andb_prop in Hm as [Hc Hm].
    rewrite app_cons. simpl. rewrite Hc.
    destruct (Re.match_star p (m +:+ rest) g _) eqn:Hs; [done|].
    exfalso. revert Hs. by apply IH.
Qed.

Lemma match_star_all p s g k x :
  Re.all_chars p s = true -> k s "" g = Some x -> Re.match_star p s g k = Some x.
Proof.
  revert k. induction s as [|c s IH]; intros k; simpl; [done|].
  intros H Hk. apply andb_prop in H as [Hc Hs]. rewrite Hc.
  by rewrite (IH (fun m rest g' => k (String c m) rest g') Hs Hk).
Qed.

Lemma rmatch_seq r1 r2 s g k :
  Re.rmatch (Re.RSeq r1 r2) s g k =
  Re.rmatch r1 s g (fun m1 rest1 g1 =>
    Re.rmatch r2 rest1 g1 (fun m2 rest2 g2 => k (m1 +:+ m2) rest2 g2)).
Proof. reflexivity. Qed.

(** Whatever the matcher accepts is a prefix in the language of the
    pattern, handed to the continuation. *)
Lemma rmatch_sound r : forall s g k x,
  Re.rmatch r s g k = Some x ->
  exists m rest g', s = m +:+ rest /\ Re.denotes r m /\ k m rest g' = Some x.
Proof.
  induction r as [l|p|r1 IH1 r2 IH2|r1 IH1 r2 IH2|r1 IH1|p|p|r1 IH1]; intros s g k x; simpl.
  - destruct (Re.match_lit l s) as [[m rest]|] eqn:Hm; [|done].
    intros Hk. apply match_lit_sound in Hm as [-> Hm]. by exists m, rest, g.
  - destruct s as [|c s]; [done|]. destruct (p c) eqn:Hc; [|done].
    intros Hk. exists (String c ""), s, g. eauto.
  - intros H. apply IH1 in H as (m1 & rest1 & g1 & -> & Hd1 & H).
    apply IH2 in H as (m2 & rest2 & g2 & -> & Hd2 & H).
    exists (m1 +:+ m2), rest2, g2. rewrite app_assoc_s. eauto 10.
  - destruct (Re.rmatch r1 s g k) eqn:H1.
    + intros [= ->]. apply IH1 in H1 as (m & rest & g' & ? & ? & ?). exists m, rest, g'. eauto.
    + intros H2. apply IH2 in H2 as (m & rest & g' & ? & ? & ?). exists m, rest, g'. eauto.
  - destruct (Re.rmatch r1 s g k) eqn:H1.
    + intros [= ->]. apply IH1 in H1 as (m & rest & g' & ? & ? & ?). exists m, rest, g'. eauto.
    + intros Hk. exists "", s, g. eauto.
  - intros H. apply match_star_sound in H as (m & rest & ? & ? & ?). by exists m, rest, g.
  - destruct s as [|c s]; [done|]. destruct (p c) eqn:Hc; [|done].
    intros H. apply match_star_sound in H as (m & rest & -> & Hm & Hk).
    exists (String c m), rest, g. simpl. rewrite Hc, Hm. eauto.
  - intros H. apply IH1 in H as (m & rest & g' & ? & ? & ?). exists m, rest, (Some m). eauto.
Qed.

(** Backtracking misses nothing: a prefix in the language whose rest the
    continuation accepts makes the matcher succeed. *)
Lemma rmatch_complete r : forall m rest g k,
  Re.denotes r m -> (forall g', k m rest g' <> None) -> Re.rmatch r (m +:+ rest) g k <> None.
Proof.
  induction r as [l|p|r1 IH1 r2 IH2|r1 IH1 r2 IH2|r1 IH1|p|p|r1 IH1]; intros m rest g k; simpl.
  - intros Hm Hk. rewrite (match_lit_complete _ _ _ Hm). apply Hk.
  - intros (c & Hc & ->) Hk. rewrite app_cons, app_nil, Hc. apply Hk.
  - intros (m1 & m2 & -> & Hd1 & Hd2) Hk. rewrite app_assoc_s.
    apply IH1; [done|]. intros g1. by apply IH2.
  - intros [Hd|Hd] Hk.
    + destruct (Re.rmatch r1 (m +:+ rest) g k) eqn:H1; [done|]. exfalso. revert H1. by apply IH1.
    + destruct (Re.rmatch r1 (m +:+ rest) g k) eqn:H1; [done|]. by apply IH2.
  - intros [->|Hd] Hk.
    + rewrite app_nil. destruct (Re.rmatch r1 rest g k); [done|apply Hk].
    + destruct (Re.rmatch r1 (m +:+ rest) g k) eqn:H1; [done|]. exfalso. revert H1. by apply IH1.
  - intros Hm Hk. apply match_star_complete; [done|apply Hk].
  - intros [Hne Hm] Hk. destruct m as [|c m]; [done|]. rewrite app_cons. simpl in Hm.
    apply andb_prop in Hm as [Hc Hm]. rewrite Hc. apply match_star_complete; [done|apply Hk].
  - intros Hd Hk. apply IH1; [done|]. intros _. apply Hk.
Qed.

End MatcherFacts.

Lemma match_here_sound r s x :
  Re.match_here r s = Some x -> exists rest, s = Re.group0 x +:+ rest /\ Re.denotes r (Re.group0 x).
Proof.
  unfold Re.match_here. intros H.
  apply rmatch_sound in H as (m & rest & g' & -> & Hd & [= <-]). by exists rest.
Qed.

Lemma search_here r s x :
  Re.search r s = Some x -> exists pre s', s = pre +:+ s' /\ Re.match_here r s' = Some x.
Proof.
  induction s as [|c s IH]; simpl.
  - destruct (Re.match_here r "") eqn:Hm; [|done]. intros [= ->]. by exists "", "".
  - destruct (Re.match_here r (String c s)) eqn:Hm.
    + intros [= ->]. by exists "", (String c s).
    + intros H. destruct (IH H) as (pre & s' & -> & ?). by exists (String c pre), s'.
Qed.

Lemma search_first r s x : Re.match_here r s = Some x -> Re.search r s = Some x.
Proof. intros H. destruct s; simpl; by rewrite H. Qed.

Lemma search_sound r s x : Re.search r s = Some x -> Re.occurs_in r s.
Proof.
  intros H. apply search_here in H as (pre & s' & -> & Hm).
  apply match_here_sound in Hm as (rest & -> & Hd). by exists pre, (Re.group0 x), rest.
Qed.

Lemma search_complete r s : Re.occurs_in r s -> Re.search r s <> None.
Proof.
  intros (pre & m & post & -> & Hd).
  assert (Hhere : Re.match_here r (m +:+ post) <> None).
  { unfold Re.match_here. by apply rmatch_complete. }
  induction pre as [|c pre IH].
  - rewrite app_nil. destruct (m +:+ post); simpl; by destruct (Re.match_here r _).
  - rewrite app_cons. simpl. by destruct (Re.match_here r (String c (pre +:+ m +:+ post))).
Qed.

(** [re.search] finds nothing exactly in the texts that hold no substring
    of the language. *)
Lemma search_none r s : Re.search r s = None <-> ~ Re.occurs_in r s.
Proof.
  split.
  - intros H Ho. by apply search_complete in Ho.
  - intros H. destruct (Re.search r s) eqn:Hs; [|done]. by apply search_sound in Hs.
Qed.

(** * Order linkage *)

Lemma normalize_digits g0 ds :
  digit_run ds -> order_lookup.normalize {| Re.group0 := g0; Re.group1 := Some ds |} = "ORD" +:+ ds.
Proof.
  intros [Hne Hds]. unfold order_lookup.normalize. cbn [Re.group1].
  rewrite (remove_char_digits " " ds), (remove_char_digits "-" ds), upper_digits; try done.
  - destruct ds as [|c ds]; [done|]. simpl in Hds. apply andb_prop in Hds as [Hc _].
    cbn [startswith]. by destruct (digit_facts c Hc) as (_ & _ & -> & _).
  - intros c Hc. by destruct (digit_facts c Hc) as (_ & ? & _).
  - intros c Hc. by destruct (digit_facts c Hc) as (? & _).
Qed.

(** What pattern 1 captures is a run of digits. *)
Lemma pattern1_group s x :
  Re.match_here order_lookup.pattern1 s = Some x ->
  exists ds, Re.group1 x = Some ds /\ digit_run ds.
Proof.
  unfold Re.match_here, order_lookup.pattern1. intros H.
  rewrite rmatch_seq in H. apply rmatch_sound in H as (m1 & rest1 & g1 & _ & _ & H).
  rewrite rmatch_seq in H. apply rmatch_sound in H as (m2 & rest2 & g2 & _ & _ & H).
  cbn [Re.rmatch] in H.
  destruct rest2 as [|c rest2]; [done|]. destruct (isdigit c) eqn:Hc; [|done].
  apply match_star_sound in H as (m & rest & _ & Hm & [= <-]).
  exists (String c m). split; [done|]. split; [done|]. simpl. by rewrite Hc, Hm.
Qed.

(** On a normalized identifier pattern 1 matches the whole text. *)
Lemma pattern1_normal ds :
  digit_run ds ->
  Re.search order_lookup.pattern1 ("ORD" +:+ ds)
  = Some {| Re.group0 := "ORD" +:+ ds; Re.group1 := Some ds |}.
Proof.
  intros [Hne Hds]. apply search_first.
  destruct ds as [|c ds]; [done|]. simpl in Hds. apply andb_prop in Hds as [Hc Hds].
  unfold Re.match_here, order_lookup.pattern1.
  change ("ORD" +:+ String c ds) with (String "O" (String "R" (String "D" (String c ds)))).
  cbn [Re.rmatch Re.match_lit].
  change (Re.eq_nocase "O" "O") with true. change (Re.eq_nocase "R" "R") with true.
  change (Re.eq_nocase "D" "D") with true. cbn iota.
  destruct (digit_facts c Hc) as (_ & _ & _ & _ & ->). rewrite Hc.
  by apply match_star_all.
Qed.

Lemma occurs_inner r pre m post inner rest :
  m = inner +:+ rest -> Re.denotes r rest ->
  Re.occurs_in r (pre +:+ m +:+ post).
Proof.
  intros -> Hd. exists (pre +:+ inner), rest, post. split; [|done].
  by rewrite !app_assoc_s.
Qed.

(** Patterns 2 and 3 end with pattern 1, so a text they match holds a
    match of pattern 1. *)
Lemma pattern2_has_pattern1 s :
  Re.occurs_in order_lookup.pattern2 s -> Re.occurs_in order_lookup.pattern1 s.
Proof.
  intros (pre & m & post & -> & Hd).
  destruct Hd as (m1 & ? & -> & _ & m2 & ? & -> & _ & m3 & ? & -> & _ &
                  m4 & ? & -> & _ & m5 & ? & -> & _ & m6 & core & -> & _ & Hcore).
  apply (occurs_inner _ _ _ _ (m1 +:+ m2 +:+ m3 +:+ m4 +:+ m5 +:+ m6) core); [|done].
  by rewrite !app_assoc_s.
Qed.

Lemma pattern3_has_pattern1 s :
  Re.occurs_in order_lookup.pattern3 s -> Re.occurs_in order_lookup.pattern1 s.
Proof.
  intros (pre & m & post & -> & Hd).
  destruct Hd as (m1 & ? & -> & _ & m2 & ? & -> & _ & m3 & ? & -> & _ &
                  m4 & ? & -> & _ & m5 & ? & -> & _ & m6 & core & -> & _ & Hcore).
  apply (occurs_inner _ _ _ _ (m1 +:+ m2 +:+ m3 +:+ m4 +:+ m5 +:+ m6) core); [|done].
  by rewrite !app_assoc_s.
Qed.

(** Every extraction is decided by pattern 1. *)
Lemma extract_by_pattern1 x :
  order_lookup.extract_order_id_from_message x =
  option_map order_lookup.normalize (Re.search order_lookup.pattern1 x).
Proof.
  unfold order_lookup.extract_order_id_from_message, order_lookup.patterns.
  cbn [order_lookup.first_match].
  destruct (Re.search order_lookup.pattern1 x) eqn:H1; [done|].
  apply search_none in H1.
  destruct (Re.search order_lookup.pattern2 x) eqn:H2.
  { apply search_sound, pattern2_has_pattern1 in H2. done. }
  destruct (Re.search order_lookup.pattern3 x) eqn:H3.
  { apply search_sound, pattern3_has_pattern1 in H3. done. }
  done.
Qed.

Lemma extracted_normal x id :
  order_lookup.extract_order_id_from_message x = Some id ->
  exists ds, id = "ORD" +:+ ds /\ digit_run ds.
Proof.
  rewrite extract_by_pattern1.
  destruct (Re.search order_lookup.pattern1 x) as [m|] eqn:Hs; [|done].
  intros [= <-]. apply search_here in Hs as (pre & s' & _ & Hm).
  apply pattern1_group in Hm as (ds & Hg & Hds).
  exists ds. split; [|done]. destruct m as [g0 g1]. cbn in Hg. subst g1.
  by apply normalize_digits.
Qed.

(** C8. [extract_order_id_from_message] is idempotent on what it returns:
    an identifier it has extracted is the letters ORD followed by digits
    (no space, no hyphen, upper case), and extracting from that identifier
    gives it back.  On a text in which none of the three patterns occurs it
    returns [None]. *)
Theorem extract_order_id_idempotent x :
  (forall id,
     order_lookup.extract_order_id_from_message x = Some id ->
     order_lookup.extract_order_id_from_message id = Some id /\
     exists ds, id = "ORD" +:+ ds /\ ds <> "" /\ Re.all_chars isdigit ds = true) /\
  (~ Re.occurs_in order_lookup.pattern1 x ->
   ~ Re.occurs_in order_lookup.pattern2 x ->
   ~ Re.occurs_in order_lookup.pattern3 x ->
   order_lookup.extract_order_id_from_message x = None).
Proof.
  split.
  - intros id Hex. destruct (extracted_normal x id Hex) as (ds & -> & Hds).
    split; [|by exists ds].
    rewrite extract_by_pattern1, (pattern1_normal ds Hds). cbn [option_map].
    by rewrite normalize_digits.
  - intros H1 H2 H3.
    unfold order_lookup.extract_order_id_from_message, order_lookup.patterns.
    cbn [order_lookup.first_match].
    apply search_none in H1, H2, H3. by rewrite H1, H2, H3.
Qed.

Lemma extract_order_id_idempotent_witness :
  order_lookup.extract_order_id_from_message "My order is ord-201" = Some "ORD201" /\
  order_lookup.extract_order_id_from_message "ORD201" = Some "ORD201" /\
  order_lookup.extract_order_id_from_message "Where is my parcel" = None.
Proof.
  split; [reflexivity|]. split.
  - apply (proj1 (extract_order_id_idempotent "My order is ord-201") "ORD201"). reflexivity.
  - apply (proj2 (extract_order_id_idempotent "Where is my parcel"));
      apply search_none; reflexivity.
Defined.

Lemma first_match_prefix ps msg oid :
  order_lookup.first_match ps msg = Some oid -> exists rest, oid = "ORD" +:+ rest.
Proof.
  induction ps as [|p ps IH]; simpl; [done|].
  destruct (Re.search p msg) as [m|]; [|done].
  intros [= <-]. unfold order_lookup.normalize.
  destruct (startswith _ "ORD") eqn:H; simpl; [by apply startswith_ORD | by eexists].
Qed.

Lemma scan_orders_found clean orders od :
  order_lookup.scan_orders clean orders = Some od ->
  exists s, get_default od "order_id" (VStr "") = VStr s /\ upper s = clean.
Proof.
  induction orders as [|o orders IH]; simpl; [done|].
  destruct (get_default o "order_id" (VStr "")) as [| | |s] eqn:Hget; try done.
  destruct (String.eqb_spec (upper s) clean) as [Heq|Hne]; [|done].
  intros [= <-]. eauto.
Qed.

(** An order found for an extracted identifier is a non-empty dictionary
    whose [order_id] is a non-empty string. *)
Lemma found_order msg oid w od :
  order_lookup.extract_order_id_from_message msg = Some oid ->
  order_lookup.get_order_by_id oid w = Some od ->
  oid <> "" /\ od <> ∅ /\ truthy (get od "order_id") = true.
Proof.
  intros Hex Hget. destruct (first_match_prefix _ _ _ Hex) as [rest ->].
  split; [done|].
  apply scan_orders_found in Hget as (s & Hs & Hup).
  assert (Hne : s <> "").
  { intros ->. simpl in Hup. symmetry in Hup. revert Hup.
    apply upper_nonempty. by apply strip_keeps_head. }
  unfold get_default in Hs. unfold get.
  destruct (od !! "order_id") as [v|] eqn:Hl; simpl in Hs.
  - subst v. split.
    + intros ->. by rewrite lookup_empty in Hl.
    + simpl. destruct (String.eqb_spec s ""); [done|reflexivity].
  - congruence.
Qed.

Lemma linked_order_found msg oid w w2 od :
  orders_json w2 = orders_json w ->
  order_lookup.extract_order_id_from_message msg = Some oid ->
  order_lookup.get_order_by_id oid w = Some od ->
  linked_order msg w2 = Some od.
Proof.
  intros Ho Hex Hget. destruct (found_order _ _ _ _ Hex Hget) as (Hoid & Hod & _).
  unfold linked_order. rewrite Hex.
  destruct (String.eqb_spec oid ""); [done|]. cbn [negb].
  unfold order_lookup.get_order_by_id, order_lookup.load_orders in *. rewrite Ho, Hget.
  by rewrite bool_decide_false.
Qed.

(** A text of white space holds no order identifier. *)
Lemma search_space a l r s :
  (forall c, isspace c = true -> Re.eq_nocase c a = false) ->
  Re.all_chars isspace s = true ->
  Re.search (Re.RSeq (Re.RLit (String a l)) r) s = None.
Proof.
  intros Ha.
  assert (Hhere : forall s', Re.all_chars isspace s' = true ->
                    Re.match_here (Re.RSeq (Re.RLit (String a l)) r) s' = None).
  { intros s' Hs'. unfold Re.match_here. simpl. destruct s' as [|c s']; [done|].
    simpl in Hs'. apply andb_prop in Hs' as [Hc _].
    by rewrite (Ha c Hc). }
  induction s as [|c s IH]; intros Hs.
  - cbn [Re.search]. by rewrite Hhere.
  - cbn [Re.search]. rewrite Hhere by done.
    apply IH. simpl in Hs. by apply andb_prop in Hs as [_ ?].
Qed.

Lemma extracted_strip_nonempty msg oid :
  order_lookup.extract_order_id_from_message msg = Some oid -> strip msg <> "".
Proof.
  intros Hex Hs. apply strip_empty in Hs.
  unfold order_lookup.extract_order_id_from_message, order_lookup.patterns in Hex.
  unfold order_lookup.first_match in Hex.
  unfold order_lookup.pattern1, order_lookup.pattern2, order_lookup.pattern3 in Hex.
  rewrite !search_space in Hex; try done; intros c Hc;
    by destruct (space_not_letter c Hc) as (? & ? & ?).
Qed.

(** * Sessions *)

Section SessionFacts.
Variable E : env.
Implicit Types (S : gmap string session) (w : world) (sid key : string).

Lemma view_create sid S :
  session_manager.create_session_in E sid S !! sid = Some (view E sid S).
Proof.
  unfold session_manager.create_session_in, view.
  destruct (S !! sid) as [s|] eqn:Hs; simpl; [done | apply lookup_insert_eq].
Qed.

Lemma view_alter_create f sid S :
  view E sid (alter f sid (session_manager.create_session_in E sid S)) = f (view E sid S).
Proof.
  unfold view at 1. rewrite lookup_alter_eq, view_create. done.
Qed.

Lemma the_session_set f sid w :
  session_manager.the_session E sid (set_sessions f w) = view E sid (f (SESSION_STATE w)).
Proof. reflexivity. Qed.

Lemma the_session_create sid w :
  session_manager.the_session E sid (set_sessions (session_manager.create_session_in E sid) w)
  = session_manager.the_session E sid w.
Proof. rewrite the_session_set. unfold view. by rewrite view_create. Qed.

Lemma set_sessions_present sid w :
  is_Some (SESSION_STATE w !! sid) ->
  set_sessions (session_manager.create_session_in E sid) w = w.
Proof.
  intros [s Hs]. destruct w as [S o r1 r2 r3 c]. unfold set_sessions; simpl in *.
  unfold session_manager.create_session_in. by rewrite Hs.
Qed.

Lemma get_session_run sid w :
  session_manager.get_session E sid w =
  (Ok (session_manager.the_session E sid w),
   set_sessions (session_manager.create_session_in E sid) w).
Proof.
  unfold session_manager.get_session, session_manager.create_session, bind, gets, modify.
  unfold session_manager.the_session, session_manager.create_session_in, set_sessions.
  destruct w as [S o r1 r2 r3 c]; simpl.
  destruct (S !! sid) as [s|] eqn:Hs.
  - rewrite bool_decide_true; [|eauto]. simpl. by rewrite Hs.
  - rewrite bool_decide_false; [|by intros [? ?]]. simpl.
    rewrite !Hs. by rewrite lookup_insert_eq.
Qed.

Lemma check_missing_run sid a w :
  session_manager.check_missing_info_for_action E sid a w =
  (Ok (session_manager.missing_info (session_manager.the_session E sid w) a),
   set_sessions (session_manager.create_session_in E sid) w).
Proof.
  unfold session_manager.check_missing_info_for_action, bind.
  by rewrite get_session_run.
Qed.

Lemma entry_create sid key w :
  entry E sid key (set_sessions (session_manager.create_session_in E sid) w) = entry E sid key w.
Proof. unfold entry. by rewrite the_session_create. Qed.

Lemma entry_history sid role msg key w :
  entry E sid key (set_sessions (session_manager.add_to_conversation_history_in E sid role msg) w)
  = entry E sid key w.
Proof.
  unfold entry. rewrite the_session_set.
  unfold session_manager.add_to_conversation_history_in. by rewrite view_alter_create.
Qed.

Lemma entry_update sid k v key w :
  entry E sid key (set_sessions (session_manager.update_session_in E sid k v) w)
  = if String.eqb k key then Some v else entry E sid key w.
Proof.
  unfold entry. rewrite the_session_set.
  unfold session_manager.update_session_in. rewrite view_alter_create.
  unfold session_manager.set_slot; simpl.
  destruct (String.eqb_spec k key) as [->|Hne].
  - by rewrite lookup_insert_eq.
  - by rewrite lookup_insert_ne.
Qed.

Lemma fold_alter_set sid (data : list (string * pyval)) S s :
  S !! sid = Some s ->
  fold_left (fun S' kv => alter (session_manager.set_slot (fst kv) (snd kv)) sid S') data S !! sid
  = Some (fold_left (fun s' kv => session_manager.set_slot (fst kv) (snd kv) s') data s).
Proof.
  revert S s. induction data as [|kv data IH]; intros S s Hs; simpl; [done|].
  apply IH. by rewrite lookup_alter_eq, Hs.
Qed.

Lemma lookup_fold_set (data : list (string * pyval)) s key :
  slots (fold_left (fun s' kv => session_manager.set_slot (fst kv) (snd kv) s') data s) !! key
  = fold_left (fun acc kv => if String.eqb (fst kv) key then Some (snd kv) else acc)
              data (slots s !! key).
Proof.
  revert s. induction data as [|[k v] data IH]; intros s; simpl; [done|].
  rewrite IH. f_equal. unfold session_manager.set_slot; simpl.
  destruct (String.eqb_spec k key) as [->|Hne].
  - by rewrite lookup_insert_eq.
  - by rewrite lookup_insert_ne.
Qed.

Lemma entry_bulk sid data key w :
  entry E sid key (set_sessions (session_manager.update_session_bulk_in E sid data) w)
  = fold_left (fun acc kv => if String.eqb (fst kv) key then Some (snd kv) else acc)
              data (entry E sid key w).
Proof.
  unfold entry. rewrite the_session_set. unfold view at 1.
  unfold session_manager.update_session_bulk_in.
  erewrite fold_alter_set by apply view_create. simpl.
  apply lookup_fold_set.
Qed.

Lemma entry_mark sid action_id action_type key w :
  untouched_by_action key ->
  entry E sid key (set_sessions (session_manager.mark_action_completed_in sid action_id action_type) w)
  = entry E sid key w.
Proof.
  intros (H1 & H2 & H3). unfold entry. rewrite the_session_set.
  unfold session_manager.the_session, view, session_manager.mark_action_completed_in.
  rewrite lookup_alter_eq. destruct (SESSION_STATE w !! sid) as [s|]; [|reflexivity].
  change (slots (session_manager.set_slot "conversation_state" (VStr "action_executed")
                  (session_manager.set_slot "action_type" (VStr action_type)
                     (session_manager.set_slot "action_id" (VStr action_id) s))) !! key
          = slots s !! key).
  unfold session_manager.set_slot. cbn [slots].
  by rewrite !lookup_insert_ne.
Qed.

Lemma entry_same sid key w w' :
  SESSION_STATE w' = SESSION_STATE w -> entry E sid key w' = entry E sid key w.
Proof. intros H. unfold entry, session_manager.the_session. by rewrite H. Qed.

Lemma missing_info_ext s1 s2 action :
  (forall key, untouched_by_action key -> slots s1 !! key = slots s2 !! key) ->
  session_manager.missing_info s1 action = session_manager.missing_info s2 action.
Proof.
  intros H. unfold session_manager.missing_info, get.
  rewrite (H "order_id"), (H "reason_for_action"), (H "preferred_datetime");
    by repeat split.
Qed.

End SessionFacts.

Lemma untouched_order_id : untouched_by_action "order_id".
Proof. by repeat split. Qed.
Lemma untouched_customer_name : untouched_by_action "customer_name".
Proof. by repeat split. Qed.
Lemma untouched_product_name : untouched_by_action "product_name".
Proof. by repeat split. Qed.
Lemma untouched_reason : untouched_by_action "reason_for_action".
Proof. by repeat split. Qed.
Lemma untouched_datetime : untouched_by_action "preferred_datetime".
Proof. by repeat split. Qed.

(** * Running the monad *)

Lemma bind_gets {A B} (f : world -> A) (k : A -> M B) w : bind (gets f) k w = k (f w) w.
Proof. reflexivity. Qed.

Lemma bind_ok {A B} (m : M A) (k : A -> M B) w a w' :
  m w = (Ok a, w') -> bind m k w = k a w'.
Proof. intros H. unfold bind. by rewrite H. Qed.

Lemma try_ok {A} (m h : M A) w a w' :
  m w = (Ok a, w') -> try_except m h w = (Ok a, w').
Proof. intros H. unfold try_except. by rewrite H. Qed.

Lemma call_out_run {A} (c : call) (r : result A) (d : A) w :
  try_except (orchestrator.call_out c r) (ret d) w = (Ok (value_or r d), log_call c w).
Proof. unfold try_except, orchestrator.call_out, bind, modify, lift, ret. by destruct r. Qed.

Lemma calls_fold_log extra w :
  calls (fold_left (fun w c => log_call c w) extra w) = (calls w ++ extra)%list.
Proof.
  revert w. induction extra as [|c extra IH]; intros w; simpl.
  - by rewrite app_nil_r.
  - rewrite IH. simpl. by rewrite <- app_assoc.
Qed.

Lemma sessions_fold_log extra w :
  SESSION_STATE (fold_left (fun w c => log_call c w) extra w) = SESSION_STATE w.
Proof. revert w. induction extra as [|c extra IH]; intros w; simpl; [done|by rewrite IH]. Qed.

Lemma orders_fold_log extra w :
  orders_json (fold_left (fun w c => log_call c w) extra w) = orders_json w.
Proof. revert w. induction extra as [|c extra IH]; intros w; simpl; [done|by rewrite IH]. Qed.

(** * Action identifiers and ledgers *)

#[local] Set Warnings "-abstract-large-number".

Lemma pad4_check :
  forallb (fun n => Nat.eqb (String.length (pad4 n)) 4 && Re.all_chars isdigit (pad4 n))
          (seq 0 (100 * 100)) = true.
Proof. vm_compute. reflexivity. Qed.

(** Up to 9999 the sequence number is printed with four digits. *)
Lemma pad4_digits n :
  n < 100 * 100 -> String.length (pad4 n) = 4 /\ Re.all_chars isdigit (pad4 n) = true.
Proof.
  intros Hn. pose proof pad4_check as H. rewrite forallb_forall in H.
  specialize (H n). rewrite in_seq in H.
  assert (Hc : Nat.eqb (String.length (pad4 n)) 4 && Re.all_chars isdigit (pad4 n) = true).
  { apply H. lia. }
  apply andb_prop in Hc as [H1 H2]. apply Nat.eqb_eq in H1. done.
Qed.

Lemma id_format_ok prefixes p d q :
  In p prefixes -> String.length p = 3 ->
  is_date d = true -> String.length q = 4 -> Re.all_chars isdigit q = true ->
  has_id_format prefixes (p +:+ "-" +:+ d +:+ "-" +:+ q) = true.
Proof.
  intros Hp Hlp Hd Hlq Hq. unfold is_date in Hd. apply andb_prop in Hd as [Hld Hd].
  apply Nat.eqb_eq in Hld.
  assert (Hin : in_list p prefixes = true).
  { unfold in_list. apply existsb_exists. exists p. split; [done|apply String.eqb_refl]. }
  do 4 (destruct p as [|? p]; try discriminate).
  do 9 (destruct d as [|? d]; try discriminate).
  do 5 (destruct q as [|? q]; try discriminate).
  unfold has_id_format. repeat (rewrite app_cons || rewrite app_nil).
  cbn [take drop String.length Nat.eqb andb String.eqb Ascii.eqb Bool.eqb].
  rewrite Hin. cbn [andb]. cbn [Re.all_chars] in *.
  rewrite Hd, Hq. reflexivity.
Qed.

Lemma id_contains_date prefix d q : contains (prefix +:+ "-" +:+ d +:+ "-" +:+ q) d = true.
Proof. apply contains_app_r. apply (contains_app_r "-"). apply contains_here. Qed.

Lemma ledger_cases a prefix file :
  agents.ledger a = Some (prefix, file) ->
  (a = "initiate_refund" /\ prefix = "REF" /\ file = refunds_json) \/
  (a = "initiate_replacement" /\ prefix = "REP" /\ file = replacements_json) \/
  (a = "book_service" /\ prefix = "SRV" /\ file = service_bookings_json).
Proof.
  unfold agents.ledger.
  destruct (String.eqb_spec a "initiate_refund") as [->|_]; [intros [= <- <-]; tauto|].
  destruct (String.eqb_spec a "initiate_replacement") as [->|_]; [intros [= <- <-]; tauto|].
  destruct (String.eqb_spec a "book_service") as [->|_]; [intros [= <- <-]; tauto|].
  done.
Qed.

(** The generator counts the records of today and adds one. *)
Lemma generate_action_id_counts E a prefix file w :
  agents.ledger a = Some (prefix, file) ->
  agents.generate_action_id E a w =
    match ledger_count E (file w) with
    | Ok n => prefix +:+ "-" +:+ date_str E +:+ "-" +:+ pad4 (n + 1)
    | Raised => "ERR-" +:+ date_str E +:+ "-0000"
    end.
Proof.
  intros Hl. unfold agents.generate_action_id, ledger_count. rewrite Hl.
  destruct (file w) as [| |records|[]]; try done.
  by destruct (agents.today_records E records).
Qed.

(** C5, as amended.  For the three action types an identifier whose
    sequence number is at most 9999 has the form PREFIX-YYYYMMDD-NNNN with
    the prefix of the type; when the ledger cannot be read the identifier
    is ERR-YYYYMMDD-0000; for any other action type it is
    ACTION-YYYYMMDD-0001. *)
Theorem generated_id_format E a w :
  is_date (date_str E) = true ->
  (forall prefix file, agents.ledger a = Some (prefix, file) ->
     match ledger_count E (file w) with
     | Ok n =>
         agents.generate_action_id E a w = prefix +:+ "-" +:+ date_str E +:+ "-" +:+ pad4 (n + 1) /\
         (n + 1 <= 9999 ->
          has_id_format ["REF"; "REP"; "SRV"] (agents.generate_action_id E a w) = true)
     | Raised =>
         agents.generate_action_id E a w = "ERR-" +:+ date_str E +:+ "-0000" /\
         has_id_format ["ERR"] (agents.generate_action_id E a w) = true
     end) /\
  (agents.ledger a = None ->
     agents.generate_action_id E a w = "ACTION-" +:+ date_str E +:+ "-0001").
Proof.
  intros Hd. split.
  - intros prefix file Hl. rewrite (generate_action_id_counts E a prefix file w Hl).
    destruct (ledger_count E (file w)) as [n|].
    + split; [done|]. intros Hn.
      destruct (pad4_digits (n + 1)) as [Hlen Hdig].
      { revert Hn. change 9999 with (99 * 101). lia. }
      apply id_format_ok; try done.
      * destruct (ledger_cases a prefix file Hl) as [(_ & -> & _)|[(_ & -> & _)|(_ & -> & _)]];
          simpl; tauto.
      * by destruct (ledger_cases a prefix file Hl) as [(_ & -> & _)|[(_ & -> & _)|(_ & -> & _)]].
    + split; [done|].
      change ("ERR-" +:+ date_str E +:+ "-0000") with ("ERR" +:+ "-" +:+ date_str E +:+ "-" +:+ "0000").
      apply id_format_ok; try done. simpl; tauto.
  - intros Hl. unfold agents.generate_action_id. by rewrite Hl.
Qed.

Lemma generated_id_format_witness :
  is_date (date_str demo_env) = true /\
  agents.ledger "initiate_refund" = Some ("REF", refunds_json) /\
  has_id_format ["REF"; "REP"; "SRV"]
    (agents.generate_action_id demo_env "initiate_refund" demo_world) = true.
Proof.
  split; [reflexivity|]. split; [reflexivity|].
  apply (proj1 (generated_id_format demo_env "initiate_refund" demo_world eq_refl)
           "REF" refunds_json eq_refl).
  apply Nat.leb_le. reflexivity.
Defined.

(** The identifier of an action type outside the three, and the one that
    follows 9999 records of the day, have neither form. *)
Lemma generated_id_format_counterexample :
  agents.generate_action_id demo_env "escalate" demo_world = "ACTION-20251201-0001" /\
  has_id_format ["REF"; "REP"; "SRV"; "ERR"]
    (agents.generate_action_id demo_env "escalate" demo_world) = false /\
  agents.generate_action_id demo_env "initiate_refund" demo_world_busy = "REF-20251201-10000" /\
  has_id_format ["REF"; "REP"; "SRV"; "ERR"]
    (agents.generate_action_id demo_env "initiate_refund" demo_world_busy) = false.
Proof. vm_compute. repeat split. Qed.

(** The comprehension of line 262 against the count of the specification:
    it keeps the records whose [id] holds the date when every [id] is a
    text, and raises otherwise. *)
Lemma today_records_filter E records :
  string_ids records ->
  agents.today_records E records = Ok (List.filter (on_date (date_str E)) records).
Proof.
  induction 1 as [|r records [id Hid] _ IH]; [done|].
  cbn [agents.today_records List.filter]. unfold on_date. unfold id_of in Hid |- *.
  by rewrite Hid, IH.
Qed.


Lemma count_on_date_app d records r id :
  id_of r = VStr id ->
  count_on_date d (records ++ [r]) = count_on_date d records + (if contains id d then 1 else 0).
Proof.
  intros Hid. unfold count_on_date. rewrite List.filter_app, length_app.
  cbn [List.filter]. unfold on_date. rewrite Hid. by destruct (contains id d).
Qed.

Lemma generate_action_id_spec E a prefix file w :
  agents.ledger a = Some (prefix, file) ->
  appendable (file w) = true ->
  string_ids (records_of (file w)) ->
  agents.generate_action_id E a w =
    prefix +:+ "-" +:+ date_str E +:+ "-" +:+
    pad4 (count_on_date (date_str E) (records_of (file w)) + 1).
Proof.
  intros Hl Ha Hids. unfold agents.generate_action_id. rewrite Hl.
  destruct (file w) as [| |records|]; try done.
  cbn [records_of] in *. by rewrite (today_records_filter E records Hids).
Qed.

Lemma action_data_id E a prefix file action_id user_details :
  agents.ledger a = Some (prefix, file) ->
  exists data, agents.action_data E a action_id user_details = Some data /\
               get_default data "id" (VStr "") = VStr action_id.
Proof.
  intros Hl. destruct (ledger_cases _ _ _ Hl) as [(-> & _)|[(-> & _)|(-> & _)]];
    eexists; (split; [reflexivity|]); unfold get_default, agents.common_data;
    by rewrite <- app_comm_cons, list_to_map_cons, lookup_insert_eq.
Qed.

Lemma action_data_none E a action_id user_details :
  agents.ledger a = None -> agents.action_data E a action_id user_details = None.
Proof.
  unfold agents.ledger, agents.action_data.
  destruct (String.eqb a "initiate_refund"); [done|].
  destruct (String.eqb a "initiate_replacement"); [done|].
  by destruct (String.eqb a "book_service").
Qed.

Lemma write_other_ledger a prefix file a' prefix' file' f w :
  agents.ledger a = Some (prefix, file) ->
  agents.ledger a' = Some (prefix', file') ->
  a' <> a ->
  file (agents.write_ledger a' f w) = file w.
Proof.
  intros Hl Hl' Hne.
  destruct (ledger_cases _ _ _ Hl) as [(-> & _ & ->)|[(-> & _ & ->)|(-> & _ & ->)]];
    destruct (ledger_cases _ _ _ Hl') as [(-> & _ & _)|[(-> & _ & _)|(-> & _ & _)]];
    done.
Qed.

Lemma write_same_ledger a prefix file f w :
  agents.ledger a = Some (prefix, file) -> file (agents.write_ledger a f w) = f.
Proof.
  intros Hl. by destruct (ledger_cases _ _ _ Hl) as [(-> & _ & ->)|[(-> & _ & ->)|(-> & _ & ->)]].
Qed.

Lemma save_action_data_eq E a prefix file data w :
  agents.ledger a = Some (prefix, file) ->
  agents.save_action_data E a data w =
    if saves E a (file w)
    then (Ok true, agents.write_ledger a (Records (records_of (file w) ++ [data])) w)
    else (Ok false, w).
Proof.
  intros Hl. unfold agents.save_action_data, saves. rewrite Hl.
  unfold try_except, bind, gets, ret, raise, modify.
  destruct (file w); destruct (can_write E a); reflexivity.
Qed.

Lemma save_action_data_run E action data w :
  exists b w', agents.save_action_data E action data w = (Ok b, w') /\ same_but_ledgers w w'.
Proof.
  destruct (agents.ledger action) as [[prefix file]|] eqn:Hl.
  - rewrite (save_action_data_eq E action prefix file data w Hl).
    destruct (saves E action (file w)); by eexists _, _.
  - unfold agents.save_action_data. rewrite Hl. by eexists _, _.
Qed.

(** [execute_action] returns, and writes nothing but a ledger. *)
Lemma execute_action_run E action user_details w :
  exists r w', agents.execute_action E action user_details w = (Ok r, w') /\ same_but_ledgers w w'.
Proof.
  unfold agents.execute_action.
  destruct (String.eqb action "none"); [by eexists _, _|].
  unfold bind at 1. unfold gets at 1.
  destruct (agents.action_data E action _ user_details) as [data|]; [|by eexists _, _].
  destruct (save_action_data_run E action data w) as (b & w' & Hrun & Hsame).
  unfold bind. rewrite Hrun. by eexists _, _.
Qed.

(** One execution of an action of one of the three types: the status is
    [success] when the record could be saved, [partial] otherwise. *)
Lemma execute_action_logged E a prefix file user_details w :
  agents.ledger a = Some (prefix, file) ->
  exists data,
    agents.action_data E a (agents.generate_action_id E a w) user_details = Some data /\
    id_of data = VStr (agents.generate_action_id E a w) /\
    agents.execute_action E a user_details w =
      if saves E a (file w) then
        (Ok (Some (agents.Logged a (agents.generate_action_id E a w) "success"
                     (logged_message a (agents.generate_action_id E a w)) data)),
         agents.write_ledger a (Records (records_of (file w) ++ [data])) w)
      else
        (Ok (Some (agents.Logged a (agents.generate_action_id E a w) "partial"
                     (logged_message a (agents.generate_action_id E a w)) data)), w).
Proof.
  intros Hl.
  destruct (action_data_id E a prefix file (agents.generate_action_id E a w) user_details Hl)
    as (data & Hdata & Hid).
  exists data. split; [done|]. split; [done|].
  unfold agents.execute_action.
  assert (Hnone : String.eqb a "none" = false).
  { by destruct (ledger_cases _ _ _ Hl) as [(-> & _)|[(-> & _)|(-> & _)]]. }
  rewrite Hnone, bind_gets, Hdata.
  unfold bind. rewrite (save_action_data_eq E a prefix file data w Hl).
  by destruct (saves E a (file w)).
Qed.

Lemma execute_action_unknown E a user_details w :
  agents.ledger a = None -> a <> "none" ->
  agents.execute_action E a user_details w =
  (Ok (Some (agents.UnknownAction a ("Unknown action type: " +:+ a))), w).
Proof.
  intros Hl Hne. unfold agents.execute_action.
  destruct (String.eqb_spec a "none"); [done|].
  by rewrite bind_gets, (action_data_none E a _ _ Hl).
Qed.

(** One execution, seen from the ledger of an action type [a]: either it is
    no successful action of that type and leaves the ledger as it is, or it
    is one, under the next number of the date, and its record is appended. *)
Lemma execute_action_step E a prefix file a' user_details w :
  agents.ledger a = Some (prefix, file) ->
  string_ids (records_of (file w)) ->
  exists r w',
    agents.execute_action E a' user_details w = (Ok r, w') /\
    ((successes a [(a', r)] = [] /\ file w' = file w) \/
     (exists data,
        let action_id :=
          prefix +:+ "-" +:+ date_str E +:+ "-" +:+
          pad4 (count_on_date (date_str E) (records_of (file w)) + 1) in
        successes a [(a', r)] = [action_id] /\
        id_of data = VStr action_id /\
        file w' = Records (records_of (file w) ++ [data]))).
Proof.
  intros Hl Hids.
  destruct (String.eqb_spec a' a) as [->|Hne].
  - destruct (execute_action_logged E a prefix file user_details w Hl)
      as (data & _ & Hid & Hrun).
    destruct (saves E a (file w)) eqn:Hs.
    + apply andb_prop in Hs as [Happ _].
      rewrite (generate_action_id_spec E a prefix file w Hl Happ Hids) in Hid, Hrun.
      eexists _, _. split; [exact Hrun|]. right. exists data. cbv zeta.
      split; [|split; [done|by apply (write_same_ledger a prefix file)]].
      cbn [successes]. by rewrite String.eqb_refl.
    + eexists _, _. split; [exact Hrun|]. by left.
  - destruct (String.eqb_spec a' "none") as [->|Hnone].
    { eexists _, _. split; [reflexivity|]. by left. }
    destruct (agents.ledger a') as [[prefix' file']|] eqn:Hl'.
    + destruct (execute_action_logged E a' prefix' file' user_details w Hl')
        as (data & _ & _ & Hrun).
      assert (Hsucc : forall i st m, successes a [(a', Some (agents.Logged a' i st m data))] = []).
      { intros i st m. cbn [successes].
        destruct (String.eqb_spec a' a); [done|].
        repeat match goal with |- context [match ?x with _ => _ end] => destruct x end; done. }
      destruct (saves E a' (file' w)); eexists _, _; (split; [exact Hrun|]); left;
        (split; [apply Hsucc|]); [|done].
      by apply (write_other_ledger a prefix file a' prefix' file').
    + eexists _, _. split; [by apply execute_action_unknown|]. by left.
Qed.

Lemma run_actions_from d a prefix file steps : forall w,
  agents.ledger a = Some (prefix, file) ->
  Forall (fun s => date_str (step_env s) = d) steps ->
  string_ids (records_of (file w)) ->
  let ids := successes a (run_actions steps w).1 in
  let w' := (run_actions steps w).2 in
  ids = map (fun k => prefix +:+ "-" +:+ d +:+ "-" +:+ pad4 k)
            (seq (count_on_date d (records_of (file w)) + 1) (List.length ids)) /\
  exists appended,
    records_of (file w') = (records_of (file w) ++ appended)%list /\
    map id_of appended = map VStr ids.
Proof.
  induction steps as [|s steps IH]; intros w Hl Hsteps Hids; cbv zeta.
  - cbn [run_actions fst snd successes List.length map seq].
    split; [done|]. exists []. by rewrite app_nil_r.
  - apply Forall_cons in Hsteps as [Hs Hsteps].
    destruct (execute_action_step (step_env s) a prefix file (step_action s)
                (step_details s) w Hl Hids) as (r & w1 & Hrun & Hcase).
    cbn [run_actions]. rewrite Hrun.
    destruct (run_actions steps w1) as [results w2] eqn:Hrest.
    cbn [fst snd].
    assert (Hcons : successes a ((step_action s, r) :: results) =
                    (successes a [(step_action s, r)] ++ successes a results)%list).
    { cbn [successes]. destruct r as [[? ? st ? ?| |]|]; try done.
      repeat match goal with
             | |- context [match ?x with _ => _ end] => destruct x; try done
             end. }
    rewrite Hcons. rewrite Hs in Hcase.
    destruct Hcase as [[Hnone Hfile]|(data & Hsucc & Hid & Hfile)].
    + assert (Hids1 : string_ids (records_of (file w1))) by (by rewrite Hfile).
      specialize (IH w1 Hl Hsteps Hids1). rewrite Hrest in IH. cbn [fst snd] in IH.
      cbv zeta in IH. rewrite Hfile in IH. by rewrite Hnone.
    + cbv zeta in Hsucc, Hid.
      set (n := count_on_date d (records_of (file w))) in *.
      assert (Hids1 : string_ids (records_of (file w1))).
      { rewrite Hfile. cbn [records_of]. apply Forall_app. split; [done|].
        constructor; [by eexists|constructor]. }
      specialize (IH w1 Hl Hsteps Hids1). rewrite Hrest in IH. cbn [fst snd] in IH.
      cbv zeta in IH. rewrite Hfile in IH. cbn [records_of] in IH.
      rewrite (count_on_date_app d _ data _ Hid), id_contains_date in IH.
      fold n in IH. destruct IH as (Hseq & appended & Happ & Hmap).
      rewrite Hsucc. cbn [app List.length map seq]. split.
      * f_equal. rewrite Hseq at 1. f_equal. f_equal. lia.
      * exists (data :: appended). rewrite Happ, <- app_assoc. split; [done|].
        cbn [map]. by rewrite Hid, Hmap.
Qed.




(** * The stages of the pipeline *)

Section StageFacts.
Variable E : env.
Variable intent_agent : string -> result string.
Variable retrieval_agent : string -> result string.
Variable responder_agent : string -> string -> string -> result string.
Variable verifier_agent : string -> string -> result string.
Variable action_confirmation_agent : string -> result (option string).
Implicit Types (w : world) (sid msg key : string).

Lemma link_order_run sid msg w :
  orchestrator.link_order E sid msg w =
  (Ok tt,
   match linked_order msg w with
   | Some od => set_sessions (session_manager.update_session_bulk_in E sid (order_fields od)) w
   | None => w
   end).
Proof.
  unfold orchestrator.link_order, linked_order.
  destruct (order_lookup.extract_order_id_from_message msg) as [oid|]; [|done].
  destruct (negb (String.eqb oid "")); [|done].
  unfold bind at 1. unfold gets at 1.
  destruct (order_lookup.get_order_by_id oid w) as [od|]; [|done].
  destruct (negb (bool_decide (od = ∅))); [|done].
  reflexivity.
Qed.

Lemma capture_reason_run sid msg w :
  orchestrator.capture_reason E sid msg w =
  (Ok tt,
   if reason_condition E sid msg w
   then set_sessions (session_manager.update_session_in E sid "reason_for_action" (VStr (strip msg))) w
   else w).
Proof.
  unfold orchestrator.capture_reason, orchestrator.session_get, reason_condition, slot, entry, get.
  unfold bind, gets, session_manager.update_session, modify, ret.
  destruct (truthy _ && negb (truthy _)); simpl; [|done].
  by destruct (_ && _).
Qed.

Lemma capture_datetime_run sid msg w :
  orchestrator.capture_datetime E sid msg w =
  (Ok tt,
   if datetime_condition E sid msg w
   then set_sessions (session_manager.update_session_in E sid "preferred_datetime" (VStr (strip msg))) w
   else w).
Proof.
  unfold orchestrator.capture_datetime, orchestrator.session_get, datetime_condition, slot, entry, get.
  unfold bind, gets, session_manager.update_session, modify, ret.
  destruct (truthy _ && negb (truthy _)); simpl; [|done].
  by match goal with |- context [if ?c then _ else _] => destruct c end.
Qed.

Lemma get_session_context_run sid w :
  session_manager.get_session_context E sid w =
  (Ok (session_context_of E sid w), set_sessions (session_manager.create_session_in E sid) w).
Proof.
  unfold session_manager.get_session_context, session_context_of.
  unfold bind. rewrite get_session_run.
  by destruct (session_manager.context_parts _).
Qed.

(** The flow controller answers alone, or the responder and the verifier
    are called in turn. *)
Lemma respond_run sid msg intent ctx sctx w :
  orchestrator.respond E responder_agent verifier_agent sid msg intent ctx sctx w =
  if bypass E sid intent w then
    (Ok (orchestrator.acknowledgement
           (slot_default E sid "customer_name" (VStr "Customer") w)
           (slot_default E sid "product_name" (VStr "your product") w)
           (slot E sid "order_id" w) intent), w)
  else
    let draft :=
      value_or (responder_agent ctx msg sctx)
        "I apologize, but I'm experiencing technical difficulties. Please try again later." in
    (Ok (value_or (verifier_agent draft ctx) draft),
     log_call (CallVerifier draft ctx) (log_call (CallResponder ctx msg sctx) w)).
Proof.
  unfold orchestrator.respond, bypass.
  unfold bind at 1. unfold orchestrator.session_get at 1. unfold gets at 1.
  change (get (slots (session_manager.the_session E sid w)) "order_id")
    with (slot E sid "order_id" w).
  destruct (truthy (slot E sid "order_id" w) && in_list intent orchestrator.action_intents).
  - reflexivity.
  - unfold bind. rewrite call_out_run. by rewrite call_out_run.
Qed.

Lemma notify_run action action_id result user_details w :
  exists extra,
    orchestrator.notify action action_id result user_details w =
      (Ok tt, fold_left (fun w c => log_call c w) extra w) /\
    forallb (fun c => negb (is_generative_call c)) extra = true.
Proof.
  unfold orchestrator.notify.
  destruct (String.eqb action "initiate_refund"); [by eexists [_]|].
  destruct (String.eqb action "initiate_replacement"); [by eexists [_]|].
  destruct (String.eqb action "book_service"); [by eexists [_]|].
  by exists [].
Qed.

Lemma mark_action_completed_run sid action_id action_type w :
  exists b f,
    session_manager.mark_action_completed sid action_id action_type w = (Ok b, set_sessions f w) /\
    forall key, untouched_by_action key ->
      entry E sid key (set_sessions f w) = entry E sid key w.
Proof.
  unfold session_manager.mark_action_completed, bind, gets, modify, ret.
  destruct (negb _).
  - exists false, (fun S => S). split; [by destruct w|]. intros. by destruct w.
  - eexists true, _. split; [done|]. intros key Hk. by apply entry_mark.
Qed.

(** What the action stage does (lines 162-234). *)
Lemma act_spec sid verified_response action w :
  exists out w',
    orchestrator.act E sid verified_response action w = (Ok out, w') /\
    (forall key, untouched_by_action key -> entry E sid key w' = entry E sid key w) /\
    (exists extra, calls w' = (calls w ++ extra)%list /\
                   forallb (fun c => negb (is_generative_call c)) extra = true) /\
    orders_json w' = orders_json w /\
    (action = "none" -> out = (verified_response, action, None) /\ w' = w) /\
    (action <> "none" ->
     session_manager.complete
       (session_manager.missing_info (session_manager.the_session E sid w) action) = false ->
     out = (session_manager.prompt
              (session_manager.missing_info (session_manager.the_session E sid w) action),
            "none", None) /\
     w' = set_sessions (session_manager.create_session_in E sid) w).
Proof.
  unfold orchestrator.act.
  destruct (String.eqb_spec action "none") as [->|Hne]; cbn [negb].
  { eexists _, _. split; [reflexivity|]. repeat split; try done.
    exists []. by rewrite app_nil_r. }
  set (w1 := set_sessions (session_manager.create_session_in E sid) w).
  set (info := session_manager.missing_info (session_manager.the_session E sid w) action).
  assert (Hcheck : session_manager.check_missing_info_for_action E sid action w = (Ok info, w1)).
  { apply check_missing_run. }
  destruct (session_manager.complete info) eqn:Hc.
  2:{ eexists _, _. split.
      { apply try_ok. rewrite (bind_ok _ _ _ _ _ Hcheck). rewrite Hc. reflexivity. }
      repeat split; try done.
      - intros key _. apply entry_create.
      - exists []. by rewrite app_nil_r. }
  destruct (execute_action_run E action (user_details_of E sid w1) w1)
    as (r & w2 & Hex & Hs2 & Hc2 & Ho2).
  assert (Hslot2 : forall key, entry E sid key w2 = entry E sid key w).
  { intros key. rewrite (entry_same E sid key w1 w2 Hs2). apply entry_create. }
  destruct r as [result|].
  2:{ eexists _, _. split.
      { apply try_ok. rewrite (bind_ok _ _ _ _ _ Hcheck). rewrite Hc. cbn [negb].
        unfold orchestrator.session_get. rewrite !bind_gets.
        rewrite (bind_ok _ _ _ _ _ Hex). reflexivity. }
      repeat split; try done; try (intros _ ?; congruence).
      exists []. by rewrite Hc2, app_nil_r. }
  destruct (String.eqb (agents.status result) "success") eqn:Hst.
  2:{ eexists _, _. split.
      { apply try_ok. rewrite (bind_ok _ _ _ _ _ Hcheck). rewrite Hc. cbn [negb].
        unfold orchestrator.session_get. rewrite !bind_gets.
        rewrite (bind_ok _ _ _ _ _ Hex). rewrite Hst. reflexivity. }
      repeat split; try done; try (intros _ ?; congruence).
      exists []. by rewrite Hc2, app_nil_r. }
  destruct (notify_run action (str (agents.action_id_of result)) result
              (user_details_of E sid w1) w2) as (extra & Hn & Hextra).
  destruct (mark_action_completed_run sid (str (agents.action_id_of result)) action
              (fold_left (fun w c => log_call c w) extra w2)) as (b & f & Hm & Hslotm).
  eexists _, _. split.
  { apply try_ok. rewrite (bind_ok _ _ _ _ _ Hcheck). rewrite Hc. cbn [negb].
    unfold orchestrator.session_get. rewrite !bind_gets.
    rewrite (bind_ok _ _ _ _ _ Hex). rewrite Hst.
    rewrite (bind_ok _ _ _ _ _ Hn). rewrite (bind_ok _ _ _ _ _ Hm). reflexivity. }
  repeat split; try done.
  - intros key Hk. rewrite Hslotm by done.
    rewrite (entry_same E sid key w2) by apply sessions_fold_log. apply Hslot2.
  - exists extra. split; [|done]. cbn [calls set_sessions]. by rewrite calls_fold_log, Hc2.
  - cbn [orders_json set_sessions]. by rewrite orders_fold_log.
Qed.

(** The body of [process_message] on a string, stage by stage. *)
Lemma pipeline_run msg sid w :
  exists verified_response w9 out w11,
    orchestrator.respond E responder_agent verifier_agent sid msg (classified intent_agent msg)
      (retrieved retrieval_agent msg) (session_context_of E sid (after_capture E sid msg w))
      (before_respond E sid msg w) = (Ok verified_response, w9) /\
    let action := agents.action_agent (classified intent_agent msg) verified_response in
    let w10 := if negb (String.eqb action "none") then log_call (CallConfirmation action) w9 else w9 in
    orchestrator.act E sid verified_response action w10 = (Ok out, w11) /\
    orchestrator.pipeline E intent_agent retrieval_agent responder_agent verifier_agent
      action_confirmation_agent (VStr msg) sid w =
    (Ok {| orchestrator.answer := out.1.1;
           orchestrator.intent := classified intent_agent msg;
           orchestrator.rag_sources := take 500 (retrieved retrieval_agent msg);
           orchestrator.action := out.1.2;
           orchestrator.action_confirmation :=
             if negb (String.eqb action "none")
             then value_or (action_confirmation_agent action) None else None;
           orchestrator.action_log := out.2;
           orchestrator.session_id := sid |},
     set_sessions (session_manager.add_to_conversation_history_in E sid "assistant" out.1.1) w11).
Proof.
  set (w5 := after_capture E sid msg w).
  set (w8 := before_respond E sid msg w).
  destruct (orchestrator.respond E responder_agent verifier_agent sid msg (classified intent_agent msg)
      (retrieved retrieval_agent msg) (session_context_of E sid w5) w8) as [r9 w9] eqn:Hresp.
  assert (exists vr, r9 = Ok vr) as [vr ->].
  { rewrite respond_run in Hresp. destruct (bypass _ _ _ _); inversion Hresp; eauto. }
  set (action := agents.action_agent (classified intent_agent msg) vr).
  set (w10 := if negb (String.eqb action "none") then log_call (CallConfirmation action) w9 else w9).
  destruct (act_spec sid vr action w10) as (out & w11 & Hact & _).
  exists vr, w9, out, w11. split; [done|]. split; [done|].
  unfold orchestrator.pipeline.
  unfold bind at 1. unfold ret at 1.
  rewrite (bind_ok _ _ _ _ _ (get_session_run E sid w)).
  unfold session_manager.add_to_conversation_history.
  unfold bind at 1. unfold modify at 1.
  rewrite (bind_ok _ _ _ _ _ (link_order_run sid msg _)).
  rewrite (bind_ok _ _ _ _ _ (capture_reason_run sid msg _)).
  rewrite (bind_ok _ _ _ _ _ (capture_datetime_run sid msg _)).
  fold (after_linkage E sid msg w). fold (after_capture E sid msg w). fold w5.
  rewrite (bind_ok _ _ _ _ _ (get_session_context_run sid w5)).
  rewrite (bind_ok _ _ _ _ _ (call_out_run _ _ _ _)).
  rewrite (bind_ok _ _ _ _ _ (call_out_run _ _ _ _)).
  fold (classified intent_agent msg). fold (retrieved retrieval_agent msg).
  fold (before_respond E sid msg w). fold w8.
  rewrite (bind_ok _ _ _ _ _ Hresp).
  fold action.
  assert (Hconf :
    (if negb (String.eqb action "none")
     then try_except (orchestrator.call_out (CallConfirmation action)
                        (action_confirmation_agent action)) (ret None)
     else ret None) w9 =
    (Ok (if negb (String.eqb action "none")
         then value_or (action_confirmation_agent action) None else None), w10)).
  { unfold w10. destruct (negb _); [apply call_out_run | reflexivity]. }
  rewrite (bind_ok _ _ _ _ _ Hconf).
  rewrite (bind_ok _ _ _ _ _ Hact).
  destruct out as [[a b] c]. reflexivity.
Qed.

Lemma after_linkage_frame sid msg w :
  calls (after_linkage E sid msg w) = calls w /\
  orders_json (after_linkage E sid msg w) = orders_json w /\
  same_ledgers w (after_linkage E sid msg w).
Proof.
  unfold after_linkage. cbv zeta. destruct (linked_order _ _); by repeat split.
Qed.

Lemma after_capture_frame sid msg w :
  calls (after_capture E sid msg w) = calls w /\
  orders_json (after_capture E sid msg w) = orders_json w /\
  same_ledgers w (after_capture E sid msg w).
Proof.
  destruct (after_linkage_frame sid msg w) as (Hc & Ho & Hr & Hp & Hs).
  unfold after_capture. cbv zeta.
  destruct (reason_condition _ _ _ _); destruct (datetime_condition _ _ _ _);
    by repeat split.
Qed.

Lemma action_of_action_intent intent v :
  in_list intent orchestrator.action_intents = true -> agents.action_agent intent v = "none".
Proof.
  unfold in_list, orchestrator.action_intents; simpl. intros H.
  repeat (apply orb_prop in H as [H|H]; [apply String.eqb_eq in H as ->; reflexivity|]).
  discriminate.
Qed.

(** [process_message] on a string: what it returns and the world it
    leaves. *)
Lemma process_message_spec msg session_id w :
  let sid := orchestrator.resolve_session_id E session_id in
  let w5 := after_capture E sid msg w in
  exists r w' new,
    orchestrator.process_message_with E intent_agent retrieval_agent responder_agent
      verifier_agent action_confirmation_agent (VStr msg) session_id w = (Ok r, w') /\
    orchestrator.session_id r = sid /\
    orchestrator.intent r = classified intent_agent msg /\
    calls w' = (calls w ++ new)%list /\
    orders_json w' = orders_json w /\
    (forall key, untouched_by_action key -> entry E sid key w' = entry E sid key w5) /\
    (bypass E sid (classified intent_agent msg) w5 = true ->
       orchestrator.answer r =
         orchestrator.acknowledgement
           (slot_default E sid "customer_name" (VStr "Customer") w5)
           (slot_default E sid "product_name" (VStr "your product") w5)
           (slot E sid "order_id" w5) (classified intent_agent msg) /\
       orchestrator.action r = "none" /\ orchestrator.action_log r = None /\
       new = [CallIntent msg; CallRetrieval msg] /\ same_ledgers w w') /\
    (bypass E sid (classified intent_agent msg) w5 = false ->
       exists context session_context draft extra,
         new = ([CallIntent msg; CallRetrieval msg;
                 CallResponder context msg session_context;
                 CallVerifier draft context] ++ extra)%list /\
         forallb (fun c => negb (is_generative_call c)) extra = true) /\
    (let action := agents.action_agent (classified intent_agent msg) "" in
     action <> "none" ->
     session_manager.complete
       (session_manager.missing_info (session_manager.the_session E sid w5) action) = false ->
       orchestrator.answer r =
         session_manager.prompt
           (session_manager.missing_info (session_manager.the_session E sid w5) action) /\
       orchestrator.action r = "none" /\ orchestrator.action_log r = None /\
       same_ledgers w w' /\
       existsb is_email_call new = false /\
       (forall key, entry E sid key w' = entry E sid key w5)).
Proof.
  intros sid w5.
  destruct (pipeline_run msg sid w) as (vr & w9 & out & w11 & Hresp & Hact & Hpipe).
  cbv zeta in Hact, Hpipe. fold w5 in Hresp.
  set (w8 := before_respond E sid msg w) in *.
  set (action := agents.action_agent (classified intent_agent msg) vr) in *.
  change (agents.action_agent (classified intent_agent msg) "") with action.
  set (w10 := if negb (String.eqb action "none") then log_call (CallConfirmation action) w9 else w9) in *.
  destruct (after_capture_frame sid msg w) as (Hc5 & Ho5 & Hl5). fold w5 in Hc5, Ho5, Hl5.
  assert (Hw8 : forall key, entry E sid key w8 = entry E sid key w5).
  { intros key. unfold w8, before_respond. fold w5.
    change (entry E sid key (log_call _ (log_call _ ?x))) with (entry E sid key x).
    apply entry_create. }
  assert (Hs8 : session_manager.the_session E sid w8 = session_manager.the_session E sid w5).
  { apply the_session_create. }
  assert (Hc8 : calls w8 = (calls w ++ [CallIntent msg; CallRetrieval msg])%list).
  { unfold w8, before_respond. cbn [calls log_call set_sessions]. fold w5.
    rewrite Hc5. by rewrite <- app_assoc. }
  assert (Hb8 : bypass E sid (classified intent_agent msg) w8
                = bypass E sid (classified intent_agent msg) w5).
  { unfold bypass, slot. by rewrite Hw8. }
  destruct (act_spec sid vr action w10)
    as (out' & w11' & Hact' & Hkeep & Hextra & Hord & Hnone & Hask).
  rewrite Hact in Hact'. injection Hact' as <- <-.
  assert (Hproc := Hpipe).
  apply (try_ok _ (ret (orchestrator.error_response sid))) in Hproc.
  change (try_except _ _ w)
    with (orchestrator.process_message_with E intent_agent retrieval_agent responder_agent
            verifier_agent action_confirmation_agent (VStr msg) session_id w) in Hproc.
  clear Hpipe.
  rewrite respond_run, Hb8 in Hresp.
  destruct (bypass E sid (classified intent_agent msg) w5) eqn:Hb.
  - (* the flow controller answers *)
    injection Hresp as <- <-.
    assert (Ha : action = "none").
    { apply action_of_action_intent. unfold bypass in Hb. by apply andb_prop in Hb as [_ ?]. }
    destruct (Hnone Ha) as [-> ->].
    assert (Hw10 : w10 = w8). { unfold w10. by rewrite Ha. }
    rewrite Hw10 in Hproc.
    eexists _, _, _. split; [exact Hproc|].
    cbn [orchestrator.session_id orchestrator.intent orchestrator.answer orchestrator.action
         orchestrator.action_log].
    split; [done|]. split; [done|].
    split. { cbn [calls set_sessions]. exact Hc8. }
    split. { cbn [orders_json set_sessions]. unfold w8, before_respond.
             cbn [orders_json log_call set_sessions]. exact Ho5. }
    split. { intros key _. rewrite entry_history. apply Hw8. }
    split.
    { intros _. cbn [fst snd]. unfold slot_default, slot. rewrite !Hw8.
      repeat split; try done; apply Hl5. }
    split; [done|].
    intros Hne; congruence.
  - (* the responder and the verifier answer *)
    cbv zeta in Hresp. injection Hresp as <- <-.
    destruct Hextra as (extra & Hcalls & Hextra).
    set (conf_calls := if negb (String.eqb action "none") then [CallConfirmation action] else []).
    assert (Hc10 : calls w10 =
      (calls w ++ [CallIntent msg; CallRetrieval msg] ++
       [CallResponder (retrieved retrieval_agent msg) msg (session_context_of E sid w5);
        CallVerifier
          (value_or (responder_agent (retrieved retrieval_agent msg) msg (session_context_of E sid w5))
             "I apologize, but I'm experiencing technical difficulties. Please try again later.")
          (retrieved retrieval_agent msg)] ++ conf_calls)%list).
    { unfold w10, conf_calls. destruct (negb _); cbn [calls log_call]; rewrite Hc8;
        rewrite <- ?app_assoc; simpl; by rewrite ?app_nil_r. }
    assert (Hw10 : forall key, entry E sid key w10 = entry E sid key w5).
    { intros key. rewrite <- Hw8. unfold w10. by destruct (negb _). }
    assert (Hs10 : session_manager.the_session E sid w10 = session_manager.the_session E sid w5).
    { rewrite <- Hs8. unfold w10. by destruct (negb _). }
    assert (Ho10 : orders_json w10 = orders_json w).
    { rewrite <- Ho5. unfold w10, w8, before_respond. by destruct (negb _). }
    assert (Hl10 : same_ledgers w w10).
    { unfold w10, w8, before_respond. fold w5. by destruct (negb _). }
    eexists _, _, _. split; [exact Hproc|].
    cbn [orchestrator.session_id orchestrator.intent orchestrator.answer orchestrator.action
         orchestrator.action_log].
    split; [done|]. split; [done|].
    split. { cbn [calls set_sessions]. rewrite Hcalls, Hc10. rewrite <- !app_assoc. reflexivity. }
    split. { cbn [orders_json set_sessions]. by rewrite Hord. }
    split. { intros key Hk. rewrite entry_history, Hkeep by done. apply Hw10. }
    split; [done|].
    split.
    { intros _. eexists _, _, _, (conf_calls ++ extra)%list. split; [reflexivity|].
      rewrite forallb_app, Hextra, andb_true_r. unfold conf_calls. by destruct (negb _). }
    intros Hne Hinc. rewrite Hs10 in Hask. destruct (Hask Hne Hinc) as [-> ->].
    cbn [fst snd]. assert (extra = []) as ->.
    { cbn [calls set_sessions] in Hcalls. apply (app_inv_head (calls w10)).
      rewrite app_nil_r. symmetry. exact Hcalls. }
    repeat split; try done; try apply Hl10.
    + rewrite !app_nil_r. unfold conf_calls. by destruct (negb _).
    + intros key. rewrite entry_history, entry_create. apply Hw10.
Qed.

Lemma reason_after_capture sid msg w :
  slot E sid "reason_for_action" (after_capture E sid msg w) =
  if reason_condition E sid msg (after_linkage E sid msg w) then VStr (strip msg)
  else slot E sid "reason_for_action" (after_linkage E sid msg w).
Proof.
  unfold after_capture. cbv zeta. unfold slot.
  destruct (datetime_condition _ _ _ _); rewrite ?entry_update; cbn [String.eqb Ascii.eqb Bool.eqb];
    destruct (reason_condition _ _ _ _); rewrite ?entry_update; by cbn [String.eqb Ascii.eqb Bool.eqb].
Qed.

Lemma datetime_after_capture sid msg w :
  slot E sid "preferred_datetime" (after_capture E sid msg w) =
  if datetime_condition E sid msg (after_linkage E sid msg w) then VStr (strip msg)
  else slot E sid "preferred_datetime" (after_linkage E sid msg w).
Proof.
  unfold after_capture. cbv zeta.
  set (w3 := after_linkage E sid msg w).
  set (w4 := if reason_condition E sid msg w3 then _ else w3).
  assert (Hsame : forall key, key <> "reason_for_action" -> slot E sid key w4 = slot E sid key w3).
  { intros key Hk. unfold w4, slot. destruct (reason_condition _ _ _ _); [|done].
    rewrite entry_update. destruct (String.eqb_spec "reason_for_action" key); [congruence|done]. }
  assert (Hd : datetime_condition E sid msg w4 = datetime_condition E sid msg w3).
  { unfold datetime_condition. by rewrite !Hsame. }
  rewrite Hd. destruct (datetime_condition E sid msg w3).
  - unfold slot. rewrite entry_update. by cbn [String.eqb Ascii.eqb Bool.eqb].
  - by apply Hsame.
Qed.

Lemma order_id_after_capture sid msg w :
  entry E sid "order_id" (after_capture E sid msg w)
  = entry E sid "order_id" (after_linkage E sid msg w).
Proof.
  unfold after_capture. cbv zeta.
  destruct (datetime_condition _ _ _ _); rewrite ?entry_update; cbn [String.eqb Ascii.eqb Bool.eqb];
    destruct (reason_condition _ _ _ _); rewrite ?entry_update; by cbn [String.eqb Ascii.eqb Bool.eqb].
Qed.

Lemma entry_after_capture_action_id sid msg w :
  entry E sid "action_id" (after_capture E sid msg w) = entry E sid "action_id" w.
Proof.
  unfold after_capture, after_linkage. cbv zeta.
  destruct (reason_condition _ _ _ _); destruct (datetime_condition _ _ _ _);
    destruct (linked_order _ _);
    rewrite ?entry_update, ?entry_bulk; cbn [String.eqb Ascii.eqb Bool.eqb fold_left fst snd order_fields];
    rewrite ?entry_update, ?entry_bulk; cbn [String.eqb Ascii.eqb Bool.eqb fold_left fst snd order_fields];
    by rewrite entry_history, entry_create.
Qed.

(** The reason captured from a message is still in the session when
    [process_message] returns. *)
Lemma reason_captured msg session_id w :
  let sid := orchestrator.resolve_session_id E session_id in
  exists r w',
    orchestrator.process_message_with E intent_agent retrieval_agent responder_agent
      verifier_agent action_confirmation_agent (VStr msg) session_id w = (Ok r, w') /\
    (forall key, untouched_by_action key ->
       entry E sid key w' = entry E sid key (after_capture E sid msg w)) /\
    (reason_condition E sid msg (after_linkage E sid msg w) = true ->
     slot E sid "reason_for_action" w' = VStr (strip msg)) /\
    (datetime_condition E sid msg (after_linkage E sid msg w) = true ->
     slot E sid "preferred_datetime" w' = VStr (strip msg)).
Proof.
  intros sid.
  destruct (process_message_spec msg session_id w)
    as (r & w' & new & Hrun & _ & _ & _ & _ & Hkeep & _).
  cbv zeta in Hkeep. fold sid in Hkeep.
  exists r, w'. split; [done|]. split; [done|]. split.
  - intros Hc. unfold slot at 1. rewrite (Hkeep _ untouched_reason).
    fold (slot E sid "reason_for_action" (after_capture E sid msg w)).
    by rewrite reason_after_capture, Hc.
  - intros Hc. unfold slot at 1. rewrite (Hkeep _ untouched_datetime).
    fold (slot E sid "preferred_datetime" (after_capture E sid msg w)).
    by rewrite datetime_after_capture, Hc.
Qed.

End StageFacts.

(** * The pipeline *)

(** The two texts that [process_message] composes itself, written out. *)
Lemma acknowledgement_text customer_name product_name order_id intent :
  in_list intent ["initiate_refund"; "initiate_replacement"; "book_service"] = true ->
  orchestrator.acknowledgement customer_name product_name order_id intent =
    let label :=
      if String.eqb intent "initiate_refund" then "refund"
      else if String.eqb intent "initiate_replacement" then "replacement"
      else "service appointment" in
    "Thank you, " +:+ str customer_name +:+
    ". I understand you'd like to proceed with a " +:+ label +:+
    " for " +:+ str product_name +:+ " (Order ID: " +:+ str order_id +:+ ")." +:+ nl +:+ nl +:+
    "I'm processing your " +:+ label +:+ " request now. Please wait a moment...".
Proof.
  unfold in_list; simpl. intros H.
  repeat (apply orb_prop in H as [H|H]; [apply String.eqb_eq in H as ->; reflexivity|]).
  discriminate.
Qed.

Lemma confirmation_text action prefix file action_id :
  agents.ledger action = Some (prefix, file) ->
  orchestrator.confirmation action (VStr action_id) =
    let label :=
      if String.eqb action "initiate_refund" then "refund"
      else if String.eqb action "initiate_replacement" then "replacement"
      else "service appointment" in
    "Your " +:+ label +:+ " request has been processed." +:+ nl +:+ nl +:+
    "**Request ID:** " +:+ action_id +:+ nl +:+ nl +:+
    "You'll receive confirmation via email shortly.".
Proof.
  intros Hl. by destruct (ledger_cases _ _ _ Hl) as [(-> & _)|[(-> & _)|(-> & _)]].
Qed.

Section PipelineClaims.
Variable E : env.
Variable intent_agent : string -> result string.
Variable retrieval_agent : string -> result string.
Variable responder_agent : string -> string -> string -> result string.
Variable verifier_agent : string -> string -> result string.
Variable action_confirmation_agent : string -> result (option string).
Implicit Types (w : world) (sid msg key : string).

(** C1.  Whatever the five collaborators are, [process_message] calls
    neither the responder nor the verifier when the session's [order_id] is
    set and the classified intent is one of the three action labels; its
    answer is then the acknowledgement "Thank you, <customer name>. I
    understand you'd like to proceed with a <label> for <product name>
    (Order ID: <order id>)." followed by the line that announces the
    processing, composed from the slots [customer_name] (or "Customer"),
    [product_name] (or "your product") and [order_id] and from the label of
    the intent.  In every other case it calls both.  The session is read as
    [process_message] leaves it: nothing after the flow controller writes
    the three slots. *)
Theorem flow_controller_bypass_iff msg session_id w :
  exists r w' new,
    orchestrator.process_message_with E intent_agent retrieval_agent responder_agent
      verifier_agent action_confirmation_agent (VStr msg) session_id w = (Ok r, w') /\
    calls w' = (calls w ++ new)%list /\
    let sid := orchestrator.session_id r in
    let bypassed :=
      truthy (slot E sid "order_id" w') &&
      in_list (orchestrator.intent r)
              ["initiate_refund"; "initiate_replacement"; "book_service"] in
    (bypassed = true ->
       existsb is_responder_call new = false /\
       existsb is_verifier_call new = false /\
       let customer_name := slot_default E sid "customer_name" (VStr "Customer") w' in
       let product_name := slot_default E sid "product_name" (VStr "your product") w' in
       let order_id := slot E sid "order_id" w' in
       let label :=
         if String.eqb (orchestrator.intent r) "initiate_refund" then "refund"
         else if String.eqb (orchestrator.intent r) "initiate_replacement" then "replacement"
         else "service appointment" in
       orchestrator.answer r =
         "Thank you, " +:+ str customer_name +:+
         ". I understand you'd like to proceed with a " +:+ label +:+
         " for " +:+ str product_name +:+ " (Order ID: " +:+ str order_id +:+ ")." +:+
         nl +:+ nl +:+
         "I'm processing your " +:+ label +:+ " request now. Please wait a moment...") /\
    (bypassed = false ->
       existsb is_responder_call new = true /\
       existsb is_verifier_call new = true).
Proof.
  destruct (process_message_spec E intent_agent retrieval_agent responder_agent verifier_agent
              action_confirmation_agent msg session_id w)
    as (r & w' & new & Hrun & Hsid & Hint & Hcalls & _ & Hkeep & Hyes & Hno & _).
  cbv zeta in *.
  exists r, w', new. split; [done|]. split; [done|].
  rewrite Hsid, Hint.
  set (sid := orchestrator.resolve_session_id E session_id) in *.
  unfold slot, slot_default.
  rewrite !(Hkeep "order_id" untouched_order_id),
          !(Hkeep "customer_name" untouched_customer_name),
          !(Hkeep "product_name" untouched_product_name).
  change (truthy (default VNone (entry E sid "order_id" (after_capture E sid msg w))) &&
          in_list (classified intent_agent msg)
            ["initiate_refund"; "initiate_replacement"; "book_service"])
    with (bypass E sid (classified intent_agent msg) (after_capture E sid msg w)).
  split.
  - intros Hb. destruct (Hyes Hb) as (Hans & _ & _ & -> & _).
    split; [done|]. split; [done|]. rewrite Hans.
    apply acknowledgement_text. unfold bypass in Hb. by apply andb_prop in Hb as [_ ?].
  - intros Hb. destruct (Hno Hb) as (c & s & d & extra & -> & _). by split.
Qed.

Lemma valid_intent_not_action i :
  in_list i agents.valid_intents = true -> in_list i orchestrator.action_intents = false.
Proof.
  unfold in_list, agents.valid_intents; simpl. intros H.
  repeat (apply orb_prop in H as [H|H]; [apply String.eqb_eq in H as ->; reflexivity|]).
  discriminate.
Qed.

Lemma intent_agent_valid m : in_list (agents.intent_agent E m) agents.valid_intents = true.
Proof.
  unfold agents.intent_agent.
  destruct (model E) as [generate|]; [|reflexivity].
  destruct (generate _) as [text|]; [|reflexivity].
  destruct (in_list (lower (strip text)) agents.valid_intents) eqn:H; [exact H|reflexivity].
Qed.

(** C2.  [intent_agent] only returns one of its seven documented labels,
    and whenever the classified intent is one of them the condition of the
    flow controller is false: the responder and the verifier are called. *)
Theorem documented_intents_never_bypass msg session_id w :
  (forall m, in_list (agents.intent_agent E m) agents.valid_intents = true) /\
  (in_list (classified intent_agent msg) agents.valid_intents = true ->
   exists r w' new,
     orchestrator.process_message_with E intent_agent retrieval_agent responder_agent
       verifier_agent action_confirmation_agent (VStr msg) session_id w = (Ok r, w') /\
     calls w' = (calls w ++ new)%list /\
     orchestrator.intent r = classified intent_agent msg /\
     truthy (slot E (orchestrator.session_id r) "order_id" w') &&
       in_list (orchestrator.intent r)
               ["initiate_refund"; "initiate_replacement"; "book_service"] = false /\
     existsb is_responder_call new = true /\
     existsb is_verifier_call new = true).
Proof.
  split; [apply intent_agent_valid|]. intros Hvalid.
  destruct (process_message_spec E intent_agent retrieval_agent responder_agent verifier_agent
              action_confirmation_agent msg session_id w)
    as (r & w' & new & Hrun & _ & Hint & Hcalls & _ & _ & _ & Hno & _).
  cbv zeta in Hno.
  assert (Hb : bypass E (orchestrator.resolve_session_id E session_id)
                 (classified intent_agent msg)
                 (after_capture E (orchestrator.resolve_session_id E session_id) msg w) = false).
  { unfold bypass. rewrite (valid_intent_not_action _ Hvalid). apply andb_false_r. }
  destruct (Hno Hb) as (c & s & d & extra & -> & _).
  exists r, w', (CallIntent msg :: CallRetrieval msg :: CallResponder c msg s
                   :: CallVerifier d c :: extra).
  repeat split; try done.
  rewrite Hint. change (in_list ?i [_; _; _]) with (in_list i orchestrator.action_intents).
  rewrite (valid_intent_not_action _ Hvalid). apply andb_false_r.
Qed.

Lemma refund_without_reason s :
  truthy (get (slots s) "order_id") = true ->
  truthy (get (slots s) "reason_for_action") = false ->
  session_manager.complete (session_manager.missing_info s "initiate_refund") = false /\
  session_manager.prompt (session_manager.missing_info s "initiate_refund")
  = session_manager.refund_reason_prompt.
Proof.
  intros H1 H2. unfold session_manager.missing_info. rewrite H1, H2. by split.
Qed.

(** C3.  When the resolved action is not [none] and the slot-fill check
    finds information missing, the answer is the prompt of the check, the
    action returned is [none], there is no action log, no ledger is written,
    the session's [action_id] is what it was and no e-mail is sent.  In
    particular, with [order_id] set, [reason_for_action] empty and the
    action resolved to [initiate_refund], the answer is the question for
    the reason of the refund.  The check reads the session as the slot
    captures of the same message leave it; these slots are not written
    afterwards, so the session is read as [process_message] leaves it. *)
Theorem incomplete_action_prompts msg session_id w :
  exists r w' new,
    orchestrator.process_message_with E intent_agent retrieval_agent responder_agent
      verifier_agent action_confirmation_agent (VStr msg) session_id w = (Ok r, w') /\
    calls w' = (calls w ++ new)%list /\
    let sid := orchestrator.session_id r in
    let action := resolved_action (orchestrator.intent r) in
    let info := session_manager.missing_info (session_manager.the_session E sid w') action in
    (action <> "none" -> session_manager.complete info = false ->
       orchestrator.answer r = session_manager.prompt info /\
       orchestrator.action r = "none" /\
       orchestrator.action_log r = None /\
       same_ledgers w w' /\
       slot E sid "action_id" w' = slot E sid "action_id" w /\
       existsb is_email_call new = false) /\
    (resolved_action (orchestrator.intent r) = "initiate_refund" ->
     truthy (slot E sid "order_id" w') = true ->
     truthy (slot E sid "reason_for_action" w') = false ->
       orchestrator.answer r = "Could you tell me the reason for your refund request?" /\
       orchestrator.action r = "none" /\
       orchestrator.action_log r = None /\
       same_ledgers w w').
Proof.
  destruct (process_message_spec E intent_agent retrieval_agent responder_agent verifier_agent
              action_confirmation_agent msg session_id w)
    as (r & w' & new & Hrun & Hsid & Hint & Hcalls & _ & Hkeep & _ & _ & Hask).
  cbv zeta in *.
  exists r, w', new. split; [done|]. split; [done|].
  rewrite Hsid, Hint. set (sid := orchestrator.resolve_session_id E session_id) in *.
  set (w5 := after_capture E sid msg w) in *.
  unfold resolved_action.
  assert (Hinfo : forall a,
    session_manager.missing_info (session_manager.the_session E sid w') a =
    session_manager.missing_info (session_manager.the_session E sid w5) a).
  { intros a. apply missing_info_ext. intros key Hk. apply (Hkeep key Hk). }
  assert (Hgeneral : forall a, a = agents.action_agent (classified intent_agent msg) "" ->
    a <> "none" ->
    session_manager.complete
      (session_manager.missing_info (session_manager.the_session E sid w') a) = false ->
    orchestrator.answer r =
      session_manager.prompt (session_manager.missing_info (session_manager.the_session E sid w') a) /\
    orchestrator.action r = "none" /\ orchestrator.action_log r = None /\ same_ledgers w w' /\
    slot E sid "action_id" w' = slot E sid "action_id" w /\
    existsb is_email_call new = false).
  { intros a -> Hne Hinc. rewrite Hinfo in Hinc |- *.
    destruct (Hask Hne Hinc) as (Hans & Hact & Hlog & Hled & Hmail & Hall).
    repeat split; try done; try apply Hled.
    unfold slot. rewrite Hall. unfold w5. by rewrite entry_after_capture_action_id. }
  split.
  - intros Hne Hinc. by apply Hgeneral.
  - intros Ha Ho Hr.
    destruct (refund_without_reason (session_manager.the_session E sid w') Ho Hr) as [Hinc Hprompt].
    destruct (Hgeneral "initiate_refund" (eq_sym Ha)) as (Hans & Hact & Hlog & Hled & _); try done.
    rewrite Hprompt in Hans. by repeat split; try apply Hled.
Qed.

(** C7, as amended.  With [order_id] set and [reason_for_action] empty
    once the order linkage of the same message has run, a message of more
    than 10 characters which, stripped of surrounding white space, does not
    end in [?] is stored, stripped, as [reason_for_action].  With [order_id] set
    and [preferred_datetime] empty, a message whose lower case contains one
    of the keywords of the list (the weekday names, tomorrow, next week,
    pm, am, december, january) is stored, stripped, as [preferred_datetime].
    Neither capture raises. *)
Theorem capture_stores_stripped_message msg session_id w :
  let sid := orchestrator.resolve_session_id E session_id in
  let w3 := after_linkage E sid msg w in
  exists r w',
    orchestrator.process_message_with E intent_agent retrieval_agent responder_agent
      verifier_agent action_confirmation_agent (VStr msg) session_id w = (Ok r, w') /\
    (truthy (slot E sid "order_id" w3) = true ->
     truthy (slot E sid "reason_for_action" w3) = false ->
     10 < String.length msg ->
     endswith (strip msg) "?" = false ->
     slot E sid "reason_for_action" w' = VStr (strip msg)) /\
    (truthy (slot E sid "order_id" w3) = true ->
     truthy (slot E sid "preferred_datetime" w3) = false ->
     (exists keyword,
        In keyword ["tomorrow"; "monday"; "tuesday"; "wednesday"; "thursday"; "friday";
                    "saturday"; "sunday"; "next week"; "pm"; "am"; "december"; "january"] /\
        contains (lower msg) keyword = true) ->
     slot E sid "preferred_datetime" w' = VStr (strip msg)) /\
    (forall sid0 msg0 w0,
       fst (orchestrator.capture_reason E sid0 msg0 w0) = Ok tt /\
       fst (orchestrator.capture_datetime E sid0 msg0 w0) = Ok tt).
Proof.
  intros sid w3.
  destruct (reason_captured E intent_agent retrieval_agent responder_agent verifier_agent
              action_confirmation_agent msg session_id w)
    as (r & w' & Hrun & _ & Hreason & Hdate).
  fold sid in Hreason, Hdate. fold w3 in Hreason, Hdate.
  exists r, w'. split; [done|]. split; [|split].
  - intros Ho Hr Hlen Hq. apply Hreason. unfold reason_condition. rewrite Ho, Hr, Hq.
    apply Nat.ltb_lt in Hlen. by rewrite Hlen.
  - intros Ho Hp (keyword & Hin & Hk). apply Hdate. unfold datetime_condition. rewrite Ho, Hp.
    assert (Hany : any (fun keyword => contains (lower msg) keyword)
                       orchestrator.datetime_keywords = true).
    { apply existsb_exists. by exists keyword. }
    by rewrite Hany.
  - intros sid0 msg0 w0. by rewrite capture_reason_run, capture_datetime_run.
Qed.

(** C10, as amended.  In a session that did not exist, a first message that
    names an order on file, has more than 10 characters and, stripped, does
    not end in [?], is itself stored, stripped, as [reason_for_action]; the
    session is then complete for a refund and for a replacement. *)
Theorem order_message_becomes_reason msg session_id w order_id order :
  let sid := orchestrator.resolve_session_id E session_id in
  SESSION_STATE w !! sid = None ->
  order_lookup.extract_order_id_from_message msg = Some order_id ->
  order_lookup.get_order_by_id order_id w = Some order ->
  10 < String.length msg ->
  endswith (strip msg) "?" = false ->
  exists r w',
    orchestrator.process_message_with E intent_agent retrieval_agent responder_agent
      verifier_agent action_confirmation_agent (VStr msg) session_id w = (Ok r, w') /\
    slot E sid "reason_for_action" w' = VStr (strip msg) /\
    session_manager.complete
      (session_manager.missing_info (session_manager.the_session E sid w') "initiate_refund") = true /\
    session_manager.complete
      (session_manager.missing_info (session_manager.the_session E sid w') "initiate_replacement") = true.
Proof.
  intros sid Hfresh Hex Hget Hlen Hq.
  destruct (reason_captured E intent_agent retrieval_agent responder_agent verifier_agent
              action_confirmation_agent msg session_id w)
    as (r & w' & Hrun & Hkeep & Hreason & _).
  fold sid in Hreason, Hkeep.
  destruct (found_order _ _ _ _ Hex Hget) as (_ & _ & Htruthy).
  assert (Hlink : after_linkage E sid msg w =
    set_sessions (session_manager.update_session_bulk_in E sid (order_fields order))
      (set_sessions (session_manager.add_to_conversation_history_in E sid "user" msg)
         (set_sessions (session_manager.create_session_in E sid) w))).
  { unfold after_linkage. cbv zeta. by erewrite linked_order_found. }
  assert (Hnew : forall key, entry E sid key w = slots (session_manager.new_session E sid) !! key).
  { intros key. unfold entry, session_manager.the_session. by rewrite Hfresh. }
  assert (Ho3 : slot E sid "order_id" (after_linkage E sid msg w) = get order "order_id").
  { rewrite Hlink. unfold slot. rewrite entry_bulk. reflexivity. }
  assert (Hr3 : slot E sid "reason_for_action" (after_linkage E sid msg w) = VNone).
  { rewrite Hlink. unfold slot. rewrite entry_bulk.
    cbn [fold_left order_fields fst snd String.eqb Ascii.eqb Bool.eqb].
    rewrite entry_history, entry_create, Hnew. reflexivity. }
  assert (Hreason' : slot E sid "reason_for_action" w' = VStr (strip msg)).
  { apply Hreason. unfold reason_condition. rewrite Ho3, Hr3, Htruthy, Hq.
    apply Nat.ltb_lt in Hlen. by rewrite Hlen. }
  assert (Ho' : truthy (slot E sid "order_id" w') = true).
  { unfold slot. rewrite (Hkeep _ untouched_order_id), order_id_after_capture.
    fold (slot E sid "order_id" (after_linkage E sid msg w)). by rewrite Ho3. }
  assert (Hr' : truthy (slot E sid "reason_for_action" w') = true).
  { rewrite Hreason'. simpl. destruct (String.eqb_spec (strip msg) "") as [Hs|]; [|done].
    by apply (extracted_strip_nonempty _ _ Hex) in Hs. }
  exists r, w'. split; [done|]. split; [done|].
  unfold session_manager.missing_info.
  change (get (slots (session_manager.the_session E sid w')) ?k) with (slot E sid k w').
  by rewrite Ho', Hr'.
Qed.

(** C9.  [process_message] never raises: it returns a response on every
    message.  When an exception leaves the body of its [try], it returns
    the fixed apology with the intent [error], the action [none], no
    sources, no confirmation and no action log, and the world, sessions
    included, is left as it was when the exception was raised. *)
Theorem top_level_failure_contained (message : pyval) session_id w :
  let sid := orchestrator.resolve_session_id E session_id in
  (exists r w',
     orchestrator.process_message_with E intent_agent retrieval_agent responder_agent
       verifier_agent action_confirmation_agent message session_id w = (Ok r, w')) /\
  (forall w_fail,
     orchestrator.pipeline E intent_agent retrieval_agent responder_agent verifier_agent
       action_confirmation_agent message sid w = (Raised, w_fail) ->
     exists r,
       orchestrator.process_message_with E intent_agent retrieval_agent responder_agent
         verifier_agent action_confirmation_agent message session_id w = (Ok r, w_fail) /\
       orchestrator.answer r =
         "I apologize, but I encountered an error processing your request. Please try again." /\
       orchestrator.intent r = "error" /\
       orchestrator.action r = "none" /\
       orchestrator.rag_sources r = "" /\
       orchestrator.action_confirmation r = None /\
       orchestrator.action_log r = None).
Proof.
  intros sid. split.
  - unfold orchestrator.process_message_with. fold sid. unfold try_except.
    destruct (orchestrator.pipeline _ _ _ _ _ _ _ _ _) as [[r|] w']; eauto.
  - intros w_fail Hfail. exists (orchestrator.error_response sid). split; [|by repeat split].
    unfold orchestrator.process_message_with. fold sid.
    unfold try_except. by rewrite Hfail.
Qed.

(** The body raises exactly on a message that is not a string, at its
    first statement. *)
Lemma pipeline_raises_iff (message : pyval) sid w w_fail :
  orchestrator.pipeline E intent_agent retrieval_agent responder_agent verifier_agent
    action_confirmation_agent message sid w = (Raised, w_fail) <->
  (forall s, message <> VStr s) /\ w_fail = w.
Proof.
  destruct message as [| b | n | msg].
  1-3: (split; [intros [= <-]; by split | intros [_ ->]; reflexivity]).
  destruct (pipeline_run E intent_agent retrieval_agent responder_agent verifier_agent
              action_confirmation_agent msg sid w) as (? & ? & ? & ? & _ & _ & ->).
  split; [done|]. intros [H _]. by destruct (H msg).
Qed.

End PipelineClaims.

(** ** The claims on the small deployment *)

(** A property of what a run returns is read off the run itself. *)
Lemma on_run {A} (run : result A * world) (P : A -> world -> Prop) r w' :
  run = (Ok r, w') ->
  match run with
  | (Ok a, w) => P a w
  | _ => False
  end ->
  P r w'.
Proof. by intros ->. Qed.

Ltac by_running Hrun :=
  match type of Hrun with
  | _ = (Ok ?r, ?w') => pattern r, w'; apply (on_run _ _ _ _ Hrun); vm_compute; repeat split
  end.

(** A classifier that answers [book_service], with the four other
    collaborators failing: the flow controller answers alone. *)
Lemma flow_controller_bypass_iff_witness :
  exists r w' new,
    orchestrator.process_message_with demo_env (label_classifier "book_service")
      (fun _ => Raised) (fun _ _ _ => Raised) (fun _ _ => Raised) (fun _ => Raised)
      (VStr "hello") (Some "s1") demo_world_linked = (Ok r, w') /\
    calls w' = (calls demo_world_linked ++ new)%list /\
    existsb is_responder_call new = false /\
    existsb is_verifier_call new = false /\
    orchestrator.answer r =
      "Thank you, Asha Rao. I understand you'd like to proceed with a service appointment" +:+
      " for Mixer Grinder (Order ID: ORD201)." +:+ nl +:+ nl +:+
      "I'm processing your service appointment request now. Please wait a moment...".
Proof.
  destruct (flow_controller_bypass_iff demo_env (label_classifier "book_service")
              (fun _ => Raised) (fun _ _ _ => Raised) (fun _ _ => Raised) (fun _ => Raised)
              "hello" (Some "s1") demo_world_linked)
    as (r & w' & new & Hrun & Hcalls & Hyes & _).
  exists r, w', new. split; [exact Hrun|]. split; [exact Hcalls|].
  cbv zeta in Hyes. destruct Hyes as (Hresponder & Hverifier & Hanswer); [by_running Hrun|].
  split; [exact Hresponder|]. split; [exact Hverifier|].
  rewrite Hanswer. by_running Hrun.
Defined.

Lemma documented_intents_never_bypass_witness :
  in_list (classified (fun m => Ok (agents.intent_agent demo_env m)) "I want my money back")
          agents.valid_intents = true /\
  exists r w' new,
    orchestrator.process_message demo_env (VStr "I want my money back") (Some "s1")
      demo_world_linked = (Ok r, w') /\
    calls w' = (calls demo_world_linked ++ new)%list /\
    orchestrator.intent r =
      classified (fun m => Ok (agents.intent_agent demo_env m)) "I want my money back" /\
    truthy (slot demo_env (orchestrator.session_id r) "order_id" w') &&
      in_list (orchestrator.intent r)
              ["initiate_refund"; "initiate_replacement"; "book_service"] = false /\
    existsb is_responder_call new = true /\
    existsb is_verifier_call new = true.
Proof.
  split; [reflexivity|].
  apply (proj2 (documented_intents_never_bypass demo_env
                  (fun m => Ok (agents.intent_agent demo_env m))
                  (fun q => Ok (agents.retrieval_agent demo_env q))
                  (fun c m s => Ok (agents.responder_agent demo_env c m s))
                  (fun d c => Ok (agents.verifier_agent demo_env d c))
                  (fun a => Ok (agents.action_confirmation_agent demo_env a))
                  "I want my money back" (Some "s1") demo_world_linked)).
  reflexivity.
Defined.

(** The session knows its order, the message is too short to be taken as a
    reason and is classified as a refund: the answer asks for the reason. *)
Lemma incomplete_action_prompts_witness :
  exists r w',
    orchestrator.process_message demo_env (VStr "refund?") (Some "s1") demo_world_linked
      = (Ok r, w') /\
    orchestrator.answer r = "Could you tell me the reason for your refund request?" /\
    orchestrator.action r = "none" /\
    orchestrator.action_log r = None /\
    same_ledgers demo_world_linked w'.
Proof.
  destruct (incomplete_action_prompts demo_env
              (fun m => Ok (agents.intent_agent demo_env m))
              (fun q => Ok (agents.retrieval_agent demo_env q))
              (fun c m s => Ok (agents.responder_agent demo_env c m s))
              (fun d c => Ok (agents.verifier_agent demo_env d c))
              (fun a => Ok (agents.action_confirmation_agent demo_env a))
              "refund?" (Some "s1") demo_world_linked)
    as (r & w' & new & Hrun & _ & _ & Hrefund).
  exists r, w'. split; [exact Hrun|].
  cbv zeta in Hrefund. apply Hrefund; by_running Hrun.
Defined.

Lemma capture_stores_stripped_message_witness :
  exists r w',
    orchestrator.process_message demo_env (VStr " It hums, come on friday at 5 pm ")
      (Some "s1") demo_world_linked = (Ok r, w') /\
    slot demo_env "s1" "reason_for_action" w' = VStr "It hums, come on friday at 5 pm" /\
    slot demo_env "s1" "preferred_datetime" w' = VStr "It hums, come on friday at 5 pm".
Proof.
  pose proof (capture_stores_stripped_message demo_env
              (fun m => Ok (agents.intent_agent demo_env m))
              (fun q => Ok (agents.retrieval_agent demo_env q))
              (fun c m s => Ok (agents.responder_agent demo_env c m s))
              (fun d c => Ok (agents.verifier_agent demo_env d c))
              (fun a => Ok (agents.action_confirmation_agent demo_env a))
              " It hums, come on friday at 5 pm " (Some "s1") demo_world_linked) as H.
  cbv zeta in H. destruct H as (r & w' & Hrun & Hreason & Hdate & _).
  exists r, w'. split; [exact Hrun|]. split.
  - apply Hreason; try (vm_compute; reflexivity). apply Nat.ltb_lt. reflexivity.
  - apply Hdate; try (vm_compute; reflexivity).
    exists "friday". split; [simpl; tauto|vm_compute; reflexivity].
Defined.

(** The stored reason is not the message as it was sent, and a month other
    than december and january is not a keyword. *)
Lemma capture_stores_stripped_message_counterexample :
  let run msg :=
    snd (orchestrator.process_message demo_env (VStr msg) (Some "s1") demo_world_linked) in
  (truthy (slot demo_env "s1" "order_id" demo_world_linked) = true /\
   truthy (slot demo_env "s1" "reason_for_action" demo_world_linked) = false /\
   Nat.ltb 10 (String.length "The screen is cracked ") = true /\
   endswith "The screen is cracked " "?" = false /\
   slot demo_env "s1" "reason_for_action" (run "The screen is cracked ")
     <> VStr "The screen is cracked ") /\
  (truthy (slot demo_env "s1" "preferred_datetime" demo_world_linked) = false /\
   contains "march 15 suits me" "march" = true /\
   slot demo_env "s1" "preferred_datetime" (run "march 15 suits me") = VNone).
Proof. vm_compute. repeat split. discriminate. Qed.

Lemma order_message_becomes_reason_witness :
  exists r w',
    orchestrator.process_message demo_env (VStr "My order is ORD201") None demo_world
      = (Ok r, w') /\
    slot demo_env "session_0123456789ab" "reason_for_action" w' = VStr "My order is ORD201" /\
    session_manager.complete
      (session_manager.missing_info
         (session_manager.the_session demo_env "session_0123456789ab" w') "initiate_refund") = true /\
    session_manager.complete
      (session_manager.missing_info
         (session_manager.the_session demo_env "session_0123456789ab" w') "initiate_replacement") = true.
Proof.
  apply (order_message_becomes_reason demo_env
           (fun m => Ok (agents.intent_agent demo_env m))
           (fun q => Ok (agents.retrieval_agent demo_env q))
           (fun c m s => Ok (agents.responder_agent demo_env c m s))
           (fun d c => Ok (agents.verifier_agent demo_env d c))
           (fun a => Ok (agents.action_confirmation_agent demo_env a))
           "My order is ORD201" None demo_world "ORD201" demo_order).
  - reflexivity.
  - vm_compute. reflexivity.
  - reflexivity.
  - apply Nat.ltb_lt. reflexivity.
  - vm_compute. reflexivity.
Defined.

(** A question followed by a space names its order, is longer than 10
    characters and does not end in [?]; it is not taken as the reason. *)
Lemma order_message_becomes_reason_counterexample :
  let msg := "Is ORD201 ok? " in
  let w' := snd (orchestrator.process_message demo_env (VStr msg) (Some "s2") demo_world) in
  SESSION_STATE demo_world !! "s2" = None /\
  order_lookup.extract_order_id_from_message msg = Some "ORD201" /\
  order_lookup.get_order_by_id "ORD201" demo_world = Some demo_order /\
  Nat.ltb 10 (String.length msg) = true /\
  endswith msg "?" = false /\
  slot demo_env "s2" "order_id" w' = VStr "ORD201" /\
  slot demo_env "s2" "reason_for_action" w' = VNone /\
  slot demo_env "s2" "reason_for_action" w' <> VStr (strip msg).
Proof.
  cbv zeta. split; [reflexivity|]. split; [vm_compute; reflexivity|].
  split; [reflexivity|]. vm_compute. repeat split. discriminate.
Qed.

(** A message that is not a string: the body raises before anything is
    written, and the caller gets the error response. *)
Lemma top_level_failure_contained_witness :
  orchestrator.pipeline demo_env
    (fun m => Ok (agents.intent_agent demo_env m))
    (fun q => Ok (agents.retrieval_agent demo_env q))
    (fun c m s => Ok (agents.responder_agent demo_env c m s))
    (fun d c => Ok (agents.verifier_agent demo_env d c))
    (fun a => Ok (agents.action_confirmation_agent demo_env a))
    VNone "s1" demo_world_linked = (Raised, demo_world_linked) /\
  exists r,
    orchestrator.process_message demo_env VNone (Some "s1") demo_world_linked
      = (Ok r, demo_world_linked) /\
    orchestrator.answer r =
      "I apologize, but I encountered an error processing your request. Please try again." /\
    orchestrator.intent r = "error" /\
    orchestrator.action r = "none" /\
    orchestrator.rag_sources r = "" /\
    orchestrator.action_confirmation r = None /\
    orchestrator.action_log r = None.
Proof.
  split; [reflexivity|].
  apply (proj2 (top_level_failure_contained demo_env
                  (fun m => Ok (agents.intent_agent demo_env m))
                  (fun q => Ok (agents.retrieval_agent demo_env q))
                  (fun c m s => Ok (agents.responder_agent demo_env c m s))
                  (fun d c => Ok (agents.verifier_agent demo_env d c))
                  (fun a => Ok (agents.action_confirmation_agent demo_env a))
                  VNone (Some "s1") demo_world_linked)).
  reflexivity.
Defined.

(** * The slot-fill engine *)

Lemma missing_info_table s a :
  is_action_type a ->
  let info := session_manager.missing_info s a in
  session_manager.missing info =
    List.filter (fun key => negb (truthy (get (slots s) key))) (required_slots a) /\
  session_manager.complete info =
    match session_manager.missing info with [] => true | _ => false end /\
  session_manager.prompt info =
    match session_manager.missing info with
    | [] => ""
    | key :: _ => question a key
    end.
Proof.
  intros [-> | [-> | ->]]; cbv zeta; unfold session_manager.missing_info, required_slots;
    cbn [in_list existsb String.eqb Ascii.eqb Bool.eqb orb List.filter];
    destruct (truthy (get (slots s) "order_id"));
    try destruct (truthy (get (slots s) "reason_for_action"));
    try destruct (truthy (get (slots s) "preferred_datetime"));
    by repeat split.
Qed.

(** C6.  For the three action types [check_missing_info_for_action]
    returns the required slots that are empty, [order_id] first, then
    [reason_for_action] for a refund or a replacement and
    [preferred_datetime] for a service booking; [complete] says that none is
    missing; the prompt asks for the first missing slot, with an example
    when it is [order_id] and with the question of the action type
    otherwise.  The result depends on nothing but the truth values of the
    required slots and the action type, and a session that exists is left as
    it is. *)
Theorem check_missing_is_table_driven E sid a w :
  is_action_type a ->
  exists info w',
    session_manager.check_missing_info_for_action E sid a w = (Ok info, w') /\
    (is_Some (SESSION_STATE w !! sid) -> w' = w) /\
    session_manager.missing info =
      List.filter (fun key => negb (truthy (slot E sid key w))) (required_slots a) /\
    session_manager.complete info =
      match session_manager.missing info with [] => true | _ => false end /\
    session_manager.prompt info =
      match session_manager.missing info with
      | [] => ""
      | key :: _ => question a key
      end /\
    contains (question a "order_id") "ORD301" = true /\
    (forall E2 sid2 w2,
       (forall key, In key (required_slots a) ->
          truthy (slot E2 sid2 key w2) = truthy (slot E sid key w)) ->
       fst (session_manager.check_missing_info_for_action E2 sid2 a w2) = Ok info).
Proof.
  intros Ha. eexists _, _. split; [apply check_missing_run|].
  split; [apply set_sessions_present|].
  destruct (missing_info_table (session_manager.the_session E sid w) a Ha) as (Hm & Hc & Hp).
  cbv zeta in *. split; [exact Hm|]. split; [exact Hc|]. split; [exact Hp|].
  split; [reflexivity|].
  intros E2 sid2 w2 Hsame. rewrite check_missing_run. cbn [fst]. f_equal.
  unfold session_manager.missing_info.
  change (get (slots (session_manager.the_session ?e ?i ?x)) ?k) with (slot e i k x).
  destruct Ha as [-> | [-> | ->]];
    cbn [in_list existsb String.eqb Ascii.eqb Bool.eqb orb];
    rewrite ?(Hsame "order_id"), ?(Hsame "reason_for_action"), ?(Hsame "preferred_datetime");
    try reflexivity; unfold required_slots; simpl; tauto.
Qed.

Lemma check_missing_is_table_driven_witness :
  is_action_type "initiate_refund" /\
  exists info w',
    session_manager.check_missing_info_for_action demo_env "s1" "initiate_refund"
      demo_world_linked = (Ok info, w') /\
    session_manager.missing info = ["reason_for_action"] /\
    session_manager.complete info = false /\
    session_manager.prompt info = "Could you tell me the reason for your refund request?".
Proof.
  split; [left; reflexivity|].
  destruct (check_missing_is_table_driven demo_env "s1" "initiate_refund" demo_world_linked
              (or_introl eq_refl))
    as (info & w' & Hrun & _ & Hm & Hc & Hp & _).
  assert (Hmissing : session_manager.missing info = ["reason_for_action"]).
  { rewrite Hm. vm_compute. reflexivity. }
  exists info, w'. split; [exact Hrun|]. split; [exact Hmissing|].
  split; [by rewrite Hc, Hmissing | by rewrite Hp, Hmissing].
Defined.

(** * Looking orders up and finding identifiers *)

Lemma scan_orders_first clean orders order :
  order_lookup.scan_orders clean orders = Some order <->
  exists before after,
    orders = (before ++ order :: after)%list /\
    (forall o, In o before ->
       exists s, get_default o "order_id" (VStr "") = VStr s /\ upper s <> clean) /\
    exists s, get_default order "order_id" (VStr "") = VStr s /\ upper s = clean.
Proof.
  induction orders as [|o orders IH]; simpl.
  - split; [done|]. intros (before & after & H & _). by destruct before.
  - destruct (get_default o "order_id" (VStr "")) as [| | |s] eqn:Hget.
    1-3: (split; [done|]; intros (before & after & H & Hb & s & Hs & Hup);
          destruct before as [|o' before]; simplify_eq/=; [congruence|];
          destruct (Hb o') as (s' & Hs' & _); [by left|congruence]).
    destruct (String.eqb_spec (upper s) clean) as [Heq|Hne].
    + split.
      * intros [= <-]. exists [], orders. split; [done|]. split; [by intros ? []|]. eauto.
      * intros (before & after & H & Hb & s' & Hs' & Hup).
        destruct before as [|o' before]; simplify_eq/=; [done|].
        destruct (Hb o') as (s'' & Hs'' & Hne); [by left|]. congruence.
    + rewrite IH. split.
      * intros (before & after & -> & Hb & Hs). exists (o :: before), after.
        split; [done|]. split; [|done]. intros o' [<-|Hin]; [eauto|by apply Hb].
      * intros (before & after & H & Hb & s' & Hs' & Hup).
        destruct before as [|o' before]; simplify_eq/=; [congruence|].
        exists before, after. split; [done|]. split; [|eauto].
        intros o'' Hin. apply Hb. by right.
Qed.

(** X1.  [get_order_by_id] returns the first record of [orders.json] whose
    [order_id], in upper case, is the query stripped and in upper case (the
    upper case of [str.upper], under which [chr(223)] becomes [SS]).  The
    records before it must have a string for [order_id], or none: a record
    whose [order_id] is not a string ends the search without a result.  When
    the file is missing, cannot be loaded or does not hold an array nothing
    is found. *)
Theorem get_order_by_id_first_match order_id w :
  (forall order,
     order_lookup.get_order_by_id order_id w = Some order <->
     exists before after,
       order_lookup.load_orders w = (before ++ order :: after)%list /\
       (forall o, In o before ->
          exists s, get_default o "order_id" (VStr "") = VStr s /\
                    upper s <> upper (strip order_id)) /\
       exists s, get_default order "order_id" (VStr "") = VStr s /\
                 upper s = upper (strip order_id)) /\
  match orders_json w with
  | Records _ => True
  | _ => order_lookup.get_order_by_id order_id w = None /\
         order_lookup.validate_order_exists order_id w = false
  end.
Proof.
  split.
  - intros order. apply scan_orders_first.
  - unfold order_lookup.validate_order_exists, order_lookup.get_order_by_id,
      order_lookup.load_orders.
    by destruct (orders_json w).
Qed.

(** A letter O, in either case, is no other letter of the prefix, no
    separator and no digit. *)
Lemma letter_O_facts c :
  Re.eq_nocase c "O" = true ->
  Re.eq_nocase c "R" = false /\ Re.eq_nocase c "D" = false /\
  order_lookup.sep_char c = false /\ isdigit c = false.
Proof.
  destruct c as [[] [] [] [] [] [] [] []]; try discriminate; intros _; by repeat split.
Qed.

Section StarFacts.
Context {R : Type}.

(** The repetition takes a whole run when what follows is not in the
    class and the continuation accepts. *)
Lemma match_star_run p m rest g (k : @Re.cont R) x :
  Re.all_chars p m = true ->
  (forall c rest', rest = String c rest' -> p c = false) ->
  k m rest g = Some x ->
  Re.match_star p (m +:+ rest) g k = Some x.
Proof.
  revert k. induction m as [|c m IH]; intros k Hm Hrest Hk.
  - rewrite app_nil. destruct rest as [|c rest']; simpl; [done|].
    by rewrite (Hrest c rest' eq_refl).
  - simpl in Hm. apply andb_prop in Hm as [Hc Hm]. rewrite app_cons. simpl. rewrite Hc.
    by rewrite (IH (fun m' rest' g' => k (String c m') rest' g') Hm Hrest Hk).
Qed.

End StarFacts.

(** Pattern 1 at the head of a text. *)
Lemma pattern1_here o r d sep digits after :
  Re.eq_nocase o "O" = true -> Re.eq_nocase r "R" = true -> Re.eq_nocase d "D" = true ->
  separator sep ->
  digit_run digits ->
  (forall c rest, after = String c rest -> isdigit c = false) ->
  exists g0,
    Re.match_here order_lookup.pattern1 (String o (String r (String d (sep +:+ digits +:+ after))))
    = Some {| Re.group0 := g0; Re.group1 := Some digits |}.
Proof.
  intros Ho Hr Hd Hsep [Hne Hdigits] Hafter.
  destruct digits as [|c ds]; [done|]. simpl in Hdigits. apply andb_prop in Hdigits as [Hc Hds].
  unfold Re.match_here, order_lookup.pattern1.
  cbn [Re.rmatch Re.match_lit]. rewrite Ho, Hr, Hd. cbn iota.
  destruct Hsep as [->|(sc & Hsc & ->)].
  - rewrite app_nil, app_cons.
    destruct (digit_facts c Hc) as (_ & _ & _ & _ & ->). rewrite Hc.
    eexists. by apply match_star_run.
  - rewrite !app_cons, app_nil. rewrite Hsc, Hc.
    erewrite (match_star_run isdigit ds after) by (done || reflexivity).
    by eexists.
Qed.

(** The shape of a text that pattern 1 matches at its head. *)
Lemma pattern1_shape s x :
  Re.match_here order_lookup.pattern1 s = Some x ->
  exists a b c sep dg tail,
    s = String a (String b (String c (sep +:+ String dg tail))) /\
    Re.eq_nocase a "O" = true /\ Re.eq_nocase b "R" = true /\ Re.eq_nocase c "D" = true /\
    separator sep /\ isdigit dg = true.
Proof.
  unfold Re.match_here, order_lookup.pattern1. intros H.
  rewrite rmatch_seq in H. apply rmatch_sound in H as (m1 & rest1 & g1 & -> & Hd1 & H).
  rewrite rmatch_seq in H. apply rmatch_sound in H as (m2 & rest2 & g2 & -> & Hd2 & H).
  cbn [Re.rmatch] in H.
  destruct rest2 as [|dg tail]; [done|]. destruct (isdigit dg) eqn:Hdg; [|done]. clear H.
  cbn [Re.denotes] in Hd1, Hd2.
  destruct m1 as [|a [|b [|c m1]]]; cbn [Re.match_lit] in Hd1; try done.
  - by destruct (Re.eq_nocase a "O").
  - destruct (Re.eq_nocase a "O"); [|done]. by destruct (Re.eq_nocase b "R").
  - destruct (Re.eq_nocase a "O") eqn:Ha; [|done].
    destruct (Re.eq_nocase b "R") eqn:Hb; [|done].
    destruct (Re.eq_nocase c "D") eqn:Hc; [|done].
    injection Hd1 as Hm1. destruct m1; [|done].
    exists a, b, c, m2, dg, tail. by repeat split.
Qed.

(** A text of that shape is in the language of pattern 1. *)
Lemma pattern1_denotes a b c sep dg :
  Re.eq_nocase a "O" = true -> Re.eq_nocase b "R" = true -> Re.eq_nocase c "D" = true ->
  separator sep -> isdigit dg = true ->
  Re.denotes order_lookup.pattern1 (String a (String b (String c (sep +:+ String dg "")))).
Proof.
  intros Ha Hb Hc Hsep Hdg. unfold order_lookup.pattern1. cbn [Re.denotes].
  exists (String a (String b (String c ""))), (sep +:+ String dg "").
  split; [done|]. split.
  { cbn [Re.match_lit]. by rewrite Ha, Hb, Hc. }
  exists sep, (String dg ""). split; [done|]. split.
  - destruct Hsep as [->|(sc & Hsc & ->)]; [by left|right; eauto].
  - split; [done|]. simpl. by rewrite Hdg.
Qed.

(** A match of pattern 1 that starts before a letter O lies before it. *)
Lemma pattern1_before x suf o rest m :
  Re.eq_nocase o "O" = true ->
  Re.match_here order_lookup.pattern1 (String x suf +:+ String o rest) = Some m ->
  Re.occurs_in order_lookup.pattern1 (String x suf).
Proof.
  intros Ho Hm. destruct (letter_O_facts o Ho) as (HoR & HoD & Hosep & Hodig).
  apply pattern1_shape in Hm as (a & b & c & sep & dg & tail & Heq & Ha & Hb & Hc & Hsep & Hdg).
  rewrite app_cons in Heq. injection Heq as -> Heq.
  destruct suf as [|y suf]; [rewrite app_nil in Heq; injection Heq as -> _; congruence|].
  rewrite app_cons in Heq. injection Heq as -> Heq.
  destruct suf as [|z suf]; [rewrite app_nil in Heq; injection Heq as -> _; congruence|].
  rewrite app_cons in Heq. injection Heq as -> Heq.
  destruct suf as [|u suf].
  { rewrite app_nil in Heq.
    destruct Hsep as [->|(sc & Hsc & ->)]; [rewrite app_nil in Heq|rewrite app_cons in Heq];
      injection Heq as -> _; congruence. }
  rewrite app_cons in Heq.
  destruct Hsep as [->|(sc & Hsc & ->)].
  - rewrite app_nil in Heq. injection Heq as -> _.
    exists "", (String a (String b (String c ("" +:+ String dg "")))), suf.
    split; [done|]. apply pattern1_denotes; try done. by left.
  - rewrite app_cons, app_nil in Heq. injection Heq as -> Heq.
    destruct suf as [|v suf]; [rewrite app_nil in Heq; injection Heq as -> _; congruence|].
    rewrite app_cons in Heq. injection Heq as -> _.
    exists "", (String a (String b (String c (String sc "" +:+ String dg "")))), suf.
    split; [done|]. apply pattern1_denotes; try done. right; eauto.
Qed.

Lemma occurs_tail r c s : Re.occurs_in r s -> Re.occurs_in r (String c s).
Proof. intros (pre & m & post & -> & Hd). by exists (String c pre), m, post. Qed.

(** The search passes over a text that holds no match and ends before a
    letter O. *)
Lemma search_pattern1_skip before o rest :
  ~ Re.occurs_in order_lookup.pattern1 before ->
  Re.eq_nocase o "O" = true ->
  Re.search order_lookup.pattern1 (before +:+ String o rest)
  = Re.search order_lookup.pattern1 (String o rest).
Proof.
  intros Hno Ho. induction before as [|x before IH]; [done|].
  rewrite app_cons. cbn [Re.search]. rewrite <- app_cons.
  destruct (Re.match_here order_lookup.pattern1 (String x before +:+ String o rest)) eqn:Hm.
  - exfalso. apply Hno. by apply (pattern1_before _ _ _ _ _ Ho Hm).
  - apply IH. intros Hocc. apply Hno. by apply occurs_tail.
Qed.

(** X2.  The first order identifier of a message is the one extracted:
    after a text that holds no identifier, the letters ORD in any case, at
    most one hyphen or white-space character and a run of digits that ends
    the message or is followed by something else than a digit give ORD
    followed by these digits. *)
Theorem extract_order_id_leftmost before o r d sep digits after :
  ~ Re.occurs_in order_lookup.pattern1 before ->
  Re.eq_nocase o "O" = true -> Re.eq_nocase r "R" = true -> Re.eq_nocase d "D" = true ->
  separator sep ->
  digit_run digits ->
  (forall c rest, after = String c rest -> isdigit c = false) ->
  order_lookup.extract_order_id_from_message
    (before +:+ String o (String r (String d (sep +:+ digits +:+ after))))
  = Some ("ORD" +:+ digits).
Proof.
  intros Hno Ho Hr Hd Hsep Hdigits Hafter.
  rewrite extract_by_pattern1, (search_pattern1_skip _ _ _ Hno Ho).
  destruct (pattern1_here o r d sep digits after Ho Hr Hd Hsep Hdigits Hafter) as [g0 Hm].
  rewrite (search_first _ _ _ Hm). cbn [option_map]. by rewrite normalize_digits.
Qed.

Lemma extract_order_id_leftmost_witness :
  order_lookup.extract_order_id_from_message "the order is ord-201, not ORD 302"
  = Some "ORD201".
Proof.
  apply (extract_order_id_leftmost "the order is " "o" "r" "d" "-" "201" ", not ORD 302").
  - apply search_none. reflexivity.
  - reflexivity.
  - reflexivity.
  - reflexivity.
  - right. exists "-"%char. split; reflexivity.
  - split; [discriminate|reflexivity].
  - intros c rest [= <- _]. reflexivity.
Defined.

(** X3.  The second and the third pattern of
    [extract_order_id_from_message] never decide its result: it is the one
    the first pattern gives alone, and an identifier is extracted exactly
    from the messages in which the first pattern occurs. *)
Theorem extraction_decided_by_first_pattern message :
  order_lookup.extract_order_id_from_message message
  = order_lookup.first_match [order_lookup.pattern1] message /\
  (is_Some (order_lookup.extract_order_id_from_message message) <->
   Re.occurs_in order_lookup.pattern1 message).
Proof.
  rewrite extract_by_pattern1. cbn [order_lookup.first_match].
  destruct (Re.search order_lookup.pattern1 message) as [m|] eqn:Hs; cbn [option_map].
  - split; [done|]. split; [intros _; by apply (search_sound _ _ m)|eauto].
  - split; [done|]. apply search_none in Hs. split; [by intros [? ?]|done].
Qed.

(** * More on sessions *)

Section MoreSessionFacts.
Variable E : env.
Implicit Types (S : gmap string session) (w : world) (sid key : string).

Lemma create_other sid other S :
  other <> sid -> session_manager.create_session_in E sid S !! other = S !! other.
Proof.
  intros Hne. unfold session_manager.create_session_in.
  destruct (S !! sid); [done|]. by rewrite lookup_insert_ne.
Qed.

Lemma alter_create_other f sid other S :
  other <> sid -> alter f sid (session_manager.create_session_in E sid S) !! other = S !! other.
Proof. intros Hne. rewrite lookup_alter_ne by done. by apply create_other. Qed.

Lemma bulk_other sid other data S :
  other <> sid -> session_manager.update_session_bulk_in E sid data S !! other = S !! other.
Proof.
  intros Hne. unfold session_manager.update_session_bulk_in.
  assert (H : forall S0,
    fold_left (fun S' kv => alter (session_manager.set_slot (fst kv) (snd kv)) sid S') data S0 !! other
    = S0 !! other).
  { induction data as [|kv data IH]; intros S0; simpl; [done|].
    rewrite IH. by rewrite lookup_alter_ne. }
  rewrite H. by apply create_other.
Qed.

Lemma others_refl sid w : other_sessions_kept sid w w.
Proof. by intros other _. Qed.

Lemma others_trans sid w1 w2 w3 :
  other_sessions_kept sid w1 w2 -> other_sessions_kept sid w2 w3 -> other_sessions_kept sid w1 w3.
Proof. intros H1 H2 other Hne. by rewrite H2, H1. Qed.

Lemma others_same sid w w' : SESSION_STATE w' = SESSION_STATE w -> other_sessions_kept sid w w'.
Proof. intros H other _. by rewrite H. Qed.

Lemma others_set f sid w :
  (forall S other, other <> sid -> f S !! other = S !! other) ->
  other_sessions_kept sid w (set_sessions f w).
Proof. intros H other Hne. by apply H. Qed.

Lemma others_create sid w :
  other_sessions_kept sid w (set_sessions (session_manager.create_session_in E sid) w).
Proof. apply others_set. intros. by apply create_other. Qed.

Lemma others_update sid k v w :
  other_sessions_kept sid w (set_sessions (session_manager.update_session_in E sid k v) w).
Proof. apply others_set. intros. by apply alter_create_other. Qed.

Lemma others_bulk sid data w :
  other_sessions_kept sid w (set_sessions (session_manager.update_session_bulk_in E sid data) w).
Proof. apply others_set. intros. by apply bulk_other. Qed.

Lemma others_history sid role msg w :
  other_sessions_kept sid w
    (set_sessions (session_manager.add_to_conversation_history_in E sid role msg) w).
Proof. apply others_set. intros. by apply alter_create_other. Qed.

Lemma others_mark sid action_id action_type w :
  other_sessions_kept sid w
    (set_sessions (session_manager.mark_action_completed_in sid action_id action_type) w).
Proof.
  apply others_set. intros. unfold session_manager.mark_action_completed_in.
  by rewrite lookup_alter_ne.
Qed.

Lemma present_create sid S : is_Some (session_manager.create_session_in E sid S !! sid).
Proof. rewrite view_create. eauto. Qed.

Lemma history_create sid w :
  history E sid (set_sessions (session_manager.create_session_in E sid) w) = history E sid w.
Proof. unfold history. by rewrite the_session_create. Qed.

Lemma history_update sid k v w :
  history E sid (set_sessions (session_manager.update_session_in E sid k v) w) = history E sid w.
Proof.
  unfold history. rewrite the_session_set.
  unfold session_manager.update_session_in. by rewrite view_alter_create.
Qed.

Lemma history_fold_set (data : list (string * pyval)) s :
  conversation_history
    (fold_left (fun s' kv => session_manager.set_slot (fst kv) (snd kv) s') data s)
  = conversation_history s.
Proof. revert s. induction data as [|kv data IH]; intros s; simpl; [done|]. by rewrite IH. Qed.

Lemma history_bulk sid data w :
  history E sid (set_sessions (session_manager.update_session_bulk_in E sid data) w)
  = history E sid w.
Proof.
  unfold history. rewrite the_session_set. unfold view at 1.
  unfold session_manager.update_session_bulk_in.
  erewrite fold_alter_set by apply view_create. simpl.
  apply history_fold_set.
Qed.

Lemma history_append sid role msg w :
  history E sid (set_sessions (session_manager.add_to_conversation_history_in E sid role msg) w)
  = (history E sid w ++ [{| role := role; message := msg; timestamp := now_iso E |}])%list.
Proof.
  unfold history. rewrite the_session_set.
  unfold session_manager.add_to_conversation_history_in. by rewrite view_alter_create.
Qed.

Lemma history_mark sid action_id action_type w :
  history E sid (set_sessions (session_manager.mark_action_completed_in sid action_id action_type) w)
  = history E sid w.
Proof.
  unfold history. rewrite the_session_set.
  unfold session_manager.the_session, view, session_manager.mark_action_completed_in.
  rewrite lookup_alter_eq. by destruct (SESSION_STATE w !! sid).
Qed.

Lemma history_same sid w w' :
  SESSION_STATE w' = SESSION_STATE w -> history E sid w' = history E sid w.
Proof. intros H. unfold history, session_manager.the_session. by rewrite H. Qed.

Lemma update_session_run sid k v w :
  session_manager.update_session E sid k v w =
  (Ok true, set_sessions (session_manager.update_session_in E sid k v) w).
Proof. reflexivity. Qed.

Lemma update_session_bulk_run sid data w :
  session_manager.update_session_bulk E sid data w =
  (Ok true, set_sessions (session_manager.update_session_bulk_in E sid data) w).
Proof. reflexivity. Qed.

Lemma get_conversation_state_run sid w :
  session_manager.get_conversation_state E sid w =
  (Ok (slot_default E sid "conversation_state" (VStr "collecting_info") w),
   set_sessions (session_manager.create_session_in E sid) w).
Proof.
  unfold session_manager.get_conversation_state, bind. by rewrite get_session_run.
Qed.

(** A session is marked whether it is there or not: [alter] leaves a
    missing one missing. *)
Lemma mark_action_completed_world sid action_id action_type w :
  session_manager.mark_action_completed sid action_id action_type w =
  (Ok (bool_decide (is_Some (SESSION_STATE w !! sid))),
   set_sessions (session_manager.mark_action_completed_in sid action_id action_type) w).
Proof.
  unfold session_manager.mark_action_completed, bind, gets, modify, ret.
  destruct (SESSION_STATE w !! sid) as [s|] eqn:Hs.
  - rewrite bool_decide_true by eauto. reflexivity.
  - rewrite bool_decide_false by (by intros [? ?]). cbn [negb]. f_equal.
    destruct w as [S o r1 r2 r3 c]. unfold set_sessions; simpl in *. f_equal.
    unfold session_manager.mark_action_completed_in.
    apply map_eq. intros i. destruct (decide (i = sid)) as [->|Hne].
    + by rewrite lookup_alter_eq, Hs.
    + by rewrite lookup_alter_ne.
Qed.

Lemma entry_marked sid action_id action_type w :
  is_Some (SESSION_STATE w !! sid) ->
  let w' := set_sessions (session_manager.mark_action_completed_in sid action_id action_type) w in
  entry E sid "action_id" w' = Some (VStr action_id) /\
  entry E sid "action_type" w' = Some (VStr action_type) /\
  entry E sid "conversation_state" w' = Some (VStr "action_executed").
Proof.
  intros [s Hs]. cbv zeta. unfold entry. rewrite the_session_set.
  unfold view, session_manager.mark_action_completed_in.
  rewrite lookup_alter_eq, Hs.
  change (default ?d (?f <$> Some s)) with (f s).
  unfold session_manager.set_slot. cbn [slots].
  split; [|split].
  - rewrite lookup_insert_ne by done. rewrite lookup_insert_ne by done. by rewrite lookup_insert_eq.
  - rewrite lookup_insert_ne by done. by rewrite lookup_insert_eq.
  - by rewrite lookup_insert_eq.
Qed.

Lemma fold_binding_absent (data : list (string * pyval)) key init :
  ~ In key (map fst data) ->
  fold_left (fun acc kv => if String.eqb (fst kv) key then Some (snd kv) else acc) data init
  = init.
Proof.
  revert init. induction data as [|[k v] data IH]; intros init Hnot; simpl; [done|].
  simpl in Hnot. destruct (String.eqb_spec k key) as [->|Hne]; [tauto|].
  apply IH. tauto.
Qed.

Lemma fold_binding_present (data : list (string * pyval)) key value init :
  NoDup (map fst data) -> In (key, value) data ->
  fold_left (fun acc kv => if String.eqb (fst kv) key then Some (snd kv) else acc) data init
  = Some value.
Proof.
  revert init. induction data as [|[k v] data IH]; intros init Hnd Hin; simpl; [done|].
  simpl in Hnd. apply NoDup_cons in Hnd as [Hk Hnd].
  destruct Hin as [[= -> ->]|Hin].
  - rewrite String.eqb_refl. apply fold_binding_absent.
    intros H. apply Hk. by apply list_elem_of_In.
  - by apply IH.
Qed.

End MoreSessionFacts.

(** X4.  [update_session] on a key other than [conversation_history]
    creates the session if needed, binds the key to the value and returns
    [True]: the key reads back as the value, every other key of the session,
    its history, the other sessions, the files and the calls are as they
    were. *)
Theorem update_session_round_trip E sid key value w :
  key <> "conversation_history" ->
  exists w',
    session_manager.update_session E sid key value w = (Ok true, w') /\
    is_Some (SESSION_STATE w' !! sid) /\
    slot E sid key w' = value /\
    (forall other, other <> key -> entry E sid other w' = entry E sid other w) /\
    history E sid w' = history E sid w /\
    other_sessions_kept sid w w' /\
    files_kept w w' /\ calls w' = calls w.
Proof.
  intros _. eexists. split; [apply update_session_run|].
  split. { cbn [SESSION_STATE set_sessions]. unfold session_manager.update_session_in.
           rewrite lookup_alter_eq, view_create. eauto. }
  split. { unfold slot. rewrite entry_update, String.eqb_refl. done. }
  split. { intros other Hne. rewrite entry_update.
           destruct (String.eqb_spec key other); [congruence|done]. }
  split; [apply history_update|].
  split; [apply others_update|]. by repeat split.
Qed.

Lemma update_session_round_trip_witness :
  exists w',
    session_manager.update_session demo_env "s1" "reason_for_action" (VStr "It arrived broken")
      demo_world_linked = (Ok true, w') /\
    slot demo_env "s1" "reason_for_action" w' = VStr "It arrived broken" /\
    slot demo_env "s1" "order_id" w' = VStr "ORD201" /\
    history demo_env "s1" w' = [].
Proof.
  destruct (update_session_round_trip demo_env "s1" "reason_for_action"
              (VStr "It arrived broken") demo_world_linked)
    as (w' & Hrun & _ & Hslot & Hother & Hhistory & _); [discriminate|].
  exists w'. split; [exact Hrun|]. split; [exact Hslot|]. split.
  - unfold slot. rewrite Hother; [reflexivity|discriminate].
  - rewrite Hhistory. reflexivity.
Defined.

(** X5.  After [update_session_bulk] with a dictionary that has no key
    [conversation_history], every key of the dictionary reads back as its
    value and the keys outside it, the history and the other sessions are as
    they were. *)
Theorem update_session_bulk_reads_back E sid data w :
  NoDup (map fst data) ->
  ~ In "conversation_history" (map fst data) ->
  exists w',
    session_manager.update_session_bulk E sid data w = (Ok true, w') /\
    (forall key value, In (key, value) data -> slot E sid key w' = value) /\
    (forall key, ~ In key (map fst data) -> entry E sid key w' = entry E sid key w) /\
    history E sid w' = history E sid w /\
    other_sessions_kept sid w w'.
Proof.
  intros Hnd _. eexists. split; [apply update_session_bulk_run|].
  split. { intros key value Hin. unfold slot. rewrite entry_bulk.
           by rewrite (fold_binding_present data key value _ Hnd Hin). }
  split. { intros key Hnot. rewrite entry_bulk. by apply fold_binding_absent. }
  split; [apply history_bulk|apply others_bulk].
Qed.

Lemma update_session_bulk_reads_back_witness :
  exists w',
    session_manager.update_session_bulk demo_env "s9" (order_fields demo_order) demo_world
      = (Ok true, w') /\
    slot demo_env "s9" "customer_name" w' = VStr "Asha Rao" /\
    slot demo_env "s9" "serial_number" w' = VNone /\
    entry demo_env "s9" "conversation_state" w' = Some (VStr "collecting_info").
Proof.
  destruct (update_session_bulk_reads_back demo_env "s9" (order_fields demo_order) demo_world)
    as (w' & Hrun & Hin & Hout & _).
  { unfold order_fields. cbn [map fst]. compute_done. }
  { unfold order_fields. cbn [map fst In].
    intros H. repeat (destruct H as [H|H]; [discriminate|]). done. }
  exists w'. split; [exact Hrun|]. split; [|split].
  - apply Hin. unfold order_fields. change (get demo_order "customer_name") with (VStr "Asha Rao").
    simpl. tauto.
  - apply Hin. unfold order_fields. change (get demo_order "serial_number") with VNone.
    simpl. tauto.
  - rewrite Hout; [reflexivity|]. unfold order_fields. cbn [map fst In].
    intros H. repeat (destruct H as [H|H]; [discriminate|]). done.
Defined.

(** X6.  [clear_session] says whether the session was there, removes it
    and nothing else; the session that [get_session] hands out afterwards is
    a new one, with no slot filled and no history, and a second
    [clear_session] of the new state finds nothing. *)
Theorem clear_session_forgets E sid w :
  exists w',
    session_manager.clear_session sid w
      = (Ok (bool_decide (is_Some (SESSION_STATE w !! sid))), w') /\
    SESSION_STATE w' !! sid = None /\
    other_sessions_kept sid w w' /\
    files_kept w w' /\ calls w' = calls w /\
    fst (session_manager.get_session E sid w') = Ok (session_manager.new_session E sid) /\
    session_manager.clear_session sid w' = (Ok false, w').
Proof.
  unfold session_manager.clear_session, bind, gets, modify, ret.
  destruct (SESSION_STATE w !! sid) as [s|] eqn:Hs.
  - rewrite bool_decide_true by eauto. eexists. split; [reflexivity|].
    assert (Hgone : SESSION_STATE (set_sessions (delete sid) w) !! sid = None).
    { cbn [SESSION_STATE set_sessions]. apply lookup_delete_eq. }
    split; [exact Hgone|].
    split. { apply others_set. intros S other Hne. by apply lookup_delete_ne. }
    split; [by repeat split|]. split; [done|].
    split. { rewrite get_session_run. cbn [fst]. unfold session_manager.the_session.
             by rewrite Hgone. }
    rewrite Hgone. rewrite bool_decide_false by (by intros [? ?]). reflexivity.
  - rewrite bool_decide_false by (by intros [? ?]). eexists. split; [reflexivity|].
    split; [done|]. split; [apply others_refl|]. split; [by repeat split|]. split; [done|].
    split. { rewrite get_session_run. cbn [fst]. unfold session_manager.the_session.
             by rewrite Hs. }
    rewrite Hs. rewrite bool_decide_false by (by intros [? ?]). reflexivity.
Qed.

(** X7.  [set_conversation_state] refuses a state outside the four it
    knows: it returns [False] and changes nothing, not even creating the
    session.  A known state is stored, and [get_conversation_state] reads it
    back; the other keys and the other sessions are as they were. *)
Theorem conversation_state_round_trip E sid state w :
  if in_list state session_manager.valid_states then
    exists w',
      session_manager.set_conversation_state E sid state w = (Ok true, w') /\
      fst (session_manager.get_conversation_state E sid w') = Ok (VStr state) /\
      (forall key, key <> "conversation_state" -> entry E sid key w' = entry E sid key w) /\
      history E sid w' = history E sid w /\
      other_sessions_kept sid w w'
  else
    session_manager.set_conversation_state E sid state w = (Ok false, w).
Proof.
  unfold session_manager.set_conversation_state.
  destruct (in_list state session_manager.valid_states); cbn [negb]; [|reflexivity].
  eexists. split; [apply update_session_run|].
  split. { rewrite get_conversation_state_run. cbn [fst]. unfold slot_default.
           by rewrite entry_update. }
  split. { intros key Hne. rewrite entry_update.
           destruct (String.eqb_spec "conversation_state" key); [congruence|done]. }
  split; [apply history_update|apply others_update].
Qed.

(** X8.  [mark_action_completed] does not create a session: on an
    unknown identifier it returns [False] and changes nothing.  On a session
    that exists it returns [True] and sets [action_id], [action_type] and the
    state [action_executed], which [get_conversation_state] then reports; the
    other keys, the history and the other sessions are as they were. *)
Theorem mark_action_completed_needs_session E sid action_id action_type w :
  match SESSION_STATE w !! sid with
  | None => session_manager.mark_action_completed sid action_id action_type w = (Ok false, w)
  | Some _ =>
      exists w',
        session_manager.mark_action_completed sid action_id action_type w = (Ok true, w') /\
        slot E sid "action_id" w' = VStr action_id /\
        slot E sid "action_type" w' = VStr action_type /\
        fst (session_manager.get_conversation_state E sid w') = Ok (VStr "action_executed") /\
        (forall key, untouched_by_action key -> entry E sid key w' = entry E sid key w) /\
        history E sid w' = history E sid w /\
        other_sessions_kept sid w w'
  end.
Proof.
  destruct (SESSION_STATE w !! sid) as [s|] eqn:Hs.
  - eexists. split.
    { rewrite mark_action_completed_world. rewrite bool_decide_true by eauto. reflexivity. }
    destruct (entry_marked E sid action_id action_type w) as (H1 & H2 & H3); [eauto|].
    cbv zeta in *. unfold slot. rewrite H1, H2.
    split; [done|]. split; [done|].
    split. { rewrite get_conversation_state_run. cbn [fst]. unfold slot_default. by rewrite H3. }
    split; [intros key Hk; by apply entry_mark|].
    split; [apply history_mark|apply others_mark].
  - unfold session_manager.mark_action_completed, bind, gets, ret.
    rewrite Hs. by rewrite bool_decide_false by (by intros [? ?]).
Qed.

Lemma is_info_complete_run E sid w :
  session_manager.is_info_complete E sid w =
  (Ok (negb (is_None (slot E sid "order_id" w)) ||
       (negb (is_None (slot E sid "customer_name" w)) &&
        negb (is_None (slot E sid "product_name" w)))),
   set_sessions (session_manager.create_session_in E sid) w).
Proof.
  unfold session_manager.is_info_complete, bind. by rewrite get_session_run.
Qed.

(** X9.  A session that [check_missing_info_for_action] finds complete
    for an action is one that [is_info_complete] accepts, and a session that
    does not exist yet is not complete. *)
Theorem slot_complete_is_info_complete E sid action_type w info :
  fst (session_manager.check_missing_info_for_action E sid action_type w) = Ok info ->
  session_manager.complete info = true ->
  fst (session_manager.is_info_complete E sid w) = Ok true.
Proof.
  rewrite check_missing_run, is_info_complete_run. cbn [fst]. intros [= <-].
  unfold session_manager.missing_info.
  change (get (slots (session_manager.the_session E sid w)) "order_id")
    with (slot E sid "order_id" w).
  destruct (slot E sid "order_id" w) eqn:Ho; cbn [truthy negb is_None orb]; try done.
  intros H. exfalso. revert H.
  repeat match goal with |- context [if ?c then _ else _] => destruct c end; done.
Qed.

Lemma startswith_app_l s p y : startswith s p = true -> startswith (s +:+ y) p = true.
Proof.
  revert s. induction p as [|a p IH]; intros s; [intros _; by destruct (s +:+ y)|].
  destruct s as [|c s]; [done|]. rewrite app_cons. cbn [startswith].
  intros H. apply andb_prop in H as [Hc Hs]. by rewrite Hc, IH.
Qed.

Lemma contains_app_l s p y : contains s p = true -> contains (s +:+ y) p = true.
Proof.
  induction s as [|c s IH].
  - cbn [contains]. rewrite orb_false_r. intros H. destruct p; [|done]. by destruct y.
  - rewrite app_cons. cbn [contains]. intros H. apply orb_prop in H as [H|H].
    + rewrite <- app_cons. by rewrite (startswith_app_l _ _ _ H).
    + rewrite (IH H). apply orb_true_r.
Qed.

Lemma contains_refl p : contains p p = true.
Proof. rewrite <- (app_empty_r p) at 1. apply contains_here. Qed.

Lemma contains_join sep l x : In x l -> contains (join sep l) x = true.
Proof.
  induction l as [|x0 l IH]; [done|].
  intros [->|Hin].
  - destruct l; cbn [join]; [apply contains_refl | apply contains_here].
  - destruct l as [|x1 l]; [done|].
    change (join sep (x0 :: x1 :: l)) with (x0 +:+ sep +:+ join sep (x1 :: l)).
    apply contains_app_r, contains_app_r. by apply IH.
Qed.

Lemma context_parts_empty s :
  session_manager.context_parts s = [] <->
  forall key label, In (key, label) context_labels -> truthy (get (slots s) key) = false.
Proof.
  unfold session_manager.context_parts, context_labels. split.
  - intros H key label Hin.
    repeat (destruct Hin as [[= <- <-]|Hin];
            [revert H;
             repeat match goal with |- context [if ?c then _ else _] => destruct c end; done|]).
    done.
  - intros H.
    rewrite (H "order_id" "Order ID: "), (H "customer_name" "Customer: "),
      (H "product_name" "Product: "), (H "model_number" "Model: "),
      (H "issue_description" "Issue: "); simpl; tauto.
Qed.

Lemma context_parts_known s key label :
  In (key, label) context_labels -> truthy (get (slots s) key) = true ->
  In (label +:+ str (get (slots s) key)) (session_manager.context_parts s).
Proof.
  unfold session_manager.context_parts, context_labels. intros Hin Ht.
  repeat (destruct Hin as [[= <- <-]|Hin];
          [rewrite Ht; rewrite !in_app_iff; simpl; tauto|]).
  done.
Qed.

(** X10.  [get_session_context] answers the empty text exactly when none
    of the five slots it shows is filled; otherwise the text begins with
    [Known Information:] and holds one line for every filled slot, with the
    label of the slot and its value.  Asking changes no entry of the
    session. *)
Theorem session_context_lists_known_slots E sid w :
  exists context w',
    session_manager.get_session_context E sid w = (Ok context, w') /\
    (forall key, entry E sid key w' = entry E sid key w) /\
    (context = "" <->
     forall key label, In (key, label) context_labels -> truthy (slot E sid key w) = false) /\
    (forall key label,
       In (key, label) context_labels -> truthy (slot E sid key w) = true ->
       startswith context "Known Information:" = true /\
       contains context ("- " +:+ label +:+ str (slot E sid key w)) = true).
Proof.
  eexists _, _. split; [apply get_session_context_run|].
  split; [intros key; apply entry_create|].
  unfold session_context_of.
  pose proof (context_parts_empty (session_manager.the_session E sid w)) as Hempty.
  pose proof (context_parts_known (session_manager.the_session E sid w)) as Hknown.
  change (get (slots (session_manager.the_session E sid w)) ?k) with (slot E sid k w)
    in Hempty, Hknown.
  destruct (session_manager.context_parts (session_manager.the_session E sid w))
    as [|part parts] eqn:Hparts.
  - split; [split; [intros _; by apply Hempty|done]|].
    intros key label Hin Ht. by destruct (Hknown key label Hin Ht).
  - split.
    { split; [done|]. intros H. by apply Hempty in H. }
    intros key label Hin Ht. split; [reflexivity|].
    apply (contains_app_r "Known Information:"), (contains_app_r nl).
    apply contains_join. apply (in_map (fun part => "- " +:+ part)), (Hknown key label Hin Ht).
Qed.

(** * More on action identifiers *)

Lemma decimal_value_zero s : decimal_value (String "0" s) = decimal_value s.
Proof.
  unfold decimal_value. cbn [NilEmpty.uint_of_string].
  destruct (NilEmpty.uint_of_string s) as [d|]; reflexivity.
Qed.

Lemma decimal_value_print n :
  decimal_value (NilEmpty.string_of_uint (Nat.to_uint n)) = Some n.
Proof. unfold decimal_value. rewrite NilEmpty.usu. cbn [option_map]. by rewrite Unsigned.of_to. Qed.

(** The sequence number can be read back from its four digits or more. *)
Lemma pad4_value n : decimal_value (pad4 n) = Some n.
Proof.
  pose proof (decimal_value_print n) as Hv. unfold pad4.
  destruct (String.length (NilEmpty.string_of_uint (Nat.to_uint n))) as [|[|[|[|k]]]] eqn:Hlen;
    repeat (rewrite app_cons || rewrite app_nil); rewrite ?decimal_value_zero; try done.
  destruct (NilEmpty.string_of_uint (Nat.to_uint n)); [|done].
  injection Hv as <-. done.
Qed.

Lemma pad4_inj n m : pad4 n = pad4 m -> n = m.
Proof.
  intros H. pose proof (pad4_value n) as Hn. rewrite H, pad4_value in Hn. congruence.
Qed.

Lemma app_inv_head_s (p s t : string) : p +:+ s = p +:+ t -> s = t.
Proof. induction p as [|c p IH]; [done|]. rewrite !app_cons. intros [= H]. by apply IH. Qed.

(** * More on executing actions *)

Lemma write_ledger_frame a f w : same_but_ledgers w (agents.write_ledger a f w).
Proof. by repeat split. Qed.

(** X11.  [execute_action] never raises and touches nothing but the ledger
    of its action type.  It returns [None] for the action [none] and the
    status [unknown] for a type outside the three, writing nothing.  For one
    of the three types the result carries the generated identifier and the
    record, whose [id] is that identifier.  The status is [success], and the
    record has been appended to the ledger of the type after the records
    that were there, when that ledger is missing or holds an array and its
    file can be written; it is [partial], with nothing written, when the
    ledger cannot be loaded, holds a document that is not an array, or
    cannot be written.  The status [failed] does not occur. *)
Theorem execute_action_persists_iff_success E action user_details w :
  exists r w',
    agents.execute_action E action user_details w = (Ok r, w') /\
    same_but_ledgers w w' /\
    match r with
    | None => action = "none" /\ w' = w
    | Some (agents.UnknownAction a _) =>
        a = action /\ agents.ledger action = None /\ w' = w
    | Some (agents.Failed _ _) => False
    | Some (agents.Logged a action_id st _ data) =>
        a = action /\ action_id = agents.generate_action_id E action w /\
        id_of data = VStr action_id /\
        exists prefix file,
          agents.ledger action = Some (prefix, file) /\
          (forall a' prefix' file',
             agents.ledger a' = Some (prefix', file') -> a' <> action -> file' w' = file' w) /\
          match file w with
          | Absent | Records _ =>
              if can_write E action
              then st = "success" /\ file w' = Records (records_of (file w) ++ [data])
              else st = "partial" /\ w' = w
          | Unreadable | NotArray _ => st = "partial" /\ w' = w
          end
    end.
Proof.
  destruct (String.eqb_spec action "none") as [->|Hne].
  { eexists _, _. split; [reflexivity|]. by repeat split. }
  destruct (agents.ledger action) as [[prefix file]|] eqn:Hl.
  - destruct (execute_action_logged E action prefix file user_details w Hl)
      as (data & _ & Hid & Hrun).
    unfold saves in Hrun.
    destruct (file w) eqn:Hf; destruct (can_write E action) eqn:Hw;
      cbn [appendable andb] in Hrun;
      eexists _, _; (split; [exact Hrun|]);
      (split; [first [apply write_ledger_frame | by repeat split]|]);
      (split; [done|]); (split; [done|]); (split; [done|]);
      exists prefix, file; (split; [done|]); rewrite ?Hf, ?Hw; try (by split);
      (split; [|split; [done|by apply (write_same_ledger action prefix file)]]);
      intros a' prefix' file' Hl' Hne';
      by apply (write_other_ledger a' prefix' file' action prefix file).
  - eexists _, _. split; [by apply execute_action_unknown|]. by repeat split.
Qed.

(** X12.  The identifiers given to the successful actions of one type in a
    run of executions on one date are pairwise distinct, however long the
    run is, when the [id] of every record the ledger of the type holds at
    the start is a text (a ledger that is missing, cannot be loaded or is
    not an array holds no record): the sequence number can be read back from
    its digits, also beyond 9999. *)
Theorem sequential_ids_distinct d a prefix file steps w :
  agents.ledger a = Some (prefix, file) ->
  Forall (fun s => date_str (step_env s) = d) steps ->
  string_ids (records_of (file w)) ->
  NoDup (successes a (run_actions steps w).1) /\
  forall k, decimal_value (pad4 k) = Some k.
Proof.
  intros Hl Hsteps Hids. split; [|apply pad4_value].
  destruct (run_actions_from d a prefix file steps w Hl Hsteps Hids) as (Hseq & _).
  cbv zeta in Hseq. rewrite Hseq.
  apply NoDup_fmap_2_strong; [|apply NoDup_ListNoDup, List.seq_NoDup].
  intros k1 k2 _ _ H.
  apply pad4_inj. do 4 apply app_inv_head_s in H. exact H.
Qed.

Lemma sequential_ids_distinct_witness :
  NoDup (successes "initiate_refund" (run_actions demo_steps demo_world).1) /\
  successes "initiate_refund" (run_actions demo_steps demo_world).1
    = ["REF-20251201-0001"; "REF-20251201-0002"].
Proof.
  split; [|reflexivity].
  apply (sequential_ids_distinct "20251201" "initiate_refund" "REF" refunds_json
           demo_steps demo_world eq_refl ltac:(repeat constructor) ltac:(constructor)).
Defined.

(** * The pipeline, case by case *)

Section MoreStageFacts.
Variable E : env.
Variable intent_agent : string -> result string.
Variable retrieval_agent : string -> result string.
Variable responder_agent : string -> string -> string -> result string.
Variable verifier_agent : string -> string -> result string.
Variable action_confirmation_agent : string -> result (option string).
Implicit Types (w : world) (sid msg key : string).

Lemma notify_calls action action_id result user_details w :
  orchestrator.notify action action_id result user_details w =
  (Ok tt, fold_left (fun w c => log_call c w)
            (email_calls action action_id result user_details) w).
Proof.
  unfold orchestrator.notify, email_calls.
  destruct (String.eqb action "initiate_refund"); [done|].
  destruct (String.eqb action "initiate_replacement"); [done|].
  by destruct (String.eqb action "book_service").
Qed.

(** The action stage, case by case. *)
Lemma act_cases sid verified_response action w :
  let w1 := set_sessions (session_manager.create_session_in E sid) w in
  let info := session_manager.missing_info (session_manager.the_session E sid w) action in
  exists out w',
    orchestrator.act E sid verified_response action w = (Ok out, w') /\
    ((action = "none" /\ out = (verified_response, action, None) /\ w' = w) \/
     (action <> "none" /\ session_manager.complete info = false /\
      out = (session_manager.prompt info, "none", None) /\ w' = w1) \/
     (action <> "none" /\ session_manager.complete info = true /\
      agents.ledger action = None /\
      out = (verified_response, action,
             Some (agents.UnknownAction action ("Unknown action type: " +:+ action))) /\
      w' = w1) \/
     (action <> "none" /\ session_manager.complete info = true /\
      exists prefix file data,
        let action_id := agents.generate_action_id E action w1 in
        agents.ledger action = Some (prefix, file) /\
        agents.action_data E action action_id (user_details_of E sid w1) = Some data /\
        id_of data = VStr action_id /\
        ((saves E action (file w1) = false /\
          out = (verified_response, action,
                 Some (agents.Logged action action_id "partial"
                         (logged_message action action_id) data)) /\
          w' = w1) \/
         (saves E action (file w1) = true /\
          out = (orchestrator.confirmation action (VStr action_id), action,
                 Some (agents.Logged action action_id "success"
                         (logged_message action action_id) data)) /\
          w' = executed_world E sid action action_id data file w1)))).
Proof.
  intros w1 info. unfold orchestrator.act.
  destruct (String.eqb_spec action "none") as [->|Hne]; cbn [negb].
  { eexists _, _. split; [reflexivity|]. left. done. }
  assert (Hcheck : session_manager.check_missing_info_for_action E sid action w = (Ok info, w1)).
  { apply check_missing_run. }
  destruct (session_manager.complete info) eqn:Hc.
  2:{ eexists _, _. split.
      { apply try_ok. rewrite (bind_ok _ _ _ _ _ Hcheck). rewrite Hc. reflexivity. }
      right; left. done. }
  destruct (agents.ledger action) as [[prefix file]|] eqn:Hl.
  2:{ pose proof (execute_action_unknown E action (user_details_of E sid w1) w1 Hl Hne) as Hex.
      eexists _, _. split.
      { apply try_ok. rewrite (bind_ok _ _ _ _ _ Hcheck). rewrite Hc. cbn [negb].
        unfold orchestrator.session_get. rewrite !bind_gets.
        rewrite (bind_ok _ _ _ _ _ Hex). reflexivity. }
      right; right; left. done. }
  destruct (execute_action_logged E action prefix file (user_details_of E sid w1) w1 Hl)
    as (data & Hdata & Hid & Hex).
  set (action_id := agents.generate_action_id E action w1) in *.
  destruct (saves E action (file w1)) eqn:Hs.
  - eexists _, _. split.
    { apply try_ok. rewrite (bind_ok _ _ _ _ _ Hcheck). rewrite Hc. cbn [negb].
      unfold orchestrator.session_get. rewrite !bind_gets.
      rewrite (bind_ok _ _ _ _ _ Hex). cbn [agents.status agents.action_id_of str].
      change (String.eqb "success" "success") with true. cbn iota.
      rewrite (bind_ok _ _ _ _ _ (notify_calls _ _ _ _ _)).
      rewrite (bind_ok _ _ _ _ _ (mark_action_completed_world _ _ _ _)). reflexivity. }
    right; right; right. split; [done|]. split; [done|]. exists prefix, file, data.
    cbv zeta. fold action_id. split; [done|]. split; [done|]. split; [done|].
    right. split; [done|]. split; [done|]. done.
  - eexists _, _. split.
    { apply try_ok. rewrite (bind_ok _ _ _ _ _ Hcheck). rewrite Hc. cbn [negb].
      unfold orchestrator.session_get. rewrite !bind_gets.
      rewrite (bind_ok _ _ _ _ _ Hex). reflexivity. }
    right; right; right. split; [done|]. split; [done|]. exists prefix, file, data.
    cbv zeta. fold action_id. split; [done|]. split; [done|]. split; [done|].
    by left.
Qed.

End MoreStageFacts.

Section PipelineFacts.
Variable E : env.
Variable intent_agent : string -> result string.
Variable retrieval_agent : string -> result string.
Variable responder_agent : string -> string -> string -> result string.
Variable verifier_agent : string -> string -> result string.
Variable action_confirmation_agent : string -> result (option string).
Implicit Types (w : world) (sid msg key : string).

Lemma linked_order_same msg w w' :
  orders_json w' = orders_json w -> linked_order msg w' = linked_order msg w.
Proof.
  intros H. unfold linked_order, order_lookup.get_order_by_id, order_lookup.load_orders.
  by rewrite H.
Qed.

Lemma after_linkage_eq sid msg w :
  after_linkage E sid msg w =
  let w2 := set_sessions (session_manager.add_to_conversation_history_in E sid "user" msg)
              (set_sessions (session_manager.create_session_in E sid) w) in
  match linked_order msg w with
  | Some od => set_sessions (session_manager.update_session_bulk_in E sid (order_fields od)) w2
  | None => w2
  end.
Proof. unfold after_linkage. cbv zeta. by rewrite (linked_order_same msg w). Qed.

Lemma after_linkage_history sid msg w :
  history E sid (after_linkage E sid msg w) = (history E sid w ++ [history_of E "user" msg])%list.
Proof.
  rewrite after_linkage_eq. cbv zeta.
  destruct (linked_order msg w); rewrite ?history_bulk, history_append, history_create; done.
Qed.

Lemma after_capture_history sid msg w :
  history E sid (after_capture E sid msg w) = (history E sid w ++ [history_of E "user" msg])%list.
Proof.
  unfold after_capture. cbv zeta.
  destruct (datetime_condition _ _ _ _); destruct (reason_condition _ _ _ _);
    rewrite ?history_update; apply after_linkage_history.
Qed.

Lemma after_linkage_others sid msg w : other_sessions_kept sid w (after_linkage E sid msg w).
Proof.
  rewrite after_linkage_eq. cbv zeta.
  assert (H2 : other_sessions_kept sid w
    (set_sessions (session_manager.add_to_conversation_history_in E sid "user" msg)
       (set_sessions (session_manager.create_session_in E sid) w))).
  { eapply others_trans; [apply others_create|apply others_history]. }
  destruct (linked_order msg w); [|done].
  eapply others_trans; [exact H2|apply others_bulk].
Qed.

Lemma after_capture_others sid msg w : other_sessions_kept sid w (after_capture E sid msg w).
Proof.
  unfold after_capture. cbv zeta.
  pose proof (after_linkage_others sid msg w) as H3.
  destruct (reason_condition _ _ _ _).
  - destruct (datetime_condition _ _ _ _).
    + eapply others_trans; [|apply others_update].
      eapply others_trans; [exact H3|apply others_update].
    + eapply others_trans; [exact H3|apply others_update].
  - destruct (datetime_condition _ _ _ _); [|done].
    eapply others_trans; [exact H3|apply others_update].
Qed.

(** The body of [process_message] on a string, up to the action stage. *)
Lemma pipeline_stages msg sid w :
  let w5 := after_capture E sid msg w in
  let intent := classified intent_agent msg in
  let context := retrieved retrieval_agent msg in
  let vr := answer_before_action E responder_agent verifier_agent sid msg intent context w5 in
  let action := agents.action_agent intent vr in
  exists w10 out w11,
    orchestrator.act E sid vr action w10 = (Ok out, w11) /\
    orchestrator.pipeline E intent_agent retrieval_agent responder_agent verifier_agent
      action_confirmation_agent (VStr msg) sid w =
    (Ok {| orchestrator.answer := out.1.1;
           orchestrator.intent := intent;
           orchestrator.rag_sources := take 500 context;
           orchestrator.action := out.1.2;
           orchestrator.action_confirmation :=
             if negb (String.eqb action "none")
             then value_or (action_confirmation_agent action) None else None;
           orchestrator.action_log := out.2;
           orchestrator.session_id := sid |},
     set_sessions (session_manager.add_to_conversation_history_in E sid "assistant" out.1.1) w11) /\
    SESSION_STATE w10 = session_manager.create_session_in E sid (SESSION_STATE w5) /\
    orders_json w10 = orders_json w /\
    same_ledgers w w10 /\
    calls w10 =
      (calls w ++ [CallIntent msg; CallRetrieval msg] ++
       answer_calls responder_agent (bypass E sid intent w5) context msg
         (session_context_of E sid w5) ++
       confirmation_calls action)%list.
Proof.
  intros w5 intent context vr action.
  destruct (pipeline_run E intent_agent retrieval_agent responder_agent verifier_agent
              action_confirmation_agent msg sid w)
    as (vr' & w9 & out & w11 & Hresp & Hact & Hpipe).
  cbv zeta in Hact, Hpipe. fold w5 intent context in Hresp, Hact, Hpipe.
  destruct (after_capture_frame E sid msg w) as (Hc5 & Ho5 & Hl5). fold w5 in Hc5, Ho5, Hl5.
  assert (Hb8 : bypass E sid intent (before_respond E sid msg w) = bypass E sid intent w5).
  { unfold bypass, slot, before_respond. fold w5.
    change (entry E sid "order_id" (log_call _ (log_call _ ?x))) with (entry E sid "order_id" x).
    by rewrite entry_create. }
  assert (Hs8 : forall k d,
            slot_default E sid k d (before_respond E sid msg w) = slot_default E sid k d w5).
  { intros k d. unfold slot_default, before_respond. fold w5.
    change (entry E sid k (log_call _ (log_call _ ?x))) with (entry E sid k x).
    by rewrite entry_create. }
  rewrite respond_run, Hb8 in Hresp.
  change (slot E sid "order_id" (before_respond E sid msg w))
    with (slot_default E sid "order_id" VNone (before_respond E sid msg w)) in Hresp.
  rewrite !Hs8 in Hresp.
  change (slot_default E sid "order_id" VNone w5) with (slot E sid "order_id" w5) in Hresp.
  assert (Hvr : vr' = vr /\
    SESSION_STATE w9 = session_manager.create_session_in E sid (SESSION_STATE w5) /\
    orders_json w9 = orders_json w /\ same_ledgers w w9 /\
    calls w9 = (calls w ++ [CallIntent msg; CallRetrieval msg] ++
                answer_calls responder_agent (bypass E sid intent w5) context msg
                  (session_context_of E sid w5))%list).
  { unfold vr, answer_before_action, answer_calls.
    destruct (bypass E sid intent w5); cbv zeta in Hresp; injection Hresp as <- <-.
    - unfold before_respond. fold w5.
      cbn [SESSION_STATE orders_json calls log_call set_sessions]. rewrite Hc5, app_nil_r.
      rewrite <- app_assoc. by repeat split; try apply Hl5.
    - unfold before_respond. fold w5.
      cbn [SESSION_STATE orders_json calls log_call set_sessions]. rewrite Hc5.
      rewrite <- !app_assoc. by repeat split; try apply Hl5. }
  destruct Hvr as (-> & Hs9 & Ho9 & Hl9 & Hc9). fold action in Hact, Hpipe.
  eexists _, out, w11. split; [exact Hact|]. split; [exact Hpipe|].
  unfold confirmation_calls.
  destruct (negb (String.eqb action "none")); cbn [SESSION_STATE orders_json calls log_call].
  - rewrite Hc9, <- !app_assoc. by repeat split; try apply Hl9.
  - rewrite Hc9, !app_nil_r. by repeat split; try apply Hl9.
Qed.

End PipelineFacts.

Lemma ledger_file_same a prefix file w w' :
  agents.ledger a = Some (prefix, file) -> same_ledgers w w' -> file w' = file w.
Proof.
  intros Hl (H1 & H2 & H3).
  by destruct (ledger_cases _ _ _ Hl) as [(_ & _ & ->)|[(_ & _ & ->)|(_ & _ & ->)]].
Qed.

Lemma generate_action_id_same E a w w' :
  same_ledgers w w' -> agents.generate_action_id E a w' = agents.generate_action_id E a w.
Proof.
  intros Hsame. unfold agents.generate_action_id.
  destruct (agents.ledger a) as [[prefix file]|] eqn:Hl; [|done].
  by rewrite (ledger_file_same a prefix file w w' Hl Hsame).
Qed.

(** [action_agent] answers with one of the three action types, on the
    three intents that ask for one, and with [none] otherwise. *)
Lemma action_agent_cases intent v :
  (intent = "refund" /\ agents.action_agent intent v = "initiate_refund") \/
  (intent = "replacement" /\ agents.action_agent intent v = "initiate_replacement") \/
  (intent = "service_booking" /\ agents.action_agent intent v = "book_service") \/
  (intent <> "refund" /\ intent <> "replacement" /\ intent <> "service_booking" /\
   agents.action_agent intent v = "none").
Proof.
  unfold agents.action_agent, agents.intent_to_action. cbn [list_to_map foldr uncurry fst snd].
  destruct (decide (intent = "refund")) as [->|H1]; [by left|].
  destruct (decide (intent = "replacement")) as [->|H2]; [by right; left|].
  destruct (decide (intent = "service_booking")) as [->|H3]; [by right; right; left|].
  right; right; right. repeat split; try done.
  rewrite !lookup_insert. rewrite lookup_empty.
  repeat match goal with |- context [decide ?P] => destruct (decide P) end; try done; congruence.
Qed.

Lemma action_agent_ledger intent v :
  agents.action_agent intent v <> "none" ->
  exists prefix file, agents.ledger (agents.action_agent intent v) = Some (prefix, file).
Proof.
  destruct (action_agent_cases intent v) as [(_ & ->)|[(_ & ->)|[(_ & ->)|(_ & _ & _ & ->)]]];
    intros H; try done; by eexists _, _.
Qed.

Lemma executed_world_facts E sid a prefix file action_id data w1 :
  agents.ledger a = Some (prefix, file) ->
  let w' := executed_world E sid a action_id data file w1 in
  SESSION_STATE w' =
    session_manager.mark_action_completed_in sid action_id a (SESSION_STATE w1) /\
  calls w' =
    (calls w1 ++
     email_calls a action_id
       (agents.Logged a action_id "success" (logged_message a action_id) data)
       (user_details_of E sid w1))%list /\
  orders_json w' = orders_json w1 /\
  file w' = Records (records_of (file w1) ++ [data]) /\
  (forall a' prefix' file',
     agents.ledger a' = Some (prefix', file') -> a' <> a -> file' w' = file' w1).
Proof.
  intros Hl. cbv zeta. unfold executed_world.
  split; [by cbn [SESSION_STATE set_sessions]; rewrite sessions_fold_log|].
  split; [by cbn [calls set_sessions]; rewrite calls_fold_log|].
  split; [by cbn [orders_json set_sessions]; rewrite orders_fold_log|].
  destruct (ledger_cases _ _ _ Hl) as [(-> & _ & ->)|[(-> & _ & ->)|(-> & _ & ->)]];
    (split; [reflexivity|]); intros a' prefix' file' Hl' Hne;
    by destruct (ledger_cases _ _ _ Hl') as [(-> & _ & ->)|[(-> & _ & ->)|(-> & _ & ->)]].
Qed.

Section CaseFacts.
Variable E : env.
Variable intent_agent : string -> result string.
Variable retrieval_agent : string -> result string.
Variable responder_agent : string -> string -> string -> result string.
Variable verifier_agent : string -> string -> result string.
Variable action_confirmation_agent : string -> result (option string).
Implicit Types (w : world) (sid msg key : string).

(** [process_message] on a string, case by case. *)
Lemma process_message_cases msg session_id w :
  let sid := orchestrator.resolve_session_id E session_id in
  let w5 := after_capture E sid msg w in
  let intent := classified intent_agent msg in
  let context := retrieved retrieval_agent msg in
  let vr := answer_before_action E responder_agent verifier_agent sid msg intent context w5 in
  let action := agents.action_agent intent vr in
  let info := session_manager.missing_info (session_manager.the_session E sid w5) action in
  let action_id := agents.generate_action_id E action w in
  exists out w11 new,
    orchestrator.process_message_with E intent_agent retrieval_agent responder_agent
      verifier_agent action_confirmation_agent (VStr msg) session_id w =
    (Ok {| orchestrator.answer := out.1.1;
           orchestrator.intent := intent;
           orchestrator.rag_sources := take 500 context;
           orchestrator.action := out.1.2;
           orchestrator.action_confirmation :=
             if negb (String.eqb action "none")
             then value_or (action_confirmation_agent action) None else None;
           orchestrator.action_log := out.2;
           orchestrator.session_id := sid |},
     set_sessions (session_manager.add_to_conversation_history_in E sid "assistant" out.1.1) w11) /\
    history E sid w11 = (history E sid w ++ [history_of E "user" msg])%list /\
    other_sessions_kept sid w w11 /\
    is_Some (SESSION_STATE w11 !! sid) /\
    orders_json w11 = orders_json w /\
    (forall key, untouched_by_action key -> entry E sid key w11 = entry E sid key w5) /\
    calls w11 =
      (calls w ++ [CallIntent msg; CallRetrieval msg] ++
       answer_calls responder_agent (bypass E sid intent w5) context msg
         (session_context_of E sid w5) ++
       confirmation_calls action ++ new)%list /\
    ((action = "none" /\ out = (vr, action, None) /\ new = [] /\ same_ledgers w w11 /\
      (forall key, entry E sid key w11 = entry E sid key w5)) \/
     (action <> "none" /\ session_manager.complete info = false /\
      out = (session_manager.prompt info, "none", None) /\ new = [] /\ same_ledgers w w11 /\
      (forall key, entry E sid key w11 = entry E sid key w5)) \/
     (action <> "none" /\ session_manager.complete info = true /\
      exists prefix file data,
        agents.ledger action = Some (prefix, file) /\
        agents.action_data E action action_id (user_details_of E sid w5) = Some data /\
        id_of data = VStr action_id /\
        ((saves E action (file w) = false /\
          out = (vr, action,
                 Some (agents.Logged action action_id "partial"
                         (logged_message action action_id) data)) /\
          new = [] /\ same_ledgers w w11 /\
          (forall key, entry E sid key w11 = entry E sid key w5)) \/
         (saves E action (file w) = true /\
          out = (orchestrator.confirmation action (VStr action_id), action,
                 Some (agents.Logged action action_id "success"
                         (logged_message action action_id) data)) /\
          new = email_calls action action_id
                  (agents.Logged action action_id "success"
                     (logged_message action action_id) data)
                  (user_details_of E sid w5) /\
          file w11 = Records (records_of (file w) ++ [data]) /\
          (forall a' prefix' file',
             agents.ledger a' = Some (prefix', file') -> a' <> action -> file' w11 = file' w) /\
          entry E sid "action_id" w11 = Some (VStr action_id) /\
          entry E sid "action_type" w11 = Some (VStr action) /\
          entry E sid "conversation_state" w11 = Some (VStr "action_executed"))))).
Proof.
  intros sid w5 intent context vr action info action_id.
  destruct (pipeline_stages E intent_agent retrieval_agent responder_agent verifier_agent
              action_confirmation_agent msg sid w)
    as (w10 & out & w11 & Hact & Hpipe & Hs10 & Ho10 & Hl10 & Hc10).
  cbv zeta in Hact, Hpipe, Hs10, Hc10. fold w5 intent context in Hact, Hpipe, Hs10, Hc10.
  fold vr in Hact, Hpipe, Hc10. fold action in Hact, Hpipe, Hc10.
  apply (try_ok _ (ret (orchestrator.error_response sid))) in Hpipe.
  change (try_except _ _ w)
    with (orchestrator.process_message_with E intent_agent retrieval_agent responder_agent
            verifier_agent action_confirmation_agent (VStr msg) session_id w) in Hpipe.
  assert (Hpres10 : is_Some (SESSION_STATE w10 !! sid)).
  { rewrite Hs10. apply present_create. }
  assert (Hw1 : set_sessions (session_manager.create_session_in E sid) w10 = w10).
  { by apply set_sessions_present. }
  assert (Hsess10 : session_manager.the_session E sid w10 = session_manager.the_session E sid w5).
  { unfold session_manager.the_session. by rewrite Hs10, view_create. }
  assert (Hent10 : forall key, entry E sid key w10 = entry E sid key w5).
  { intros key. unfold entry. by rewrite Hsess10. }
  assert (Hud : user_details_of E sid w10 = user_details_of E sid w5).
  { unfold user_details_of, slot. by rewrite !Hent10. }
  assert (Hhist10 : history E sid w10 = (history E sid w ++ [history_of E "user" msg])%list).
  { unfold history at 1. rewrite Hsess10. apply after_capture_history. }
  assert (Hoth10 : other_sessions_kept sid w w10).
  { intros other Hne. rewrite Hs10, create_other by done. by apply after_capture_others. }
  destruct (act_cases E sid vr action w10) as (out' & w11' & Hact' & Hcases).
  rewrite Hact in Hact'. injection Hact' as <- <-.
  cbv zeta in Hcases. rewrite Hw1, Hsess10, Hud in Hcases. fold info in Hcases.
  rewrite (generate_action_id_same E action w w10 Hl10) in Hcases. fold action_id in Hcases.
  destruct Hcases as [(Ha & -> & ->)|[(Ha & Hc & -> & ->)|[(Ha & Hc & Hl & _)|
                       (Ha & Hc & prefix & file & data & Hl & Hdata & Hid & Hcases)]]].
  - exists (vr, action, None), w10, []. rewrite !app_nil_r.
    repeat split; try done; try apply Hl10. left. by repeat split; try apply Hl10.
  - eexists _, w10, []. rewrite !app_nil_r.
    repeat split; try done; try apply Hl10. right; left. by repeat split; try apply Hl10.
  - destruct (action_agent_ledger intent vr Ha) as (prefix & file & Hl').
    fold action in Hl'. congruence.
  - rewrite (ledger_file_same action prefix file w w10 Hl Hl10) in Hcases.
    destruct Hcases as [(Hf & -> & ->)|(Hf & -> & ->)].
    + eexists _, w10, []. rewrite !app_nil_r.
      repeat split; try done; try apply Hl10. right; right. split; [done|]. split; [done|].
      exists prefix, file, data. split; [done|]. split; [done|]. split; [done|].
      left. by repeat split; try apply Hl10.
    + destruct (executed_world_facts E sid action prefix file action_id data w10 Hl)
        as (Hs11 & Hc11 & Ho11 & Hf11 & Hother11).
      cbv zeta in *. rewrite Hud in Hc11.
      rewrite (ledger_file_same action prefix file w w10 Hl Hl10) in Hf11.
      set (w11 := executed_world E sid action action_id data file w10) in *.
      assert (Hw11 : w11 = set_sessions
                (session_manager.mark_action_completed_in sid action_id action)
                (fold_left (fun w c => log_call c w)
                   (email_calls action action_id
                      (agents.Logged action action_id "success"
                         (logged_message action action_id) data)
                      (user_details_of E sid w10))
                   (agents.write_ledger action (Records (records_of (file w10) ++ [data])) w10)))
        by reflexivity.
      set (w10' := fold_left (fun w c => log_call c w) _ _) in Hw11.
      assert (Hs10' : SESSION_STATE w10' = SESSION_STATE w10).
      { unfold w10'. by rewrite sessions_fold_log. }
      destruct (entry_marked E sid action_id action w10') as (He1 & He2 & He3).
      { by rewrite Hs10'. }
      cbv zeta in He1, He2, He3. rewrite <- Hw11 in He1, He2, He3.
      eexists _, w11, _. split; [exact Hpipe|].
      split. { rewrite Hw11, history_mark. rewrite (history_same E sid w10 w10' Hs10'). done. }
      split. { eapply others_trans; [exact Hoth10|]. rewrite Hw11.
               eapply others_trans; [apply (others_same sid w10 w10' Hs10')|apply others_mark]. }
      split. { rewrite Hs11. unfold session_manager.mark_action_completed_in.
               rewrite lookup_alter_eq. destruct Hpres10 as [s ->]. eauto. }
      split; [congruence|].
      split. { intros key Hk. rewrite Hw11, entry_mark by done.
               rewrite (entry_same E sid key w10 w10' Hs10'). apply Hent10. }
      split. { rewrite Hc11, Hc10. rewrite <- !app_assoc. reflexivity. }
      right; right. split; [done|]. split; [done|].
      exists prefix, file, data. split; [done|]. split; [done|]. split; [done|].
      right. split; [done|]. split; [done|]. split; [done|]. split; [done|].
      split; [|done].
      intros a' prefix' file' Hl' Hne. rewrite (Hother11 a' prefix' file' Hl' Hne).
      by apply (ledger_file_same a' prefix' file').
Qed.

End CaseFacts.

Lemma take_length n s : String.length (take n s) <= n.
Proof.
  revert s. induction n as [|n IH]; intros s; [done|].
  destruct s as [|c s]; simpl; [lia|]. specialize (IH s). lia.
Qed.

Lemma resolve_session_id_nonempty E session_id :
  orchestrator.resolve_session_id E session_id <> "".
Proof.
  unfold orchestrator.resolve_session_id.
  destruct session_id as [s|]; [|done].
  by destruct (String.eqb_spec s "").
Qed.

(** * What a message changes *)

Lemma error_response_session_id E session_id :
  orchestrator.session_id (orchestrator.error_response (orchestrator.resolve_session_id E session_id))
  = orchestrator.resolve_session_id E session_id.
Proof.
  cbn [orchestrator.session_id orchestrator.error_response].
  destruct (String.eqb_spec (orchestrator.resolve_session_id E session_id) ""); [|done].
  by destruct (resolve_session_id_nonempty E session_id).
Qed.

Section MorePipeline.
Variable E : env.
Variable intent_agent : string -> result string.
Variable retrieval_agent : string -> result string.
Variable responder_agent : string -> string -> string -> result string.
Variable verifier_agent : string -> string -> result string.
Variable action_confirmation_agent : string -> result (option string).
Implicit Types (w : world) (sid msg key : string).

Lemma process_message_not_string (message : pyval) session_id w :
  (forall s, message <> VStr s) ->
  orchestrator.process_message_with E intent_agent retrieval_agent responder_agent
    verifier_agent action_confirmation_agent message session_id w =
  (Ok (orchestrator.error_response (orchestrator.resolve_session_id E session_id)), w).
Proof. intros H. destruct message as [| | |s]; try reflexivity. by destruct (H s). Qed.

(** X13.  Every message that [process_message] handles adds two entries
    to the history of its session, in this order: the message as it was
    sent, under the role [user], and the answer that is returned, under the
    role [assistant]. *)
Theorem conversation_history_grows msg session_id w :
  let sid := orchestrator.resolve_session_id E session_id in
  exists r w',
    orchestrator.process_message_with E intent_agent retrieval_agent responder_agent
      verifier_agent action_confirmation_agent (VStr msg) session_id w = (Ok r, w') /\
    history E sid w' =
      (history E sid w ++
       [ history_of E "user" msg; history_of E "assistant" (orchestrator.answer r) ])%list.
Proof.
  intros sid.
  destruct (process_message_cases E intent_agent retrieval_agent responder_agent verifier_agent
              action_confirmation_agent msg session_id w)
    as (out & w11 & new & Hrun & Hhist & _).
  cbv zeta in Hrun, Hhist. fold sid in Hrun, Hhist.
  eexists _, _. split; [exact Hrun|].
  cbn [orchestrator.answer]. rewrite history_append, Hhist, <- app_assoc. reflexivity.
Qed.

(** X14.  [process_message] leaves every session but its own, and the
    file of orders, as they were; its own session exists afterwards when the
    message is a string. *)
Theorem other_sessions_untouched (message : pyval) session_id w :
  let sid := orchestrator.resolve_session_id E session_id in
  exists r w',
    orchestrator.process_message_with E intent_agent retrieval_agent responder_agent
      verifier_agent action_confirmation_agent message session_id w = (Ok r, w') /\
    orchestrator.session_id r = sid /\
    other_sessions_kept sid w w' /\
    orders_json w' = orders_json w /\
    match message with
    | VStr _ => is_Some (SESSION_STATE w' !! sid)
    | _ => w' = w
    end.
Proof.
  intros sid. destruct message as [| b | n | msg].
  1-3: (eexists _, _; split; [by apply process_message_not_string|];
        split; [apply error_response_session_id|];
        split; [apply others_refl|done]).
  destruct (process_message_cases E intent_agent retrieval_agent responder_agent verifier_agent
              action_confirmation_agent msg session_id w)
    as (out & w11 & new & Hrun & _ & Hoth & Hpres & Hord & _).
  cbv zeta in Hrun. fold sid in Hrun, Hoth, Hpres.
  eexists _, _. split; [exact Hrun|]. split; [done|].
  split. { eapply others_trans; [exact Hoth|apply others_history]. }
  split; [done|].
  cbn [SESSION_STATE set_sessions]. unfold session_manager.add_to_conversation_history_in.
  rewrite lookup_alter_eq, view_create. eauto.
Qed.

End MorePipeline.

Lemma email_calls_one a prefix file action_id result user_details :
  agents.ledger a = Some (prefix, file) ->
  exists email, email_calls a action_id result user_details = [email] /\
                is_email_call email = true.
Proof.
  intros Hl.
  destruct (ledger_cases _ _ _ Hl) as [(-> & _)|[(-> & _)|(-> & _)]]; by eexists.
Qed.

Lemma user_details_nonempty E sid w : user_details_of E sid w <> ∅.
Proof. unfold user_details_of. rewrite list_to_map_cons. apply insert_non_empty. Qed.

Lemma user_details_fields E sid w :
  get_default (user_details_of E sid w) "email" (VStr "") = slot E sid "customer_email" w /\
  get_default (user_details_of E sid w) "name" (VStr "") = slot E sid "customer_name" w /\
  get_default (user_details_of E sid w) "product_name" (VStr "N/A") = slot E sid "product_name" w.
Proof.
  unfold get_default, user_details_of. cbn [list_to_map foldr uncurry fst snd].
  repeat split; repeat (rewrite lookup_insert_ne by done); by rewrite lookup_insert_eq.
Qed.

(** The record of an action names the customer and the product of the
    session. *)
Lemma action_data_fields E sid a prefix file action_id w data :
  agents.ledger a = Some (prefix, file) ->
  agents.action_data E a action_id (user_details_of E sid w) = Some data ->
  get data "user_email" = slot E sid "customer_email" w /\
  get data "user_name" = slot E sid "customer_name" w /\
  get data "product_name" = slot E sid "product_name" w.
Proof.
  intros Hl Hdata.
  destruct (user_details_fields E sid w) as (He & Hn & Hp).
  assert (Hd : forall key dflt,
    agents.detail (user_details_of E sid w) key dflt
    = get_default (user_details_of E sid w) key dflt).
  { intros key dflt. unfold agents.detail.
    rewrite bool_decide_false; [done|apply user_details_nonempty]. }
  destruct (ledger_cases _ _ _ Hl) as [(-> & _)|[(-> & _)|(-> & _)]];
    injection Hdata as <-; unfold get, agents.common_data;
    cbn [app list_to_map foldr uncurry fst snd]; rewrite !Hd, He, Hn, Hp;
    repeat split;
    repeat (rewrite lookup_insert_ne by done); by rewrite lookup_insert_eq.
Qed.

Section PipelineExtras.
Variable E : env.
Variable intent_agent : string -> result string.
Variable retrieval_agent : string -> result string.
Variable responder_agent : string -> string -> string -> result string.
Variable verifier_agent : string -> string -> result string.
Variable action_confirmation_agent : string -> result (option string).
Implicit Types (w : world) (sid msg key : string).

Lemma bypass_false_of_action sid intent v w :
  agents.action_agent intent v <> "none" -> bypass E sid intent w = false.
Proof.
  intros Ha. unfold bypass.
  destruct (action_agent_cases intent v) as [(-> & _)|[(-> & _)|[(-> & _)|(_ & _ & _ & H)]]];
    try apply andb_false_r. congruence.
Qed.

(** X15.  A ledger is only ever appended to: after a message, each of
    the three ledgers is as it was, unless the response reports the action of
    that ledger with an action log of status [success]; the ledger is then
    the one before followed by the record of the log, whose [id] is the
    identifier of the log. *)
Theorem ledgers_only_grow (message : pyval) session_id w :
  exists r w',
    orchestrator.process_message_with E intent_agent retrieval_agent responder_agent
      verifier_agent action_confirmation_agent message session_id w = (Ok r, w') /\
    forall a prefix file,
      agents.ledger a = Some (prefix, file) ->
      file w' = file w \/
      (orchestrator.action r = a /\
       exists action_id data,
         orchestrator.action_log r =
           Some (agents.Logged a action_id "success" (logged_message a action_id) data) /\
         id_of data = VStr action_id /\
         file w' = Records (records_of (file w) ++ [data])).
Proof.
  destruct message as [| b | n | msg].
  1-3: (eexists _, _; split; [by apply process_message_not_string|]; by left).
  destruct (process_message_cases E intent_agent retrieval_agent responder_agent verifier_agent
              action_confirmation_agent msg session_id w)
    as (out & w11 & new & Hrun & _ & _ & _ & _ & _ & _ & Hcases).
  cbv zeta in Hrun, Hcases.
  eexists _, _. split; [exact Hrun|]. intros a prefix file Hl.
  assert (Hfinal : forall f, file (set_sessions f w11) = file w11).
  { intros f. by apply (ledger_file_same a prefix file). }
  rewrite Hfinal.
  assert (Hsame : same_ledgers w w11 -> file w11 = file w).
  { intros H. by apply (ledger_file_same a prefix file w w11). }
  destruct Hcases as [(_ & _ & _ & Hl11 & _)|[(_ & _ & _ & _ & Hl11 & _)|
    (Ha & _ & prefix' & file' & data & Hl' & _ & Hid & [(_ & _ & _ & Hl11 & _)|
      (_ & -> & _ & Hf11 & Hother & _)])]]; try (left; by apply Hsame).
  destruct (decide (a = agents.action_agent (classified intent_agent msg)
                          (answer_before_action E responder_agent verifier_agent
                             (orchestrator.resolve_session_id E session_id) msg
                             (classified intent_agent msg) (retrieved retrieval_agent msg)
                             (after_capture E (orchestrator.resolve_session_id E session_id)
                                msg w)))) as [->|Hne].
  - right. rewrite Hl in Hl'. injection Hl' as <- <-.
    split; [done|]. by eexists _, data.
  - left. by apply (Hother a prefix file).
Qed.

(** X16.  When the intent asks for an action, the slots the action needs
    are filled, the ledger of the action is missing or holds an array, and
    its file can be written, the action is executed within the same message:
    the response reports the action with a log of status [success] under the
    generated identifier; the answer is the text "Your ... request has been
    processed", with the label of the action, followed by the line that
    quotes this identifier and by the announcement of the e-mail; the
    record, which names the customer and the product of the session, is
    appended to the ledger; an e-mail is asked for after the confirmation
    agent was consulted; and the session holds the identifier, the action
    type and the state [action_executed]. *)
Theorem complete_action_is_executed msg session_id w prefix file :
  let sid := orchestrator.resolve_session_id E session_id in
  let w5 := after_capture E sid msg w in
  let action := resolved_action (classified intent_agent msg) in
  agents.ledger action = Some (prefix, file) ->
  session_manager.complete
    (session_manager.missing_info (session_manager.the_session E sid w5) action) = true ->
  appendable (file w) = true ->
  can_write E action = true ->
  exists r w' data email,
    orchestrator.process_message_with E intent_agent retrieval_agent responder_agent
      verifier_agent action_confirmation_agent (VStr msg) session_id w = (Ok r, w') /\
    let action_id := agents.generate_action_id E action w in
    let label :=
      if String.eqb action "initiate_refund" then "refund"
      else if String.eqb action "initiate_replacement" then "replacement"
      else "service appointment" in
    orchestrator.action r = action /\
    orchestrator.action_log r =
      Some (agents.Logged action action_id "success" (logged_message action action_id) data) /\
    orchestrator.answer r =
      "Your " +:+ label +:+ " request has been processed." +:+ nl +:+ nl +:+
      "**Request ID:** " +:+ action_id +:+ nl +:+ nl +:+
      "You'll receive confirmation via email shortly." /\
    file w' = Records (records_of (file w) ++ [data]) /\
    id_of data = VStr action_id /\
    get data "user_email" = slot E sid "customer_email" w5 /\
    get data "user_name" = slot E sid "customer_name" w5 /\
    get data "product_name" = slot E sid "product_name" w5 /\
    calls w' =
      (calls w ++ [CallIntent msg; CallRetrieval msg] ++
       answer_calls responder_agent false (retrieved retrieval_agent msg) msg
         (session_context_of E sid w5) ++
       [CallConfirmation action; email])%list /\
    is_email_call email = true /\
    slot E sid "action_id" w' = VStr action_id /\
    slot E sid "action_type" w' = VStr action /\
    slot E sid "conversation_state" w' = VStr "action_executed".
Proof.
  intros sid w5 action Hl Hc Hf Hw.
  destruct (process_message_cases E intent_agent retrieval_agent responder_agent verifier_agent
              action_confirmation_agent msg session_id w)
    as (out & w11 & new & Hrun & _ & _ & _ & _ & _ & Hcalls & Hcases).
  cbv zeta in Hrun, Hcalls, Hcases. fold sid w5 in Hrun, Hcalls, Hcases.
  change (agents.action_agent (classified intent_agent msg) _) with action in Hrun, Hcalls, Hcases.
  assert (Hne : action <> "none").
  { intros Ha. rewrite Ha in Hl. discriminate. }
  rewrite (bypass_false_of_action sid _ "" w5 Hne) in Hcalls.
  destruct Hcases as [(Ha & _)|[(_ & Hc' & _)|
    (_ & _ & prefix' & file' & data & Hl' & Hdata & Hid & Hcases)]]; [done|congruence|].
  rewrite Hl in Hl'. injection Hl' as <- <-.
  destruct Hcases as [(Hf' & _)|(_ & -> & -> & Hf11 & _ & He1 & He2 & He3)].
  { unfold saves in Hf'. rewrite Hf, Hw in Hf'. discriminate. }
  destruct (email_calls_one action prefix file (agents.generate_action_id E action w)
              (agents.Logged action (agents.generate_action_id E action w) "success"
                 (logged_message action (agents.generate_action_id E action w)) data)
              (user_details_of E sid w5) Hl) as (email & Hemail & Hmail).
  destruct (action_data_fields E sid action prefix file _ w5 data Hl Hdata) as (Hd1 & Hd2 & Hd3).
  rewrite Hemail in Hcalls.
  eexists _, _, data, email. split; [exact Hrun|]. cbv zeta.
  cbn [orchestrator.action orchestrator.action_log orchestrator.answer fst snd].
  split; [done|]. split; [done|].
  split. { by apply (confirmation_text action prefix file). }
  split. { rewrite <- Hf11. by apply (ledger_file_same action prefix file). }
  split; [done|]. split; [done|]. split; [done|]. split; [done|].
  split. { cbn [calls set_sessions]. rewrite Hcalls. unfold confirmation_calls.
           destruct (String.eqb_spec action "none"); [done|]. reflexivity. }
  split; [done|].
  unfold slot. rewrite !entry_history, He1, He2, He3. done.
Qed.


End PipelineExtras.

Lemma order_fields_keys od : map fst (order_fields od) = order_keys.
Proof. reflexivity. Qed.

Lemma order_keys_NoDup : NoDup order_keys.
Proof. compute_done. Qed.

Lemma order_fields_binding od key : In key order_keys -> In (key, get od key) (order_fields od).
Proof.
  unfold order_keys, order_fields. intros H.
  repeat (destruct H as [<-|H]; [simpl; tauto|]). done.
Qed.

Lemma order_keys_untouched key : In key order_keys -> untouched_by_action key.
Proof.
  unfold order_keys. intros H.
  repeat (destruct H as [<-|H]; [by repeat split|]). done.
Qed.

Lemma order_keys_not_captured key :
  In key order_keys -> key <> "reason_for_action" /\ key <> "preferred_datetime".
Proof.
  unfold order_keys. intros H.
  repeat (destruct H as [<-|H]; [by split|]). done.
Qed.

Section SlotFacts.
Variable E : env.
Implicit Types (w : world) (sid msg key : string).

Lemma entry_after_capture_other sid msg key w :
  key <> "reason_for_action" -> key <> "preferred_datetime" ->
  entry E sid key (after_capture E sid msg w) = entry E sid key (after_linkage E sid msg w).
Proof.
  intros H1 H2. unfold after_capture. cbv zeta.
  destruct (datetime_condition _ _ _ _); destruct (reason_condition _ _ _ _);
    rewrite ?entry_update;
    repeat match goal with
           | |- context [String.eqb ?a key] => destruct (String.eqb_spec a key); [congruence|]
           end; rewrite ?entry_update;
    repeat match goal with
           | |- context [String.eqb ?a key] => destruct (String.eqb_spec a key); [congruence|]
           end; done.
Qed.

Lemma entry_after_linkage sid msg key w :
  entry E sid key (after_linkage E sid msg w) =
  match linked_order msg w with
  | Some od =>
      fold_left (fun acc kv => if String.eqb (fst kv) key then Some (snd kv) else acc)
                (order_fields od) (entry E sid key w)
  | None => entry E sid key w
  end.
Proof.
  rewrite after_linkage_eq. cbv zeta.
  destruct (linked_order msg w); rewrite ?entry_bulk; by rewrite entry_history, entry_create.
Qed.

Lemma entry_after_linkage_other sid msg key w :
  ~ In key order_keys -> entry E sid key (after_linkage E sid msg w) = entry E sid key w.
Proof.
  intros Hk. rewrite entry_after_linkage. destruct (linked_order msg w) as [od|]; [|done].
  apply fold_binding_absent. by rewrite order_fields_keys.
Qed.

End SlotFacts.

Section PipelineSlots.
Variable E : env.
Variable intent_agent : string -> result string.
Variable retrieval_agent : string -> result string.
Variable responder_agent : string -> string -> string -> result string.
Variable verifier_agent : string -> string -> result string.
Variable action_confirmation_agent : string -> result (option string).
Implicit Types (w : world) (sid msg key : string).

(** A run on a string and what it keeps of the slots after the captures. *)
Lemma process_message_keeps msg session_id w :
  let sid := orchestrator.resolve_session_id E session_id in
  exists r w',
    orchestrator.process_message_with E intent_agent retrieval_agent responder_agent
      verifier_agent action_confirmation_agent (VStr msg) session_id w = (Ok r, w') /\
    forall key, untouched_by_action key ->
      entry E sid key w' = entry E sid key (after_capture E sid msg w).
Proof.
  intros sid.
  destruct (process_message_cases E intent_agent retrieval_agent responder_agent verifier_agent
              action_confirmation_agent msg session_id w)
    as (out & w11 & new & Hrun & _ & _ & _ & _ & Hkeep & _).
  cbv zeta in Hrun, Hkeep. fold sid in Hrun, Hkeep.
  eexists _, _. split; [exact Hrun|]. intros key Hk. rewrite entry_history. by apply Hkeep.
Qed.

(** X18.  A reason and a preferred date that the session holds are never
    replaced: after a message, [reason_for_action] is what it was, or it was
    empty and is now the message, stripped; and likewise
    [preferred_datetime]. *)
Theorem filled_slots_are_kept msg session_id w :
  let sid := orchestrator.resolve_session_id E session_id in
  exists r w',
    orchestrator.process_message_with E intent_agent retrieval_agent responder_agent
      verifier_agent action_confirmation_agent (VStr msg) session_id w = (Ok r, w') /\
    (slot E sid "reason_for_action" w' = slot E sid "reason_for_action" w \/
     truthy (slot E sid "reason_for_action" w) = false /\
     slot E sid "reason_for_action" w' = VStr (strip msg)) /\
    (slot E sid "preferred_datetime" w' = slot E sid "preferred_datetime" w \/
     truthy (slot E sid "preferred_datetime" w) = false /\
     slot E sid "preferred_datetime" w' = VStr (strip msg)).
Proof.
  intros sid. destruct (process_message_keeps msg session_id w) as (r & w' & Hrun & Hkeep).
  fold sid in Hkeep. exists r, w'. split; [exact Hrun|].
  assert (Hr3 : slot E sid "reason_for_action" (after_linkage E sid msg w)
                = slot E sid "reason_for_action" w).
  { unfold slot. rewrite entry_after_linkage_other; [done|].
    unfold order_keys. simpl. intros H. repeat (destruct H as [H|H]; [discriminate|]). done. }
  assert (Hd3 : slot E sid "preferred_datetime" (after_linkage E sid msg w)
                = slot E sid "preferred_datetime" w).
  { unfold slot. rewrite entry_after_linkage_other; [done|].
    unfold order_keys. simpl. intros H. repeat (destruct H as [H|H]; [discriminate|]). done. }
  split.
  - assert (Hw' : slot E sid "reason_for_action" w'
                  = slot E sid "reason_for_action" (after_capture E sid msg w)).
    { unfold slot. by rewrite (Hkeep _ untouched_reason). }
    rewrite Hw', reason_after_capture, Hr3.
    destruct (reason_condition E sid msg (after_linkage E sid msg w)) eqn:Hc; [|by left].
    right. split; [|done]. unfold reason_condition in Hc. rewrite Hr3 in Hc.
    by destruct (truthy (slot E sid "reason_for_action" w));
      rewrite ?andb_false_r in Hc.
  - assert (Hw' : slot E sid "preferred_datetime" w'
                  = slot E sid "preferred_datetime" (after_capture E sid msg w)).
    { unfold slot. by rewrite (Hkeep _ untouched_datetime). }
    rewrite Hw', datetime_after_capture, Hd3.
    destruct (datetime_condition E sid msg (after_linkage E sid msg w)) eqn:Hc; [|by left].
    right. split; [|done]. unfold datetime_condition in Hc. rewrite Hd3 in Hc.
    by destruct (truthy (slot E sid "preferred_datetime" w));
      rewrite ?andb_false_r in Hc.
Qed.

(** X19.  When the message names an order that is on file, each of the
    nine order keys of the session reads, after the message, as the order
    has it, and as [None] when the order lacks it, whatever the session held
    before.  When the message links no order these keys are as they
    were. *)
Theorem order_fields_are_copied msg session_id w :
  let sid := orchestrator.resolve_session_id E session_id in
  exists r w',
    orchestrator.process_message_with E intent_agent retrieval_agent responder_agent
      verifier_agent action_confirmation_agent (VStr msg) session_id w = (Ok r, w') /\
    match linked_order msg w with
    | Some order => forall key, In key order_keys -> slot E sid key w' = get order key
    | None => forall key, In key order_keys -> entry E sid key w' = entry E sid key w
    end.
Proof.
  intros sid. destruct (process_message_keeps msg session_id w) as (r & w' & Hrun & Hkeep).
  fold sid in Hkeep. exists r, w'. split; [exact Hrun|].
  assert (H3 : forall key, In key order_keys ->
            entry E sid key w' = entry E sid key (after_linkage E sid msg w)).
  { intros key Hk. rewrite (Hkeep key (order_keys_untouched key Hk)).
    destruct (order_keys_not_captured key Hk). by apply entry_after_capture_other. }
  destruct (linked_order msg w) as [order|] eqn:Hlink; intros key Hk.
  - unfold slot. rewrite (H3 key Hk), entry_after_linkage, Hlink.
    rewrite (fold_binding_present (order_fields order) key (get order key)); [done| |].
    + rewrite order_fields_keys. apply order_keys_NoDup.
    + by apply order_fields_binding.
  - by rewrite (H3 key Hk), entry_after_linkage, Hlink.
Qed.

(** X20.  [process_message] writes no key of the session but the nine
    order keys, [reason_for_action], [preferred_datetime], [action_id],
    [action_type], [conversation_state] and [conversation_history], to which
    it appends: every other key, such as [model_number] or
    [issue_description], is after the message what it was before. *)
Theorem only_known_keys_are_written (message : pyval) session_id w key :
  ~ In key written_keys ->
  let sid := orchestrator.resolve_session_id E session_id in
  exists r w',
    orchestrator.process_message_with E intent_agent retrieval_agent responder_agent
      verifier_agent action_confirmation_agent message session_id w = (Ok r, w') /\
    entry E sid key w' = entry E sid key w.
Proof.
  intros Hk sid. destruct message as [| b | n | msg].
  1-3: (eexists _, _; split; [by apply process_message_not_string|done]).
  destruct (process_message_keeps msg session_id w) as (r & w' & Hrun & Hkeep).
  fold sid in Hkeep. exists r, w'. split; [exact Hrun|].
  unfold written_keys in Hk. rewrite in_app_iff in Hk.
  assert (Hnot : ~ In key order_keys) by tauto.
  assert (Hrest : key <> "reason_for_action" /\ key <> "preferred_datetime" /\
                  untouched_by_action key).
  { unfold untouched_by_action. simpl in Hk. repeat split; intros ->; tauto. }
  destruct Hrest as (H1 & H2 & H3).
  rewrite (Hkeep key H3), entry_after_capture_other by done.
  by apply entry_after_linkage_other.
Qed.

(** X21.  Whatever the message and the collaborators, the response names
    the session the request ran under, which is never empty; its action is
    [none] or the action type of its intent; its sources are at most 500
    characters long; and it carries an action log exactly when its action is
    not [none], the log being then one of that action, of status [success]
    or [partial], whose record has the identifier of the log. *)
Theorem response_is_well_formed (message : pyval) session_id w :
  exists r w',
    orchestrator.process_message_with E intent_agent retrieval_agent responder_agent
      verifier_agent action_confirmation_agent message session_id w = (Ok r, w') /\
    orchestrator.session_id r = orchestrator.resolve_session_id E session_id /\
    orchestrator.session_id r <> "" /\
    (orchestrator.action r = "none" \/
     orchestrator.action r = resolved_action (orchestrator.intent r) /\
     In (orchestrator.action r) ["initiate_refund"; "initiate_replacement"; "book_service"]) /\
    String.length (orchestrator.rag_sources r) <= 500 /\
    match orchestrator.action_log r with
    | None => orchestrator.action r = "none"
    | Some (agents.Logged a action_id st _ data) =>
        a = orchestrator.action r /\ a <> "none" /\
        id_of data = VStr action_id /\ (st = "success" \/ st = "partial")
    | Some _ => False
    end.
Proof.
  destruct message as [| b | n | msg].
  1-3: (eexists _, _; split; [by apply process_message_not_string|];
        rewrite error_response_session_id;
        split; [done|]; split; [apply resolve_session_id_nonempty|];
        split; [by left|]; split; [simpl; lia|done]).
  destruct (process_message_cases E intent_agent retrieval_agent responder_agent verifier_agent
              action_confirmation_agent msg session_id w)
    as (out & w11 & new & Hrun & _ & _ & _ & _ & _ & _ & Hcases).
  cbv zeta in Hrun, Hcases.
  eexists _, _. split; [exact Hrun|].
  cbn [orchestrator.session_id orchestrator.action orchestrator.intent orchestrator.rag_sources
       orchestrator.action_log].
  split; [done|]. split; [apply resolve_session_id_nonempty|].
  assert (Hthree : forall v,
    agents.action_agent (classified intent_agent msg) v <> "none" ->
    In (agents.action_agent (classified intent_agent msg) v)
       ["initiate_refund"; "initiate_replacement"; "book_service"]).
  { intros v Hne.
    destruct (action_agent_cases (classified intent_agent msg) v)
      as [(_ & ->)|[(_ & ->)|[(_ & ->)|(_ & _ & _ & H)]]]; simpl; tauto. }
  destruct Hcases as [(Ha & -> & _)|[(_ & _ & -> & _)|
    (Ha & _ & prefix & file & data & _ & _ & Hid & [(_ & -> & _)|(_ & -> & _)])]];
    cbn [fst snd].
  - split; [by left|]. split; [apply take_length|done].
  - split; [by left|]. split; [apply take_length|done].
  - split; [right; split; [reflexivity|by apply Hthree]|].
    split; [apply take_length|]. repeat split; try done. by right.
  - split; [right; split; [reflexivity|by apply Hthree]|].
    split; [apply take_length|]. repeat split; try done. by left.
Qed.

End PipelineSlots.

(** X22.  Without a language model, or with one whose every call raises,
    [process_message] still answers: the intent is [general_query], the
    answer is the apology of the responder, no action is taken, no
    confirmation is asked for and no ledger is written; the sources are
    what the knowledge base returned. *)
Theorem no_model_degrades E msg session_id w :
  model_fails E ->
  exists r w',
    orchestrator.process_message E (VStr msg) session_id w = (Ok r, w') /\
    orchestrator.intent r = "general_query" /\
    orchestrator.answer r =
      match model E with
      | None =>
          "I apologize, but I'm experiencing technical difficulties. Please try again later."
      | Some _ =>
          "I apologize, but I'm having trouble processing your request. Please try again."
      end /\
    orchestrator.rag_sources r = take 500 (agents.retrieval_agent E msg) /\
    orchestrator.action r = "none" /\
    orchestrator.action_confirmation r = None /\
    orchestrator.action_log r = None /\
    same_ledgers w w'.
Proof.
  intros Hfail.
  destruct (process_message_cases E
              (fun m => Ok (agents.intent_agent E m))
              (fun q => Ok (agents.retrieval_agent E q))
              (fun c m s => Ok (agents.responder_agent E c m s))
              (fun d c => Ok (agents.verifier_agent E d c))
              (fun a => Ok (agents.action_confirmation_agent E a)) msg session_id w)
    as (out & w11 & new & Hrun & _ & _ & _ & _ & _ & _ & Hcases).
  cbv zeta in Hrun, Hcases.
  assert (Hint : classified (fun m => Ok (agents.intent_agent E m)) msg = "general_query").
  { unfold classified, value_or, agents.intent_agent. unfold model_fails in Hfail.
    destruct (model E); [by rewrite Hfail|done]. }
  rewrite Hint in Hrun, Hcases.
  assert (Ha : forall v, agents.action_agent "general_query" v = "none").
  { intros v. by destruct (action_agent_cases "general_query" v)
      as [(? & _)|[(? & _)|[(? & _)|(_ & _ & _ & ?)]]]. }
  rewrite !Ha in Hrun, Hcases.
  destruct Hcases as [(_ & -> & _ & Hl11 & _)|[(? & _)|(? & _)]]; try done.
  eexists _, _. split; [exact Hrun|].
  cbn [orchestrator.intent orchestrator.answer orchestrator.rag_sources orchestrator.action
       orchestrator.action_confirmation orchestrator.action_log fst snd negb].
  split; [done|]. split.
  { unfold answer_before_action, bypass.
    change (in_list "general_query" orchestrator.action_intents) with false.
    rewrite andb_false_r. cbv zeta. cbn [value_or].
    unfold agents.verifier_agent, agents.responder_agent. unfold model_fails in Hfail.
    destruct (model E); [by rewrite !Hfail|done]. }
  split; [done|]. split; [done|]. split; [done|]. split; [done|].
  by destruct Hl11 as (? & ? & ?).
Qed.

Lemma email_calls_no_confirmation action action_id result user_details :
  existsb is_confirmation_call (email_calls action action_id result user_details) = false.
Proof.
  unfold email_calls.
  destruct (String.eqb action "initiate_refund"); [done|].
  destruct (String.eqb action "initiate_replacement"); [done|].
  by destruct (String.eqb action "book_service").
Qed.

Section Confirmation.
Variable E : env.
Variable intent_agent : string -> result string.
Variable retrieval_agent : string -> result string.
Variable responder_agent : string -> string -> string -> result string.
Variable verifier_agent : string -> string -> result string.
Variable action_confirmation_agent : string -> result (option string).

(** X23.  The confirmation agent is consulted exactly when the intent
    resolves to an action, and before the slots are checked: the response
    carries its message also when the action is then withheld because a slot
    is missing and the response reports the action [none]. *)
Theorem confirmation_asked_before_slot_check msg session_id w :
  exists r w' new,
    orchestrator.process_message_with E intent_agent retrieval_agent responder_agent
      verifier_agent action_confirmation_agent (VStr msg) session_id w = (Ok r, w') /\
    calls w' = (calls w ++ new)%list /\
    let action := resolved_action (orchestrator.intent r) in
    existsb is_confirmation_call new = negb (String.eqb action "none") /\
    orchestrator.action_confirmation r =
      (if negb (String.eqb action "none")
       then value_or (action_confirmation_agent action) None else None) /\
    (orchestrator.action r = "none" \/ orchestrator.action r = action).
Proof.
  destruct (process_message_cases E intent_agent retrieval_agent responder_agent verifier_agent
              action_confirmation_agent msg session_id w)
    as (out & w11 & new & Hrun & _ & _ & _ & _ & _ & Hcalls & Hcases).
  cbv zeta in Hrun, Hcalls, Hcases.
  eexists _, _, _. split; [exact Hrun|].
  split. { cbn [calls set_sessions]. exact Hcalls. }
  cbv zeta. cbn [orchestrator.intent orchestrator.action_confirmation orchestrator.action].
  unfold resolved_action.
  change (agents.action_agent (classified intent_agent msg) "")
    with (agents.action_agent (classified intent_agent msg)
            (answer_before_action E responder_agent verifier_agent
               (orchestrator.resolve_session_id E session_id) msg
               (classified intent_agent msg) (retrieved retrieval_agent msg)
               (after_capture E (orchestrator.resolve_session_id E session_id) msg w))).
  set (action := agents.action_agent _ _) in *.
  assert (Hnew : existsb is_confirmation_call new = false /\
                 (out.1.2 = "none" \/ out.1.2 = action)).
  { destruct Hcases as [(_ & -> & -> & _)|[(_ & _ & -> & -> & _)|
      (_ & _ & prefix & file & data & _ & _ & _ & [(_ & -> & -> & _)|(_ & -> & -> & _)])]];
      cbn [fst snd]; rewrite ?email_calls_no_confirmation; split; tauto. }
  destruct Hnew as [Hnew Hact]. split; [|by split].
  cbn [existsb is_confirmation_call orb app]. rewrite !existsb_app, Hnew.
  unfold answer_calls, confirmation_calls.
  destruct (bypass _ _ _ _); destruct (negb (String.eqb action "none")); reflexivity.
Qed.

End Confirmation.

(** * The endpoint *)

(** X24.  The [/chat] endpoint refuses a message that is empty or made of
    white space with the status 400, and one of more than 5000 characters
    with the status 400, in both cases before anything is done.  Every other
    message gets the response of [process_message] under the session of the
    request, or under a generated one if the request names none; this
    response is never the error payload, and the status 500 does not
    occur. *)
Theorem chat_validates_and_answers E request w :
  if String.eqb (strip (main.message request)) "" then
    main.chat E request w = (Ok (main.HTTPException 400 "Message cannot be empty"), w)
  else if Nat.ltb 5000 (String.length (main.message request)) then
    main.chat E request w
    = (Ok (main.HTTPException 400 "Message too long (max 5000 characters)"), w)
  else
    exists r w',
      main.chat E request w = (Ok (main.Returned r), w') /\
      orchestrator.process_message E (VStr (main.message request))
        (Some (orchestrator.session_id r)) w = (Ok r, w') /\
      orchestrator.session_id r = orchestrator.resolve_session_id E (main.session_id request) /\
      orchestrator.session_id r <> "" /\
      in_list (orchestrator.intent r) agents.valid_intents = true.
Proof.
  unfold main.chat.
  destruct (String.eqb_spec (main.message request) "") as [Hm|Hm].
  { rewrite Hm. reflexivity. }
  cbn [orb].
  destruct (String.eqb (strip (main.message request)) ""); [reflexivity|].
  destruct (Nat.ltb 5000 (String.length (main.message request))); [reflexivity|].
  change (match main.session_id request with
          | Some s => if negb (String.eqb s "") then s else "session_" +:+ take 12 (uuid_hex E)
          | None => "session_" +:+ take 12 (uuid_hex E)
          end) with (orchestrator.resolve_session_id E (main.session_id request)).
  set (sid := orchestrator.resolve_session_id E (main.session_id request)).
  assert (Hsid : orchestrator.resolve_session_id E (Some sid) = sid).
  { unfold orchestrator.resolve_session_id at 1.
    destruct (String.eqb_spec sid ""); [|done].
    by destruct (resolve_session_id_nonempty E (main.session_id request)). }
  destruct (process_message_spec E
              (fun m => Ok (agents.intent_agent E m))
              (fun q => Ok (agents.retrieval_agent E q))
              (fun c m s => Ok (agents.responder_agent E c m s))
              (fun d c => Ok (agents.verifier_agent E d c))
              (fun a => Ok (agents.action_confirmation_agent E a))
              (main.message request) (Some sid) w)
    as (r & w' & new & Hrun & Hrsid & Hint & _).
  rewrite Hsid in Hrsid.
  change (orchestrator.process_message_with E _ _ _ _ _ ?m ?s w)
    with (orchestrator.process_message E m s w) in Hrun.
  exists r, w'. split.
  { unfold try_except, bind. by rewrite Hrun. }
  split; [by rewrite Hrsid|]. split; [done|].
  split; [rewrite Hrsid; apply resolve_session_id_nonempty|].
  rewrite Hint. apply intent_agent_valid.
Qed.

(** * Chunks of a manual *)

Lemma substring_take_drop k m s : String.substring k m s = take m (drop k s).
Proof.
  revert k m. induction s as [|c s IH]; intros k m.
  - by destruct k, m.
  - destruct k as [|k].
    + destruct m as [|m]; [done|]. cbn [String.substring drop take]. f_equal.
      rewrite IH. by destruct s.
    + cbn [String.substring drop]. apply IH.
Qed.

Lemma drop_length k s : String.length (drop k s) = String.length s - k.
Proof.
  revert k. induction s as [|c s IH]; intros k; [by destruct k|].
  destruct k as [|k]; [done|]. cbn [drop String.length]. by rewrite IH.
Qed.

Lemma drop_all k s : String.length s <= k -> drop k s = "".
Proof.
  revert k. induction s as [|c s IH]; intros k Hk; [by destruct k|].
  destruct k as [|k]; [simpl in Hk; lia|]. cbn [drop]. apply IH. simpl in Hk. lia.
Qed.

Lemma drop_drop a b s : drop a (drop b s) = drop (b + a) s.
Proof.
  revert b. induction s as [|c s IH]; intros b.
  - destruct b; [by destruct a|]. cbn [drop Nat.add]. by destruct a.
  - destruct b as [|b]; [done|]. cbn [drop Nat.add]. apply IH.
Qed.

Lemma take_drop_s m s : take m s +:+ drop m s = s.
Proof.
  revert s. induction m as [|m IH]; intros s; [by destruct s|].
  destruct s as [|c s]; [done|]. cbn [take drop]. by rewrite app_cons, IH.
Qed.

Lemma take_take a b s : a <= b -> take a (take b s) = take a s.
Proof.
  revert b s. induction a as [|a IH]; intros b s Hab; [by destruct (take b s), s|].
  destruct b as [|b]; [lia|]. destruct s as [|c s]; [done|].
  cbn [take]. f_equal. apply IH. lia.
Qed.

Lemma take_more m k s : String.length s <= k -> take (Nat.min m k) s = take m s.
Proof.
  revert k s. induction m as [|m IH]; intros k s Hk; [done|].
  destruct s as [|c s]; [by destruct (Nat.min (S m) k)|].
  destruct k as [|k]; [simpl in Hk; lia|]. cbn [Nat.min take]. f_equal.
  apply IH. simpl in Hk. lia.
Qed.

(** A slice that starts inside the text and is [c] characters long. *)
Lemma slice_chunk text k c :
  k < String.length text ->
  rag.slice text (Z.of_nat k) (Z.of_nat k + Z.of_nat c) = take c (drop k text).
Proof.
  intros Hk. unfold rag.slice, rag.clip.
  destruct (Z.ltb_spec (Z.of_nat k) 0) as [?|_]; [lia|].
  destruct (Z.ltb_spec (Z.of_nat k + Z.of_nat c) 0) as [?|_]; [lia|].
  rewrite substring_take_drop.
  replace (Z.to_nat (Z.min (Z.of_nat k) (Z.of_nat (String.length text)))) with k by lia.
  replace (Z.to_nat (Z.min (Z.of_nat k + Z.of_nat c) (Z.of_nat (String.length text))
                     - Z.min (Z.of_nat k) (Z.of_nat (String.length text))))
    with (Nat.min c (String.length text - k)) by lia.
  apply take_more. by rewrite drop_length.
Qed.

Section Chunks.
Variable text : string.
Variable c : nat.
Variable o : nat.
Hypothesis Hstep : o < c.

(** One iteration of the loop at an index inside the text, and at one
    outside. *)
Lemma chunk_loop_inside fuel k :
  k < String.length text ->
  rag.chunk_loop (S fuel) text (Z.of_nat c) (Z.of_nat o) (Z.of_nat k) =
  match rag.chunk_loop fuel text (Z.of_nat c) (Z.of_nat o) (Z.of_nat (k + (c - o))) with
  | Some chunks => Some (take c (drop k text) :: chunks)
  | None => None
  end.
Proof.
  intros Hk. cbn [rag.chunk_loop].
  destruct (Z.ltb_spec (Z.of_nat k) (Z.of_nat (String.length text))) as [_|?]; [|lia].
  cbv zeta. rewrite slice_chunk by done.
  by replace (Z.of_nat k + (Z.of_nat c - Z.of_nat o))%Z with (Z.of_nat (k + (c - o))) by lia.
Qed.

Lemma chunk_loop_outside fuel k :
  String.length text <= k ->
  rag.chunk_loop (S fuel) text (Z.of_nat c) (Z.of_nat o) (Z.of_nat k) = Some [].
Proof.
  intros Hk. cbn [rag.chunk_loop].
  by destruct (Z.ltb_spec (Z.of_nat k) (Z.of_nat (String.length text))) as [?|_]; [lia|].
Qed.

Lemma chunk_loop_ends fuel : forall k,
  String.length text - k < fuel ->
  exists chunks, rag.chunk_loop fuel text (Z.of_nat c) (Z.of_nat o) (Z.of_nat k) = Some chunks.
Proof.
  induction fuel as [|fuel IH]; intros k Hfuel; [lia|].
  destruct (Nat.lt_ge_cases k (String.length text)) as [Hk|Hk].
  - rewrite chunk_loop_inside by done.
    destruct (IH (k + (c - o))) as [chunks ->]; [lia|]. eauto.
  - rewrite chunk_loop_outside by done. eauto.
Qed.

Lemma chunk_loop_lookup fuel : forall k chunks,
  rag.chunk_loop fuel text (Z.of_nat c) (Z.of_nat o) (Z.of_nat k) = Some chunks ->
  forall i,
    chunks !! i =
    if Nat.ltb (k + i * (c - o)) (String.length text)
    then Some (take c (drop (k + i * (c - o)) text)) else None.
Proof.
  induction fuel as [|fuel IH]; intros k chunks Hrun i; [done|].
  destruct (Nat.lt_ge_cases k (String.length text)) as [Hk|Hk].
  - rewrite chunk_loop_inside in Hrun by done.
    destruct (rag.chunk_loop fuel text _ _ _) as [chunks'|] eqn:Hrest; [|done].
    injection Hrun as <-. destruct i as [|i].
    + change ((take c (drop k text) :: chunks') !! 0) with (Some (take c (drop k text))).
      cbn [Nat.mul]. rewrite Nat.add_0_r.
      by destruct (Nat.ltb_spec k (String.length text)); [|lia].
    + change ((take c (drop k text) :: chunks') !! S i) with (chunks' !! i).
      rewrite (IH _ _ Hrest i). cbn [Nat.mul]. by rewrite Nat.add_assoc.
  - rewrite chunk_loop_outside in Hrun by done. injection Hrun as <-.
    rewrite lookup_nil. generalize (i * (c - o)). intros m.
    by destruct (Nat.ltb_spec (k + m) (String.length text)); [lia|].
Qed.

Lemma chunk_loop_covers fuel : forall k chunks,
  rag.chunk_loop fuel text (Z.of_nat c) (Z.of_nat o) (Z.of_nat k) = Some chunks ->
  join "" (map (take (c - o)) chunks) = drop k text.
Proof.
  induction fuel as [|fuel IH]; intros k chunks Hrun; [done|].
  destruct (Nat.lt_ge_cases k (String.length text)) as [Hk|Hk].
  - rewrite chunk_loop_inside in Hrun by done.
    destruct (rag.chunk_loop fuel text _ _ _) as [chunks'|] eqn:Hrest; [|done].
    injection Hrun as <-. specialize (IH _ _ Hrest).
    assert (Hhead : take (c - o) (take c (drop k text)) +:+ drop (k + (c - o)) text = drop k text).
    { rewrite take_take by lia. rewrite <- drop_drop. apply take_drop_s. }
    cbn [map]. destruct chunks' as [|chunk chunks'].
    + cbn [join]. simpl in IH. rewrite <- IH, app_empty_r in Hhead. exact Hhead.
    + change (join "" (?x :: map ?f (chunk :: chunks')))
        with (x +:+ "" +:+ join "" (map f (chunk :: chunks'))).
      rewrite app_nil, IH. exact Hhead.
  - rewrite chunk_loop_outside in Hrun by done. injection Hrun as <-.
    by rewrite drop_all.
Qed.

End Chunks.

(** X25.  With a chunk size and an overlap such that
    [0 <= overlap < chunk_size], [chunk_text] ends: it returns the chunks
    that start every [chunk_size - overlap] characters, as long as the start
    is inside the text, each made of the [chunk_size] characters from its
    start on, or of those that are left.  The result does not depend on how
    long the loop is allowed to run beyond one iteration for each character
    and one more.  A chunk is never empty and never longer than
    [chunk_size]. *)
Theorem chunk_text_chunks text (chunk_size overlap : Z) :
  (0 <= overlap < chunk_size)%Z ->
  let size := Z.to_nat chunk_size in
  let step := Z.to_nat (chunk_size - overlap) in
  exists chunks,
    rag.chunk_text text chunk_size overlap = Some chunks /\
    (forall fuel, String.length text < fuel ->
       rag.chunk_loop fuel text chunk_size overlap 0 = Some chunks) /\
    (forall i,
       chunks !! i =
       if Nat.ltb (i * step) (String.length text)
       then Some (String.substring (i * step) size text) else None) /\
    (forall chunk, In chunk chunks -> 1 <= String.length chunk <= size).
Proof.
  intros Hbounds size step.
  set (c := Z.to_nat chunk_size). set (o := Z.to_nat overlap).
  assert (Hc : chunk_size = Z.of_nat c) by (unfold c; lia).
  assert (Ho : overlap = Z.of_nat o) by (unfold o; lia).
  assert (Hstep : o < c) by (unfold c, o; lia).
  assert (Hs : step = c - o) by (unfold step, c, o; lia).
  rewrite Hs. unfold size. fold c. rewrite Hc, Ho. clearbody c o. clear Hc Ho Hs Hbounds.
  destruct (chunk_loop_ends text c o Hstep (S (String.length text)) 0) as [chunks Hrun]; [lia|].
  change (Z.of_nat 0) with 0%Z in Hrun.
  assert (Hlookup : forall i,
    chunks !! i =
    if Nat.ltb (i * (c - o)) (String.length text)
    then Some (String.substring (i * (c - o)) c text) else None).
  { intros i. rewrite (chunk_loop_lookup text c o Hstep _ 0 chunks Hrun i).
    cbn [Nat.add]. by rewrite substring_take_drop. }
  exists chunks. split; [exact Hrun|]. split; [|split; [exact Hlookup|]].
  - intros fuel Hfuel.
    destruct (chunk_loop_ends text c o Hstep fuel 0) as [chunks' Hrun']; [lia|].
    change (Z.of_nat 0) with 0%Z in Hrun'. rewrite Hrun'. f_equal.
    apply list_eq. intros i.
    rewrite Hlookup, (chunk_loop_lookup text c o Hstep _ 0 chunks' Hrun' i).
    cbn [Nat.add]. by rewrite substring_take_drop.
  - intros chunk Hin. apply list_elem_of_In, list_elem_of_lookup in Hin as [i Hi].
    rewrite Hlookup in Hi.
    destruct (Nat.ltb_spec (i * (c - o)) (String.length text)) as [Hlt|]; [|done].
    injection Hi as <-. rewrite substring_take_drop. split; [|apply take_length].
    pose proof (drop_length (i * (c - o)) text) as Hlen.
    destruct (drop (i * (c - o)) text) as [|a rest]; [simpl in Hlen; lia|].
    destruct c as [|c]; [lia|]. simpl. lia.
Qed.

Lemma chunk_text_chunks_witness :
  rag.chunk_text "abcdefghij" 4 1 = Some ["abcd"; "defg"; "ghij"; "j"].
Proof.
  destruct (chunk_text_chunks "abcdefghij" 4 1) as (chunks & Hrun & _ & Hlookup & _); [lia|].
  rewrite Hrun. f_equal. apply list_eq. intros i. rewrite Hlookup.
  do 5 (destruct i as [|i]; [reflexivity|]). reflexivity.
Defined.

(** X26.  With a chunk size and an overlap such that
    [0 <= overlap < chunk_size] no character of the text is lost and none
    is out of place: the text is the concatenation of the chunks once each
    is cut to its first [chunk_size - overlap] characters.  This holds in
    particular for the default arguments, 450 and 50. *)
Theorem chunk_text_covers text (chunk_size overlap : Z) chunks :
  (0 <= overlap < chunk_size)%Z ->
  rag.chunk_text text chunk_size overlap = Some chunks ->
  join "" (map (take (Z.to_nat (chunk_size - overlap))) chunks) = text.
Proof.
  intros Hbounds Hrun. unfold rag.chunk_text in Hrun.
  set (c := Z.to_nat chunk_size). set (o := Z.to_nat overlap).
  assert (Hc : chunk_size = Z.of_nat c) by (unfold c; lia).
  assert (Ho : overlap = Z.of_nat o) by (unfold o; lia).
  assert (Hstep : o < c) by (unfold c, o; lia).
  replace (Z.to_nat (chunk_size - overlap)) with (c - o) by (unfold c, o; lia).
  rewrite Hc, Ho in Hrun. change 0%Z with (Z.of_nat 0) in Hrun.
  by rewrite (chunk_loop_covers text c o Hstep _ 0 chunks Hrun).
Qed.

Lemma chunk_text_covers_witness :
  rag.chunk_text "abcdefghij" 4 1 = Some ["abcd"; "defg"; "ghij"; "j"] /\
  join "" (map (take 3) ["abcd"; "defg"; "ghij"; "j"]) = "abcdefghij".
Proof.
  split; [reflexivity|].
  apply (chunk_text_covers "abcdefghij" 4 1 ["abcd"; "defg"; "ghij"; "j"]); [lia|reflexivity].
Defined.

(** X27.  With an overlap that is not smaller than the chunk size the
    loop of [chunk_text] never ends on a text that is not empty: however
    long it runs, it has not returned. *)
Theorem chunk_text_diverges text (chunk_size overlap : Z) :
  (chunk_size <= overlap)%Z ->
  text <> "" ->
  (forall fuel, rag.chunk_loop fuel text chunk_size overlap 0 = None) /\
  rag.chunk_text text chunk_size overlap = None.
Proof.
  intros Hstep Hne.
  assert (Hlen : (0 < Z.of_nat (String.length text))%Z).
  { destruct text; [done|]. simpl. lia. }
  assert (Hloop : forall fuel start,
            (start <= 0)%Z -> rag.chunk_loop fuel text chunk_size overlap start = None).
  { induction fuel as [|fuel IH]; intros start Hstart; [done|].
    cbn [rag.chunk_loop].
    destruct (Z.ltb_spec start (Z.of_nat (String.length text))) as [_|?]; [|lia].
    cbv zeta. rewrite IH by lia. done. }
  split; [intros fuel; by apply Hloop|]. by apply Hloop.
Qed.

Lemma chunk_text_diverges_witness :
  rag.chunk_text "abc" 50 50 = None /\ rag.chunk_loop 1000 "abc" 50 50 0 = None.
Proof.
  destruct (chunk_text_diverges "abc" 50 50) as [Hloop Htext]; [lia|discriminate|].
  split; [exact Htext|apply Hloop].
Defined.

(** ** The further properties on the small deployment *)

Lemma slot_complete_is_info_complete_witness :
  fst (session_manager.is_info_complete demo_env "s1" demo_world_reason) = Ok true.
Proof.
  eapply (slot_complete_is_info_complete demo_env "s1" "initiate_refund" demo_world_reason);
    reflexivity.
Defined.

(** The session knows its order and the reason, and the classifier
    answers with a refund: the refund is executed. *)
Lemma complete_action_is_executed_witness :
  exists r w',
    orchestrator.process_message demo_env (VStr "yes") (Some "s1") demo_world_reason
      = (Ok r, w') /\
    orchestrator.action r = "initiate_refund" /\
    orchestrator.answer r =
      "Your refund request has been processed." +:+ nl +:+ nl +:+
      "**Request ID:** REF-20251201-0001" +:+ nl +:+ nl +:+
      "You'll receive confirmation via email shortly." /\
    slot demo_env "s1" "action_id" w' = VStr "REF-20251201-0001" /\
    slot demo_env "s1" "conversation_state" w' = VStr "action_executed".
Proof.
  destruct (complete_action_is_executed demo_env
              (fun m => Ok (agents.intent_agent demo_env m))
              (fun q => Ok (agents.retrieval_agent demo_env q))
              (fun c m s => Ok (agents.responder_agent demo_env c m s))
              (fun d c => Ok (agents.verifier_agent demo_env d c))
              (fun a => Ok (agents.action_confirmation_agent demo_env a))
              "yes" (Some "s1") demo_world_reason "REF" refunds_json)
    as (r & w' & data & email & Hrun & H).
  - reflexivity.
  - vm_compute. reflexivity.
  - reflexivity.
  - reflexivity.
  - cbv zeta in H.
    destruct H as (Ha & _ & Hans & _ & _ & _ & _ & _ & _ & _ & Hid & _ & Hstate).
    exists r, w'. split; [exact Hrun|]. split; [exact Ha|]. split; [exact Hans|].
    split; [exact Hid|exact Hstate].
Defined.


Lemma only_known_keys_are_written_witness :
  exists r w',
    orchestrator.process_message demo_env (VStr "My order is ORD201") (Some "s1")
      demo_world_linked = (Ok r, w') /\
    entry demo_env "s1" "model_number" w' = entry demo_env "s1" "model_number" demo_world_linked.
Proof.
  apply (only_known_keys_are_written demo_env
           (fun m => Ok (agents.intent_agent demo_env m))
           (fun q => Ok (agents.retrieval_agent demo_env q))
           (fun c m s => Ok (agents.responder_agent demo_env c m s))
           (fun d c => Ok (agents.verifier_agent demo_env d c))
           (fun a => Ok (agents.action_confirmation_agent demo_env a))
           (VStr "My order is ORD201") (Some "s1") demo_world_linked "model_number").
  unfold written_keys, order_keys. cbn [app In]. intros H.
  repeat (destruct H as [H|H]; [discriminate|]). exact H.
Defined.

Lemma no_model_degrades_witness :
  exists r w',
    orchestrator.process_message demo_env_offline (VStr "I want a refund") (Some "s1")
      demo_world_reason = (Ok r, w') /\
    orchestrator.intent r = "general_query" /\
    orchestrator.answer r =
      "I apologize, but I'm experiencing technical difficulties. Please try again later." /\
    orchestrator.action r = "none" /\
    same_ledgers demo_world_reason w'.
Proof.
  destruct (no_model_degrades demo_env_offline "I want a refund" (Some "s1") demo_world_reason)
    as (r & w' & Hrun & Hint & Hans & _ & Ha & _ & _ & Hsame).
  - exact I.
  - exists r, w'. split; [exact Hrun|]. split; [exact Hint|]. split; [exact Hans|].
    split; [exact Ha|exact Hsame].
Defined.

Lemma get_order_by_id_first_match_witness :
  order_lookup.get_order_by_id " ord201 " demo_world = Some demo_order /\
  order_lookup.get_order_by_id ("stra" +:+ String "223" "e") demo_world_street
    = Some {[ "order_id" := VStr "STRASSE" ]}.
Proof.
  split.
  - apply (proj1 (get_order_by_id_first_match " ord201 " demo_world) demo_order).
    exists [], []. split; [reflexivity|]. split; [intros o []|].
    exists "ORD201". split; reflexivity.
  - apply (proj1 (get_order_by_id_first_match ("stra" +:+ String "223" "e") demo_world_street)
             {[ "order_id" := VStr "STRASSE" ]}).
    exists [], [{[ "order_id" := VStr ("stra" +:+ String "223" "e") ]}].
    split; [reflexivity|]. split; [intros o []|].
    exists "STRASSE". split; reflexivity.
Defined.

Lemma session_context_lists_known_slots_witness :
  exists context w',
    session_manager.get_session_context demo_env "s1" demo_world_linked = (Ok context, w') /\
    startswith context "Known Information:" = true /\
    contains context "- Order ID: ORD201" = true.
Proof.
  destruct (session_context_lists_known_slots demo_env "s1" demo_world_linked)
    as (context & w' & Hrun & _ & _ & Hknown).
  exists context, w'. split; [exact Hrun|].
  apply (Hknown "order_id" "Order ID: "); [simpl; tauto|reflexivity].
Defined.

Lemma order_fields_are_copied_witness :
  exists r w',
    orchestrator.process_message demo_env (VStr "My order is ORD201") (Some "s2") demo_world
      = (Ok r, w') /\
    slot demo_env "s2" "customer_name" w' = VStr "Asha Rao" /\
    slot demo_env "s2" "serial_number" w' = VNone.
Proof.
  pose proof (order_fields_are_copied demo_env
                (fun m => Ok (agents.intent_agent demo_env m))
                (fun q => Ok (agents.retrieval_agent demo_env q))
                (fun c m s => Ok (agents.responder_agent demo_env c m s))
                (fun d c => Ok (agents.verifier_agent demo_env d c))
                (fun a => Ok (agents.action_confirmation_agent demo_env a))
                "My order is ORD201" (Some "s2") demo_world) as H.
  cbv zeta in H. destruct H as (r & w' & Hrun & Hcopy).
  assert (Hlink : linked_order "My order is ORD201" demo_world = Some demo_order)
    by reflexivity.
  rewrite Hlink in Hcopy.
  exists r, w'. split; [exact Hrun|]. split.
  - apply (Hcopy "customer_name"). unfold order_keys. simpl. tauto.
  - apply (Hcopy "serial_number"). unfold order_keys. simpl. tauto.
Defined.

Lemma chat_validates_and_answers_witness :
  main.chat demo_env {| main.message := "   "; main.session_id := Some "s1" |} demo_world
    = (Ok (main.HTTPException 400 "Message cannot be empty"), demo_world) /\
  exists r w',
    main.chat demo_env {| main.message := "hello"; main.session_id := None |} demo_world
      = (Ok (main.Returned r), w') /\
    orchestrator.session_id r = "session_0123456789ab".
Proof.
  split.
  - apply (chat_validates_and_answers demo_env
             {| main.message := "   "; main.session_id := Some "s1" |} demo_world).
  - pose proof (chat_validates_and_answers demo_env
                  {| main.message := "hello"; main.session_id := None |} demo_world) as H.
    cbn [main.message main.session_id] in H.
    change (String.eqb (strip "hello") "") with false in H.
    change (Nat.ltb 5000 (String.length "hello")) with false in H.
    cbn iota in H. destruct H as (r & w' & Hrun & _ & Hsid & _).
    exists r, w'. split; [exact Hrun|exact Hsid].
Defined.
